(** * Settings resolution and caching of [src/client/common/configSettings.ts]

    A shallow embedding of the [PythonSettings] class and of the two module
    functions [getAbsolutePath] and [getPythonExecutable], together with the
    properties of the registry, of the recompute step and of the path
    normalisation that the specification states.

    Layers, leaves first:
    - [Js]        : run-time values, completions (normal / thrown), string helpers;
    - [Host]      : the collaborators the file imports (node's [path] and [fs],
                    [untildify], the platform probes, [SystemVariables]);
    - path layer  : [getAbsolutePath], [isValidPythonPath], [getPythonExecutable];
    - instance    : the fields of one [PythonSettings] object, its setters,
                    [getPythonPath] and [update];
    - registry    : the static [pythonSettings] map over a heap of instances,
                    [getInstance], the static [dispose], [onWorkspaceFoldersChanged].

    The change notifications ([onDidChanged], the two debounced emitters) and
    [toSerializable] are not part of the embedding. *)

From Stdlib Require Import ZArith Lia.
From Stdlib Require Ascii String.
Import (notations) Ascii.
From stdpp Require Import base option list strings functions gmap.

Local Open Scope Z_scope.
Local Set Warnings "-register-all".

(** ** Run-time values and completions *)

Module Js.

(** What a statement or call ends in: a value, or a thrown error. *)
Inductive JsError : Type :=
| TypeError (msg : string)
| Error (msg : string)
| HostError (msg : string).

Inductive Completion (A : Type) : Type :=
| Normal (a : A)
| Throw (e : JsError).
Arguments Normal {A} a.
Arguments Throw {A} e.

Definition cbind {A B} (c : Completion A) (k : A → Completion B) : Completion B :=
  match c with
  | Normal a => k a
  | Throw e => Throw e
  end.

(** Values a configuration store can hand out: JSON values and [undefined].
    Numbers are carried as integers; nothing below computes with them. *)
Inductive Value : Type :=
| VUndefined
| VNull
| VBool (b : bool)
| VNum (n : Z)
| VStr (s : string)
| VArr (items : list Value)
| VObj (props : list (string * Value)).

(** [v === true] *)
Definition strictEqTrue (v : Value) : bool :=
  match v with
  | VBool true => true
  | _ => false
  end.

(** [Array.isArray(v)] *)
Definition isArray (v : Value) : bool :=
  match v with
  | VArr _ => true
  | _ => false
  end.

(** [typeof v === 'boolean'] *)
Definition isBoolean (v : Value) : bool :=
  match v with
  | VBool _ => true
  | _ => false
  end.

(** [s.indexOf(sub)], [-1] when [sub] does not occur. *)
Definition indexOf (s sub : string) : Z :=
  match String.index 0 sub s with
  | Some n => Z.of_nat n
  | None => -1
  end.

(** [s.startsWith(p)] *)
Definition startsWith (s p : string) : bool := String.prefix p s.

Definition lowerAscii (c : Ascii.ascii) : Ascii.ascii :=
  let n := Ascii.nat_of_ascii c in
  if (Nat.leb 65 n && Nat.leb n 90)%bool then Ascii.ascii_of_nat (n + 32) else c.

(** [s.toLowerCase()], on the ASCII letters (the only ones that can take
    part in the prefix ['python']). *)
Fixpoint toLowerCase (s : string) : string :=
  match s with
  | EmptyString => EmptyString
  | String c r => String (lowerAscii c) (toLowerCase r)
  end.

(** [!s] for a string: only the empty string is falsy. *)
Definition strFalsy (s : string) : bool :=
  match s with
  | EmptyString => true
  | _ => false
  end.

(** [!v] for [string | undefined]. *)
Definition optFalsy (v : option string) : bool :=
  match v with
  | None => true
  | Some s => strFalsy s
  end.

End Js.
Import Js.

Notation "x ←! c ; k" := (cbind c (λ x, k))
  (at level 20, c at level 100, k at level 200, right associativity, only parsing).

(** ** The collaborators *)

Inductive OSType : Type := Unknown | Windows | OSX | Linux.

Global Instance OSType_eq_dec : EqDecision OSType.
Proof. solve_decision. Defined.

(** Everything [configSettings.ts] imports and calls without defining it.
    [path_join] is node's variadic [path.join]; [fs_existsSync] may throw, as
    any call into the host may; [untildify_string] is what [untildify] does to
    a string; [resolveString] is [SystemVariables] on one string for a given
    workspace root. *)
Record Host : Type := {
  path_sep : string;
  path_join : list string → string;
  path_basename : string → string;
  path_dirname : string → string;
  path_isAbsolute : string → bool;
  path_resolve : string → string → string;
  fs_existsSync : string → Completion bool;
  untildify_string : string → string;
  isWindows : bool;
  getOSType : OSType;
  isTestExecution : bool;
  __dirname : string;
  DEFAULT_INTERPRETER_SETTING : string;
  resolveString : option string → string → string
}.

(** ** [getAbsolutePath] and [getPythonExecutable] *)

Section Paths.
Context (h : Host).

(** [untildify(x)]: the package throws a [TypeError] on anything that is not
    a string. *)
Definition untildify (x : option string) : Completion string :=
  match x with
  | Some s => Normal (untildify_string h s)
  | None => Throw (TypeError "Expected a string, got undefined")
  end.

(** [function getAbsolutePath(pathToCheck, rootDir)] *)
Definition getAbsolutePath (pathToCheck rootDir : option string) : Completion string :=
  let rootDir := if optFalsy rootDir then __dirname h else default ""%string rootDir in
  pathToCheck ←! untildify pathToCheck;
  if (isTestExecution h && strFalsy pathToCheck)%bool then Normal rootDir
  else if decide (indexOf pathToCheck (path_sep h) = -1) then Normal pathToCheck
  else Normal (if path_isAbsolute h pathToCheck then pathToCheck
               else path_resolve h rootDir pathToCheck).

(** [function isValidPythonPath(pythonPath)] *)
Definition isValidPythonPath (pythonPath : string) : Completion bool :=
  e ←! fs_existsSync h pythonPath;
  Normal (e && startsWith
                 (path_basename h (if decide (getOSType h = Windows)
                                   then toLowerCase pythonPath else pythonPath))
                 "python")%bool.

Definition KnownPythonExecutables : list string :=
  [ "python"; "python4"; "python3.6"; "python3.5"; "python3";
    "python2.7"; "python2"; "python3.7"; "python3.8"; "python3.9" ]%string.

(** The [for (let executableName of ...)] loop of [getPythonExecutable],
    with its two probes per name and its fall-through result. *)
Fixpoint probeExecutables (pythonPath : string) (names : list string) : Completion string :=
  match names with
  | [] => Normal pythonPath
  | executableName :: rest =>
      if isWindows h then
        let executableName := (executableName +:+ ".exe")%string in
        v ←! isValidPythonPath (path_join h [pythonPath; executableName]);
        if v then Normal (path_join h [pythonPath; executableName])
        else
          v ←! isValidPythonPath (path_join h [pythonPath; "Scripts"%string; executableName]);
          if v then Normal (path_join h [pythonPath; "Scripts"%string; executableName])
          else probeExecutables pythonPath rest
      else
        v ←! isValidPythonPath (path_join h [pythonPath; executableName]);
        if v then Normal (path_join h [pythonPath; executableName])
        else
          v ←! isValidPythonPath (path_join h [pythonPath; "bin"%string; executableName]);
          if v then Normal (path_join h [pythonPath; "bin"%string; executableName])
          else probeExecutables pythonPath rest
  end.

(** The first [if] of [getPythonExecutable]: the value is taken as it is. *)
Definition isBareOrRoot (pythonPath : string) : bool :=
  (bool_decide (pythonPath = "python"%string)
   || bool_decide (indexOf pythonPath (path_sep h) = -1)
   || bool_decide (path_basename h pythonPath = path_dirname h pythonPath))%bool.

(** [function getPythonExecutable(pythonPath)] *)
Definition getPythonExecutable (pythonPath : option string) : Completion string :=
  pythonPath ←! untildify pythonPath;
  if isBareOrRoot pythonPath then Normal pythonPath
  else
    v ←! isValidPythonPath pythonPath;
    if v then Normal pythonPath
    else probeExecutables pythonPath KnownPythonExecutables.

(** The two paths the loop body probes for one name, in its order. *)
Definition firstLayout (dir name : string) : string :=
  if isWindows h then path_join h [dir; (name +:+ ".exe")%string]
  else path_join h [dir; name].

Definition secondLayout (dir name : string) : string :=
  if isWindows h then path_join h [dir; "Scripts"%string; (name +:+ ".exe")%string]
  else path_join h [dir; "bin"%string; name].

(** The paths the loop probes for a directory, in the order it probes them. *)
Definition probedPaths (dir : string) (names : list string) : list string :=
  names ≫= λ name, [firstLayout dir name; secondLayout dir name].

End Paths.

(** ** A POSIX host, for running the definitions on concrete inputs

    Node's [path.posix] functions written out on strings, [untildify] for a
    given home directory, and a file system given by the list of the paths
    that exist. *)

Module Posix.

Definition slash : Ascii.ascii := "/"%char.
Definition isSlash (c : Ascii.ascii) : bool := bool_decide (c = slash).

Definition chars (s : string) : list Ascii.ascii := String.list_ascii_of_string s.
Definition str (l : list Ascii.ascii) : string := String.string_of_list_ascii l.

Fixpoint dropSlashes (l : list Ascii.ascii) : list Ascii.ascii :=
  match l with
  | c :: r => if isSlash c then dropSlashes r else l
  | [] => []
  end.

Fixpoint dropName (l : list Ascii.ascii) : list Ascii.ascii :=
  match l with
  | c :: r => if isSlash c then l else dropName r
  | [] => []
  end.

Fixpoint takeName (l : list Ascii.ascii) : list Ascii.ascii :=
  match l with
  | c :: r => if isSlash c then [] else c :: takeName r
  | [] => []
  end.

(** The segments between slashes, empty ones included. *)
Fixpoint segments (l : list Ascii.ascii) (cur : list Ascii.ascii) : list string :=
  match l with
  | [] => [str (rev cur)]
  | c :: r => if isSlash c then str (rev cur) :: segments r [] else segments r (c :: cur)
  end.

(** [normalizeString]: the stack of kept segments, last one first. *)
Fixpoint normalizeSegments (allowAboveRoot : bool) (segs : list string)
    (kept : list string) : list string :=
  match segs with
  | [] => rev kept
  | s :: r =>
      if bool_decide (s = ""%string) || bool_decide (s = "."%string) then
        normalizeSegments allowAboveRoot r kept
      else if bool_decide (s = ".."%string) then
        match kept with
        | k :: kept' =>
            if bool_decide (k = ".."%string)
            then normalizeSegments allowAboveRoot r (s :: kept)
            else normalizeSegments allowAboveRoot r kept'
        | [] =>
            if allowAboveRoot
            then normalizeSegments allowAboveRoot r [s]
            else normalizeSegments allowAboveRoot r []
        end
      else normalizeSegments allowAboveRoot r (s :: kept)
  end.

Fixpoint joinWith (sepr : string) (l : list string) : string :=
  match l with
  | [] => ""
  | [s] => s
  | s :: r => s +:+ sepr +:+ joinWith sepr r
  end.

Definition normalizeString (p : string) (allowAboveRoot : bool) : string :=
  joinWith "/" (normalizeSegments allowAboveRoot (segments (chars p) []) []).

Definition isAbsolute (p : string) : bool :=
  match p with
  | String c _ => isSlash c
  | EmptyString => false
  end.

Definition endsWithSlash (p : string) : bool :=
  match rev (chars p) with
  | c :: _ => isSlash c
  | [] => false
  end.

(** [path.posix.normalize] *)
Definition normalize (p : string) : string :=
  if strFalsy p then "."%string
  else
    let r := normalizeString p (negb (isAbsolute p)) in
    if strFalsy r then
      (if isAbsolute p then "/" else if endsWithSlash p then "./" else ".")%string
    else
      let r := if endsWithSlash p then (r +:+ "/")%string else r in
      if isAbsolute p then ("/" +:+ r)%string else r.

(** [path.posix.join] *)
Definition join (parts : list string) : string :=
  match filter (λ s, s ≠ ""%string) parts with
  | [] => "."%string
  | l => normalize (joinWith "/" l)
  end.

(** [path.posix.basename], without the extension argument. *)
Definition basename (p : string) : string :=
  str (rev (takeName (dropSlashes (rev (chars p))))).

(** [path.posix.dirname] *)
Definition dirname (p : string) : string :=
  if strFalsy p then "."%string
  else
    match dropName (dropSlashes (rev (chars p))) with
    | [] | [_] => if isAbsolute p then "/"%string else "."%string
    | _ :: before =>
        if isAbsolute p && bool_decide (length before = 1%nat)
        then "//"%string else str (rev before)
    end.

(** [path.posix.resolve(root, p)] for a process whose working directory is
    [cwd] (an absolute path). *)
Definition resolve (cwd root p : string) : string :=
  let joined :=
    if isAbsolute p then p
    else if isAbsolute root then joinWith "/" (filter (λ s, s ≠ ""%string) [root; p])
    else joinWith "/" (filter (λ s, s ≠ ""%string) [cwd; root; p]) in
  ("/" +:+ normalizeString joined false)%string.

(** [untildify]: [/^~(?=$|\/|\\)/] replaced by the home directory, when
    there is one. *)
Definition untildify (home p : string) : string :=
  if strFalsy home then p
  else
    match p with
    | String "~" rest =>
        match rest with
        | EmptyString => home
        | String c _ =>
            if bool_decide (c = "/"%char) || bool_decide (c = "\"%char)
            then (home +:+ rest)%string else p
        end
    | _ => p
    end.

(** The host: [files] are the paths that exist, [broken] those whose probe
    throws. *)
Definition host (home : string) (files broken : list string) (test : bool) : Host := {|
  path_sep := "/";
  path_join := join;
  path_basename := basename;
  path_dirname := dirname;
  path_isAbsolute := isAbsolute;
  path_resolve := resolve "/";
  fs_existsSync := λ p,
    if bool_decide (p ∈ broken) then Throw (HostError "EACCES")
    else Normal (bool_decide (p ∈ files));
  untildify_string := untildify home;
  isWindows := false;
  getOSType := Linux;
  isTestExecution := test;
  __dirname := "/ext/out/client/common";
  DEFAULT_INTERPRETER_SETTING := "python";
  resolveString := λ _ s, s
|}.

End Posix.

(** ** The data model *)

(** [vscode.Uri], as far as the file reads it. *)
Record Uri : Type := { fsPath : string }.

Global Instance Uri_eq_dec : EqDecision Uri.
Proof. solve_decision. Defined.

(** [Resource = Uri | undefined] *)
Abbreviation Resource := (option Uri).

Record WorkspaceFolder : Type := { uri : Uri; name : string; index : nat }.

(** Host objects (a workspace service, an interpreter path service) are held
    by reference; listeners are identified by the [Disposable] that removes
    them. *)
Abbreviation handle := nat (only parsing).
Abbreviation loc := nat (only parsing).

(** [WorkspaceConfiguration]: what [get(key)] returns for each key the file
    reads. String settings are carried at their declared type
    [string | undefined]; the flags and the lists, whose raw values
    the code inspects at run time, are arbitrary values. *)
Record WorkspaceConfiguration : Type := {
  raw_pythonPath : option string;
  raw_defaultInterpreterPath : option string;
  raw_venvPath : option string;
  raw_venvFolders : Value;
  raw_activeStateToolPath : option string;
  raw_condaPath : option string;
  raw_pipenvPath : option string;
  raw_poetryPath : option string;
  raw_autoUpdateLanguageServer : Value;
  raw_envFile : option string;
  raw_devOptions : Value;
  raw_disableInstallationCheck : Value;
  raw_globalModuleInstallation : Value;
  raw_terminal : option (list (string * Value))
}.

(** [get<T>(key, defaultValue)]: the default stands in for an unset key. *)
Definition getWithDefault (raw defaultValue : Value) : Value :=
  match raw with
  | VUndefined => defaultValue
  | _ => raw
  end.

(** What a workspace service answers at a given moment. *)
Record WorkspaceState : Type := {
  workspaceFolders : option (list WorkspaceFolder);
  getWorkspaceFolder : Uri → option WorkspaceFolder;
  getConfiguration : string → Resource → option WorkspaceConfiguration
}.

(** The fields of one [PythonSettings] object. *)
Record PythonSettings : Type := {
  _pythonPath : option string;
  _defaultInterpreterPath : string;
  envFile : option string;
  venvPath : option string;
  venvFolders : Value;
  activeStateToolPath : option string;
  condaPath : option string;
  pipenvPath : option string;
  poetryPath : option string;
  devOptions : Value;
  terminal : option (list (string * Value));
  disableInstallationChecks : bool;
  globalModuleInstallation : bool;
  autoUpdateLanguageServer : Value;
  languageServerIsDefault : bool;
  workspaceRoot : Resource;
  disposables : list nat;
  workspace : handle;
  interpreterPathService : option handle
}.

(** Field assignments [this.f = v]. *)
Definition with__pythonPath (v : option string) (this : PythonSettings) : PythonSettings :=
  {| _pythonPath := v; _defaultInterpreterPath := _defaultInterpreterPath this; envFile := envFile this; venvPath := venvPath this; venvFolders := venvFolders this; activeStateToolPath := activeStateToolPath this; condaPath := condaPath this; pipenvPath := pipenvPath this; poetryPath := poetryPath this; devOptions := devOptions this; terminal := terminal this; disableInstallationChecks := disableInstallationChecks this; globalModuleInstallation := globalModuleInstallation this; autoUpdateLanguageServer := autoUpdateLanguageServer this; languageServerIsDefault := languageServerIsDefault this; workspaceRoot := workspaceRoot this; disposables := disposables this; workspace := workspace this; interpreterPathService := interpreterPathService this |}.
Definition with__defaultInterpreterPath (v : string) (this : PythonSettings) : PythonSettings :=
  {| _pythonPath := _pythonPath this; _defaultInterpreterPath := v; envFile := envFile this; venvPath := venvPath this; venvFolders := venvFolders this; activeStateToolPath := activeStateToolPath this; condaPath := condaPath this; pipenvPath := pipenvPath this; poetryPath := poetryPath this; devOptions := devOptions this; terminal := terminal this; disableInstallationChecks := disableInstallationChecks this; globalModuleInstallation := globalModuleInstallation this; autoUpdateLanguageServer := autoUpdateLanguageServer this; languageServerIsDefault := languageServerIsDefault this; workspaceRoot := workspaceRoot this; disposables := disposables this; workspace := workspace this; interpreterPathService := interpreterPathService this |}.
Definition with_envFile (v : option string) (this : PythonSettings) : PythonSettings :=
  {| _pythonPath := _pythonPath this; _defaultInterpreterPath := _defaultInterpreterPath this; envFile := v; venvPath := venvPath this; venvFolders := venvFolders this; activeStateToolPath := activeStateToolPath this; condaPath := condaPath this; pipenvPath := pipenvPath this; poetryPath := poetryPath this; devOptions := devOptions this; terminal := terminal this; disableInstallationChecks := disableInstallationChecks this; globalModuleInstallation := globalModuleInstallation this; autoUpdateLanguageServer := autoUpdateLanguageServer this; languageServerIsDefault := languageServerIsDefault this; workspaceRoot := workspaceRoot this; disposables := disposables this; workspace := workspace this; interpreterPathService := interpreterPathService this |}.
Definition with_venvPath (v : option string) (this : PythonSettings) : PythonSettings :=
  {| _pythonPath := _pythonPath this; _defaultInterpreterPath := _defaultInterpreterPath this; envFile := envFile this; venvPath := v; venvFolders := venvFolders this; activeStateToolPath := activeStateToolPath this; condaPath := condaPath this; pipenvPath := pipenvPath this; poetryPath := poetryPath this; devOptions := devOptions this; terminal := terminal this; disableInstallationChecks := disableInstallationChecks this; globalModuleInstallation := globalModuleInstallation this; autoUpdateLanguageServer := autoUpdateLanguageServer this; languageServerIsDefault := languageServerIsDefault this; workspaceRoot := workspaceRoot this; disposables := disposables this; workspace := workspace this; interpreterPathService := interpreterPathService this |}.
Definition with_venvFolders (v : Value) (this : PythonSettings) : PythonSettings :=
  {| _pythonPath := _pythonPath this; _defaultInterpreterPath := _defaultInterpreterPath this; envFile := envFile this; venvPath := venvPath this; venvFolders := v; activeStateToolPath := activeStateToolPath this; condaPath := condaPath this; pipenvPath := pipenvPath this; poetryPath := poetryPath this; devOptions := devOptions this; terminal := terminal this; disableInstallationChecks := disableInstallationChecks this; globalModuleInstallation := globalModuleInstallation this; autoUpdateLanguageServer := autoUpdateLanguageServer this; languageServerIsDefault := languageServerIsDefault this; workspaceRoot := workspaceRoot this; disposables := disposables this; workspace := workspace this; interpreterPathService := interpreterPathService this |}.
Definition with_activeStateToolPath (v : option string) (this : PythonSettings) : PythonSettings :=
  {| _pythonPath := _pythonPath this; _defaultInterpreterPath := _defaultInterpreterPath this; envFile := envFile this; venvPath := venvPath this; venvFolders := venvFolders this; activeStateToolPath := v; condaPath := condaPath this; pipenvPath := pipenvPath this; poetryPath := poetryPath this; devOptions := devOptions this; terminal := terminal this; disableInstallationChecks := disableInstallationChecks this; globalModuleInstallation := globalModuleInstallation this; autoUpdateLanguageServer := autoUpdateLanguageServer this; languageServerIsDefault := languageServerIsDefault this; workspaceRoot := workspaceRoot this; disposables := disposables this; workspace := workspace this; interpreterPathService := interpreterPathService this |}.
Definition with_condaPath (v : option string) (this : PythonSettings) : PythonSettings :=
  {| _pythonPath := _pythonPath this; _defaultInterpreterPath := _defaultInterpreterPath this; envFile := envFile this; venvPath := venvPath this; venvFolders := venvFolders this; activeStateToolPath := activeStateToolPath this; condaPath := v; pipenvPath := pipenvPath this; poetryPath := poetryPath this; devOptions := devOptions this; terminal := terminal this; disableInstallationChecks := disableInstallationChecks this; globalModuleInstallation := globalModuleInstallation this; autoUpdateLanguageServer := autoUpdateLanguageServer this; languageServerIsDefault := languageServerIsDefault this; workspaceRoot := workspaceRoot this; disposables := disposables this; workspace := workspace this; interpreterPathService := interpreterPathService this |}.
Definition with_pipenvPath (v : option string) (this : PythonSettings) : PythonSettings :=
  {| _pythonPath := _pythonPath this; _defaultInterpreterPath := _defaultInterpreterPath this; envFile := envFile this; venvPath := venvPath this; venvFolders := venvFolders this; activeStateToolPath := activeStateToolPath this; condaPath := condaPath this; pipenvPath := v; poetryPath := poetryPath this; devOptions := devOptions this; terminal := terminal this; disableInstallationChecks := disableInstallationChecks this; globalModuleInstallation := globalModuleInstallation this; autoUpdateLanguageServer := autoUpdateLanguageServer this; languageServerIsDefault := languageServerIsDefault this; workspaceRoot := workspaceRoot this; disposables := disposables this; workspace := workspace this; interpreterPathService := interpreterPathService this |}.
Definition with_poetryPath (v : option string) (this : PythonSettings) : PythonSettings :=
  {| _pythonPath := _pythonPath this; _defaultInterpreterPath := _defaultInterpreterPath this; envFile := envFile this; venvPath := venvPath this; venvFolders := venvFolders this; activeStateToolPath := activeStateToolPath this; condaPath := condaPath this; pipenvPath := pipenvPath this; poetryPath := v; devOptions := devOptions this; terminal := terminal this; disableInstallationChecks := disableInstallationChecks this; globalModuleInstallation := globalModuleInstallation this; autoUpdateLanguageServer := autoUpdateLanguageServer this; languageServerIsDefault := languageServerIsDefault this; workspaceRoot := workspaceRoot this; disposables := disposables this; workspace := workspace this; interpreterPathService := interpreterPathService this |}.
Definition with_devOptions (v : Value) (this : PythonSettings) : PythonSettings :=
  {| _pythonPath := _pythonPath this; _defaultInterpreterPath := _defaultInterpreterPath this; envFile := envFile this; venvPath := venvPath this; venvFolders := venvFolders this; activeStateToolPath := activeStateToolPath this; condaPath := condaPath this; pipenvPath := pipenvPath this; poetryPath := poetryPath this; devOptions := v; terminal := terminal this; disableInstallationChecks := disableInstallationChecks this; globalModuleInstallation := globalModuleInstallation this; autoUpdateLanguageServer := autoUpdateLanguageServer this; languageServerIsDefault := languageServerIsDefault this; workspaceRoot := workspaceRoot this; disposables := disposables this; workspace := workspace this; interpreterPathService := interpreterPathService this |}.
Definition with_terminal (v : option (list (string * Value))) (this : PythonSettings) : PythonSettings :=
  {| _pythonPath := _pythonPath this; _defaultInterpreterPath := _defaultInterpreterPath this; envFile := envFile this; venvPath := venvPath this; venvFolders := venvFolders this; activeStateToolPath := activeStateToolPath this; condaPath := condaPath this; pipenvPath := pipenvPath this; poetryPath := poetryPath this; devOptions := devOptions this; terminal := v; disableInstallationChecks := disableInstallationChecks this; globalModuleInstallation := globalModuleInstallation this; autoUpdateLanguageServer := autoUpdateLanguageServer this; languageServerIsDefault := languageServerIsDefault this; workspaceRoot := workspaceRoot this; disposables := disposables this; workspace := workspace this; interpreterPathService := interpreterPathService this |}.
Definition with_disableInstallationChecks (v : bool) (this : PythonSettings) : PythonSettings :=
  {| _pythonPath := _pythonPath this; _defaultInterpreterPath := _defaultInterpreterPath this; envFile := envFile this; venvPath := venvPath this; venvFolders := venvFolders this; activeStateToolPath := activeStateToolPath this; condaPath := condaPath this; pipenvPath := pipenvPath this; poetryPath := poetryPath this; devOptions := devOptions this; terminal := terminal this; disableInstallationChecks := v; globalModuleInstallation := globalModuleInstallation this; autoUpdateLanguageServer := autoUpdateLanguageServer this; languageServerIsDefault := languageServerIsDefault this; workspaceRoot := workspaceRoot this; disposables := disposables this; workspace := workspace this; interpreterPathService := interpreterPathService this |}.
Definition with_globalModuleInstallation (v : bool) (this : PythonSettings) : PythonSettings :=
  {| _pythonPath := _pythonPath this; _defaultInterpreterPath := _defaultInterpreterPath this; envFile := envFile this; venvPath := venvPath this; venvFolders := venvFolders this; activeStateToolPath := activeStateToolPath this; condaPath := condaPath this; pipenvPath := pipenvPath this; poetryPath := poetryPath this; devOptions := devOptions this; terminal := terminal this; disableInstallationChecks := disableInstallationChecks this; globalModuleInstallation := v; autoUpdateLanguageServer := autoUpdateLanguageServer this; languageServerIsDefault := languageServerIsDefault this; workspaceRoot := workspaceRoot this; disposables := disposables this; workspace := workspace this; interpreterPathService := interpreterPathService this |}.
Definition with_autoUpdateLanguageServer (v : Value) (this : PythonSettings) : PythonSettings :=
  {| _pythonPath := _pythonPath this; _defaultInterpreterPath := _defaultInterpreterPath this; envFile := envFile this; venvPath := venvPath this; venvFolders := venvFolders this; activeStateToolPath := activeStateToolPath this; condaPath := condaPath this; pipenvPath := pipenvPath this; poetryPath := poetryPath this; devOptions := devOptions this; terminal := terminal this; disableInstallationChecks := disableInstallationChecks this; globalModuleInstallation := globalModuleInstallation this; autoUpdateLanguageServer := v; languageServerIsDefault := languageServerIsDefault this; workspaceRoot := workspaceRoot this; disposables := disposables this; workspace := workspace this; interpreterPathService := interpreterPathService this |}.
Definition with_disposables (v : list nat) (this : PythonSettings) : PythonSettings :=
  {| _pythonPath := _pythonPath this; _defaultInterpreterPath := _defaultInterpreterPath this; envFile := envFile this; venvPath := venvPath this; venvFolders := venvFolders this; activeStateToolPath := activeStateToolPath this; condaPath := condaPath this; pipenvPath := pipenvPath this; poetryPath := poetryPath this; devOptions := devOptions this; terminal := terminal this; disableInstallationChecks := disableInstallationChecks this; globalModuleInstallation := globalModuleInstallation this; autoUpdateLanguageServer := autoUpdateLanguageServer this; languageServerIsDefault := languageServerIsDefault this; workspaceRoot := workspaceRoot this; disposables := v; workspace := workspace this; interpreterPathService := interpreterPathService this |}.

(** The configuration [cfg] with another raw value under ['pythonPath']. *)
Definition withRawPythonPath (v : option string) (cfg : WorkspaceConfiguration)
    : WorkspaceConfiguration :=
  {| raw_pythonPath := v;
     raw_defaultInterpreterPath := raw_defaultInterpreterPath cfg;
     raw_venvPath := raw_venvPath cfg;
     raw_venvFolders := raw_venvFolders cfg;
     raw_activeStateToolPath := raw_activeStateToolPath cfg;
     raw_condaPath := raw_condaPath cfg;
     raw_pipenvPath := raw_pipenvPath cfg;
     raw_poetryPath := raw_poetryPath cfg;
     raw_autoUpdateLanguageServer := raw_autoUpdateLanguageServer cfg;
     raw_envFile := raw_envFile cfg;
     raw_devOptions := raw_devOptions cfg;
     raw_disableInstallationCheck := raw_disableInstallationCheck cfg;
     raw_globalModuleInstallation := raw_globalModuleInstallation cfg;
     raw_terminal := raw_terminal cfg |}.

(** ** Stateful, throwing computations *)

(** A method body: it runs on a state, ends normally or by a throw, and leaves
    a state behind in both cases. *)
Definition M (S A : Type) : Type := S → Completion A * S.

Definition ret {S A} (a : A) : M S A := λ st, (Normal a, st).

Definition bind {S A B} (m : M S A) (k : A → M S B) : M S B :=
  λ st, match m st with
        | (Normal a, st') => k a st'
        | (Throw e, st') => (Throw e, st')
        end.

Definition throw {S A} (e : JsError) : M S A := λ st, (Throw e, st).

Definition getState {S} : M S S := λ st, (Normal st, st).

Definition assign {S} (f : S → S) : M S unit := λ st, (Normal (), f st).

Definition liftC {S A} (c : Completion A) : M S A := λ st, (c, st).

(** [try { body } catch (ex) { handler }] *)
Definition tryCatch {S A} (body : M S A) (handler : JsError → M S A) : M S A :=
  λ st, match body st with
        | (Normal a, st') => (Normal a, st')
        | (Throw ex, st') => handler ex st'
        end.

Notation "x ⇐ c ; k" := (bind c (λ x, k))
  (at level 20, c at level 100, k at level 200, right associativity, only parsing).
Notation "c ;; k" := (bind c (λ _, k))
  (at level 100, k at level 200, right associativity, only parsing).

(** ** One [PythonSettings] object *)

(** Modelled from the spec: [SystemVariables.resolveAny] (the class is in
    [./variables/systemVariables], not among the sources). Placeholders are
    replaced in strings, in the elements of arrays and in the leaves of
    objects; every other value passes through unchanged and [undefined] stays
    [undefined]. [rs] is the replacement on one string. *)
Fixpoint resolveAny (rs : string → string) (v : Value) : Value :=
  match v with
  | VStr s => VStr (rs s)
  | VArr items => VArr (map (resolveAny rs) items)
  | VObj props => VObj (map (λ kv, (kv.1, resolveAny rs kv.2)) props)
  | _ => v
  end.

(** Modelled from the spec: [resolveAny] at the type [string | undefined]. *)
Definition resolveAnyString (rs : string → string) (v : option string) : option string :=
  match v with
  | Some s => Some (rs s)
  | None => None
  end.

(** Modelled from the spec: [resolveAny] at the type of an optional object. *)
Definition resolveAnyObject (rs : string → string)
    (v : option (list (string * Value))) : option (list (string * Value)) :=
  match v with
  | Some props => Some (map (λ kv, (kv.1, resolveAny rs kv.2)) props)
  | None => None
  end.

(** [target[k] = v] on the property list of an object. *)
Fixpoint setProperty (k : string) (v : Value) (target : list (string * Value))
    : list (string * Value) :=
  match target with
  | [] => [(k, v)]
  | (k', v') :: rest =>
      if decide (k' = k) then (k, v) :: rest else (k', v') :: setProperty k v rest
  end.

(** [Object.assign(target, source)]; an [undefined] source is skipped. *)
Definition objectAssign (target : list (string * Value))
    (source : option (list (string * Value))) : list (string * Value) :=
  match source with
  | Some props => foldl (λ t kv, setProperty kv.1 kv.2 t) target props
  | None => target
  end.

Section Instance.
Context (h : Host).
(** What each interpreter path service answers to [get(resource)] now. *)
Context (services : handle → Resource → option string).

Definition inExperimentDeprecatePythonPath : bool := true.

(** [set pythonPath(value)] *)
Definition set_pythonPath (value : option string) : M PythonSettings unit :=
  this ⇐ getState;
  if decide (_pythonPath this = value) then ret ()
  else
    tryCatch
      (r ⇐ liftC (getPythonExecutable h value);
       assign (with__pythonPath (Some r)))
      (λ ex, assign (with__pythonPath value)).

(** [set defaultInterpreterPath(value)] *)
Definition set_defaultInterpreterPath (value : string) : M PythonSettings unit :=
  this ⇐ getState;
  if decide (_defaultInterpreterPath this = value) then ret ()
  else
    tryCatch
      (r ⇐ liftC (getPythonExecutable h (Some value));
       assign (with__defaultInterpreterPath r))
      (λ ex, assign (with__defaultInterpreterPath value)).

(** [private getPythonPath(pythonSettings, systemVariables, workspaceRoot)];
    the string argument [workspaceRoot] is [rootPath] here, the field
    [this.workspaceRoot] keeps its name. *)
Definition getPythonPath (pythonSettings : WorkspaceConfiguration)
    (systemVariables : string → string) (rootPath : option string)
    : M PythonSettings string :=
  this ⇐ getState;
  set_pythonPath
    (resolveAnyString systemVariables
       (match inExperimentDeprecatePythonPath, interpreterPathService this with
        | true, Some svc => services svc (workspaceRoot this)
        | _, _ => raw_pythonPath pythonSettings
        end)) ;;
  this ⇐ getState;
  liftC (getAbsolutePath h (_pythonPath this) rootPath).

(** The value [getPythonPath] reads before resolving it: the conditional
    expression that is the argument of [resolveAny]. *)
Definition pythonPathSource (pythonSettings : WorkspaceConfiguration)
    (this : PythonSettings) : option string :=
  match inExperimentDeprecatePythonPath, interpreterPathService this with
  | true, Some svc => services svc (workspaceRoot this)
  | _, _ => raw_pythonPath pythonSettings
  end.

(** [x && x.length > 0 ? getAbsolutePath(x, workspaceRoot) : x] *)
Definition absolutizeIfSet (x rootPath : option string) : Completion (option string) :=
  if (negb (optFalsy x) && bool_decide (0 < String.length (default ""%string x))%nat)%bool
  then r ←! getAbsolutePath h x rootPath; Normal (Some r)
  else Normal x.

(** [protected update(pythonSettings)] *)
Definition update (pythonSettings : WorkspaceConfiguration) : M PythonSettings unit :=
  this ⇐ getState;
  let rootPath := fsPath <$> workspaceRoot this in
  let systemVariables := resolveString h rootPath in
  p ⇐ getPythonPath pythonSettings systemVariables rootPath;
  set_pythonPath (Some p) ;;
  let defaultInterpreterPath :=
    resolveAnyString systemVariables (raw_defaultInterpreterPath pythonSettings) in
  set_defaultInterpreterPath
    (if optFalsy defaultInterpreterPath then DEFAULT_INTERPRETER_SETTING h
     else default ""%string defaultInterpreterPath) ;;
  assign (with_venvPath (resolveAnyString systemVariables (raw_venvPath pythonSettings))) ;;
  assign (with_venvFolders (resolveAny systemVariables (raw_venvFolders pythonSettings))) ;;
  activeStateToolPath ⇐ liftC (absolutizeIfSet
    (resolveAnyString systemVariables (raw_activeStateToolPath pythonSettings)) rootPath);
  assign (with_activeStateToolPath activeStateToolPath) ;;
  condaPath ⇐ liftC (absolutizeIfSet
    (resolveAnyString systemVariables (raw_condaPath pythonSettings)) rootPath);
  assign (with_condaPath condaPath) ;;
  pipenvPath ⇐ liftC (absolutizeIfSet
    (resolveAnyString systemVariables (raw_pipenvPath pythonSettings)) rootPath);
  assign (with_pipenvPath pipenvPath) ;;
  poetryPath ⇐ liftC (absolutizeIfSet
    (resolveAnyString systemVariables (raw_poetryPath pythonSettings)) rootPath);
  assign (with_poetryPath poetryPath) ;;
  assign (with_autoUpdateLanguageServer
            (resolveAny systemVariables
               (getWithDefault (raw_autoUpdateLanguageServer pythonSettings) (VBool true)))) ;;
  let envFileSetting := raw_envFile pythonSettings in
  assign (with_envFile (resolveAnyString systemVariables envFileSetting)) ;;
  assign (with_devOptions (resolveAny systemVariables (raw_devOptions pythonSettings))) ;;
  this ⇐ getState;
  assign (with_devOptions (if isArray (devOptions this) then devOptions this else VArr [])) ;;
  assign (with_disableInstallationChecks
            (strictEqTrue (raw_disableInstallationCheck pythonSettings))) ;;
  assign (with_globalModuleInstallation
            (strictEqTrue (raw_globalModuleInstallation pythonSettings))) ;;
  let terminalSettings := resolveAnyObject systemVariables (raw_terminal pythonSettings) in
  this ⇐ getState;
  match terminal this with
  | Some target => assign (with_terminal (Some (objectAssign target terminalSettings)))
  | None =>
      assign (with_terminal terminalSettings) ;;
      this ⇐ getState;
      if (isTestExecution h && negb (bool_decide (is_Some (terminal this))))%bool
      then assign (with_terminal (Some []))
      else ret ()
  end.

End Instance.

(** A freshly constructed object, before [initialize()] runs: the field
    initialisers and the two constructor assignments. *)
Definition newPythonSettings (workspaceFolder : Resource) (workspace : handle)
    (interpreterPathService : option handle) : PythonSettings := {|
  _pythonPath := Some "python"%string;
  _defaultInterpreterPath := ""%string;
  envFile := Some ""%string;
  venvPath := Some ""%string;
  venvFolders := VArr [];
  activeStateToolPath := Some ""%string;
  condaPath := Some ""%string;
  pipenvPath := Some ""%string;
  poetryPath := Some ""%string;
  devOptions := VArr [];
  terminal := None;
  disableInstallationChecks := false;
  globalModuleInstallation := false;
  autoUpdateLanguageServer := VBool true;
  languageServerIsDefault := true;
  workspaceRoot := workspaceFolder;
  disposables := [];
  workspace := workspace;
  interpreterPathService := interpreterPathService
|}.

(** ** The registry and the objects it holds *)

(** An event listener registered with the host, owned by the object [this]. *)
Inductive Listener : Type :=
| OnDidChangeWorkspaceFolders (this : loc)
| OnDidChangeConfiguration (this : loc)
| OnDidChangeInterpreter (this : loc).

(** The process: the static map [PythonSettings.pythonSettings], the objects
    (a store indexed by reference, [nextLoc] being the next one to allocate),
    the live listeners indexed by their [Disposable], and what the host
    objects answer now.

    A [Map] is visited in insertion order; the finite map here is visited in
    the order of [map_to_list]. The two visits of the file ([forEach] in the
    static [dispose], [keys()] in the folders-changed handler) only dispose or
    delete, and the properties proved about them hold for every order. *)
Record World : Type := {
  pythonSettings : gmap string loc;
  heap : loc → PythonSettings;
  nextLoc : loc;
  listeners : gmap nat Listener;
  nextDisposable : nat;
  workspaces : handle → WorkspaceState;
  interpreterPaths : handle → Resource → option string
}.

Definition with_pythonSettings (v : gmap string loc) (w : World) : World :=
  {| pythonSettings := v; heap := heap w; nextLoc := nextLoc w; listeners := listeners w;
     nextDisposable := nextDisposable w; workspaces := workspaces w;
     interpreterPaths := interpreterPaths w |}.
Definition with_heap (v : loc → PythonSettings) (w : World) : World :=
  {| pythonSettings := pythonSettings w; heap := v; nextLoc := nextLoc w; listeners := listeners w;
     nextDisposable := nextDisposable w; workspaces := workspaces w;
     interpreterPaths := interpreterPaths w |}.
Definition with_nextLoc (v : loc) (w : World) : World :=
  {| pythonSettings := pythonSettings w; heap := heap w; nextLoc := v; listeners := listeners w;
     nextDisposable := nextDisposable w; workspaces := workspaces w;
     interpreterPaths := interpreterPaths w |}.
Definition with_listeners (v : gmap nat Listener) (w : World) : World :=
  {| pythonSettings := pythonSettings w; heap := heap w; nextLoc := nextLoc w; listeners := v;
     nextDisposable := nextDisposable w; workspaces := workspaces w;
     interpreterPaths := interpreterPaths w |}.
Definition with_nextDisposable (v : nat) (w : World) : World :=
  {| pythonSettings := pythonSettings w; heap := heap w; nextLoc := nextLoc w; listeners := listeners w;
     nextDisposable := v; workspaces := workspaces w;
     interpreterPaths := interpreterPaths w |}.

(** [new WorkspaceService()]: every such wrapper stands for the one
    [vscode.workspace]. *)
Definition WorkspaceService_new : handle := 0%nat.

(** [ConfigurationTarget], the two members the file uses. *)
Inductive ConfigurationTarget : Type := Global | WorkspaceFolderTarget.

(** [for (const x of l) { f(x) }] and [l.forEach(f)] *)
Fixpoint forEach {S A} (l : list A) (f : A → M S unit) : M S unit :=
  match l with
  | [] => ret ()
  | x :: r => f x ;; forEach r f
  end.

(** [l.indexOf(x)] on an array of strings. *)
Fixpoint arrayIndexOf (l : list string) (x : string) : Z :=
  match l with
  | [] => -1
  | y :: r =>
      if decide (y = x) then 0
      else let i := arrayIndexOf r x in if decide (i = -1) then -1 else 1 + i
  end.

Section Registry.
Context (h : Host).

(** Run a method of the object at [this] on that object's fields. *)
Definition onThis {A} (this : loc) (m : M PythonSettings A) : M World A :=
  λ w, let '(r, o) := m (heap w this) in (r, with_heap (<[this := o]> (heap w)) w).

(** [emitter(listener, this)]: the listener is registered and the
    [Disposable] that removes it is returned. *)
Definition subscribe (l : Listener) : M World nat :=
  λ w, (Normal (nextDisposable w),
        with_nextDisposable (S (nextDisposable w))
          (with_listeners (<[nextDisposable w := l]> (listeners w)) w)).

(** [disposable.dispose()] *)
Definition disposeListener (d : nat) : M World unit :=
  assign (λ w, with_listeners (delete d (listeners w)) w).

(** [this.disposables.push(d)] *)
Definition pushDisposable (this : loc) (d : nat) : M World unit :=
  onThis this (assign (λ o, with_disposables (disposables o ++ [d]) o)).

(** [public initialize()] *)
Definition initialize (this : loc) : M World unit :=
  d ⇐ subscribe (OnDidChangeWorkspaceFolders this);
  pushDisposable this d ;;
  d ⇐ subscribe (OnDidChangeConfiguration this);
  pushDisposable this d ;;
  w ⇐ getState;
  match interpreterPathService (heap w this) with
  | Some _ => d ⇐ subscribe (OnDidChangeInterpreter this); pushDisposable this d
  | None => ret ()
  end ;;
  w ⇐ getState;
  let initialConfig :=
    getConfiguration (workspaces w (workspace (heap w this))) "python"
      (workspaceRoot (heap w this)) in
  match initialConfig with
  | Some initialConfig => onThis this (update h (interpreterPaths w) initialConfig)
  | None => ret ()
  end.

(** [new PythonSettings(workspaceFolder, workspace, interpreterPathService)] *)
Definition PythonSettings_new (workspaceFolder : Resource) (workspace : option handle)
    (interpreterPathService : option handle) : M World loc :=
  w ⇐ getState;
  let this := nextLoc w in
  assign (λ w, with_nextLoc (S this)
                 (with_heap (<[this := newPythonSettings workspaceFolder
                                         (default WorkspaceService_new workspace)
                                         interpreterPathService]> (heap w)) w)) ;;
  initialize this ;;
  ret this.

(** [public static getSettingsUriAndTarget(resource, workspace)], on what
    the workspace answers now. *)
Definition getSettingsUriAndTarget (resource : Resource) (ws : WorkspaceState)
    : Resource * ConfigurationTarget :=
  let workspaceFolder :=
    match resource with
    | Some r => getWorkspaceFolder ws r
    | None => None
    end in
  let workspaceFolderUri : Resource :=
    match workspaceFolder with
    | Some workspaceFolder => Some (uri workspaceFolder)
    | None => None
    end in
  let workspaceFolderUri : Resource :=
    match workspaceFolderUri, workspaceFolders ws with
    | None, Some (first :: _) => Some (uri first)
    | _, _ => workspaceFolderUri
    end in
  (workspaceFolderUri,
   match workspaceFolderUri with
   | Some _ => WorkspaceFolderTarget
   | None => Global
   end).

(** The scope key [getInstance] computes for a resource. *)
Definition workspaceFolderKey (resource : Resource) (ws : WorkspaceState) : string :=
  match (getSettingsUriAndTarget resource ws).1 with
  | Some workspaceFolderUri => fsPath workspaceFolderUri
  | None => ""%string
  end.

(** [public static getInstance(resource, workspace, interpreterPathService)];
    the result is what [Map.get] returns. *)
Definition getInstance (resource : Resource) (workspace : option handle)
    (interpreterPathService : option handle) : M World (option loc) :=
  let workspace := default WorkspaceService_new workspace in
  w ⇐ getState;
  let workspaceFolderUri := (getSettingsUriAndTarget resource (workspaces w workspace)).1 in
  let workspaceFolderKey := workspaceFolderKey resource (workspaces w workspace) in
  (if bool_decide (is_Some (pythonSettings w !! workspaceFolderKey)) then ret ()
   else
     settings ⇐ PythonSettings_new workspaceFolderUri (Some workspace) interpreterPathService;
     assign (λ w, with_pythonSettings (<[workspaceFolderKey := settings]> (pythonSettings w)) w)) ;;
  w ⇐ getState;
  ret (pythonSettings w !! workspaceFolderKey).

(** [public dispose()] of one object. *)
Definition dispose (this : loc) : M World unit :=
  w ⇐ getState;
  forEach (disposables (heap w this)) disposeListener ;;
  onThis this (assign (with_disposables [])).

(** [public static dispose()] *)
Definition PythonSettings_dispose : M World unit :=
  if negb (isTestExecution h)
  then throw (Error "Dispose can only be called from unit tests")
  else
    w ⇐ getState;
    forEach (map_to_list (pythonSettings w)).*2 dispose ;;
    assign (with_pythonSettings ∅).

(** [protected onWorkspaceFoldersChanged()] *)
Definition onWorkspaceFoldersChanged (this : loc) : M World unit :=
  w ⇐ getState;
  match workspaceFolders (workspaces w (workspace (heap w this))) with
  | None => throw (TypeError "Cannot read properties of undefined (reading 'map')")
  | Some folders =>
      let workspaceKeys := map (λ workspaceFolder, fsPath (uri workspaceFolder)) folders in
      let activatedWkspcKeys := (map_to_list (pythonSettings w)).*1 in
      let activatedWkspcFoldersRemoved :=
        filter (λ item, arrayIndexOf workspaceKeys item < 0) activatedWkspcKeys in
      if bool_decide (0 < length activatedWkspcFoldersRemoved)%nat
      then forEach activatedWkspcFoldersRemoved
             (λ folder, assign (λ w, with_pythonSettings (delete folder (pythonSettings w)) w))
      else ret ()
  end.

(** [public register()] *)
Definition register (this : loc) : M World unit :=
  assign (with_pythonSettings ∅) ;;
  initialize this.

End Registry.

(** ** Sequences of [getInstance] calls *)

(** The arguments of one call. *)
Record Call : Type := {
  call_resource : Resource;
  call_workspace : option handle;
  call_interpreterPathService : option handle
}.

(** The scope key the call maps to when it is made in [w]. *)
Definition callKey (w : World) (c : Call) : string :=
  workspaceFolderKey (call_resource c)
    (workspaces w (default WorkspaceService_new (call_workspace c))).

Definition runCall (h : Host) (c : Call) : M World (option loc) :=
  getInstance h (call_resource c) (call_workspace c) (call_interpreterPathService c).

(** The calls made one after the other from [w]: for each call its scope key
    and how it ended. *)
Fixpoint getInstanceTrace (h : Host) (calls : list Call) (w : World)
    : list (string * Completion (option loc)) :=
  match calls with
  | [] => []
  | c :: rest => (callKey w c, (runCall h c w).1) :: getInstanceTrace h rest (runCall h c w).2
  end.

(** The process after the calls. *)
Fixpoint afterCalls (h : Host) (calls : list Call) (w : World) : World :=
  match calls with
  | [] => w
  | c :: rest => afterCalls h rest (runCall h c w).2
  end.

(** A computation that leaves the registry map and the host objects as they
    are, however it ends. *)
Definition keepsRegistry {A} (m : M World A) : Prop :=
  ∀ w, pythonSettings (m w).2 = pythonSettings w ∧ workspaces (m w).2 = workspaces w.

(** ** Concrete inputs *)

(** A raw configuration whose two list settings hold a string and whose
    flags hold a string, a boolean and nothing. *)
Definition exampleConfiguration : WorkspaceConfiguration := {|
  raw_pythonPath := Some "python"%string;
  raw_defaultInterpreterPath := None;
  raw_venvPath := None;
  raw_venvFolders := VStr "envs";
  raw_activeStateToolPath := Some "state"%string;
  raw_condaPath := Some "./conda"%string;
  raw_pipenvPath := None;
  raw_poetryPath := Some ""%string;
  raw_autoUpdateLanguageServer := VUndefined;
  raw_envFile := None;
  raw_devOptions := VStr "DEBUG";
  raw_disableInstallationCheck := VStr "true";
  raw_globalModuleInstallation := VBool true;
  raw_terminal := None
|}.

(** A configuration in which every value has its declared type and
    ['venvFolders'] and ['devOptions'] are unset. *)
Definition exampleConfigurationUnset : WorkspaceConfiguration := {|
  raw_pythonPath := Some "python"%string;
  raw_defaultInterpreterPath := None;
  raw_venvPath := None;
  raw_venvFolders := VUndefined;
  raw_activeStateToolPath := Some "state"%string;
  raw_condaPath := Some "./conda"%string;
  raw_pipenvPath := None;
  raw_poetryPath := Some ""%string;
  raw_autoUpdateLanguageServer := VUndefined;
  raw_envFile := None;
  raw_devOptions := VUndefined;
  raw_disableInstallationCheck := VBool false;
  raw_globalModuleInstallation := VBool true;
  raw_terminal := None
|}.

(** A POSIX host with an empty file system, outside a test run. *)
Definition exampleHost : Host := Posix.host "/home/u" [] [] false.

(** A freshly constructed object for the folder [/proj], without and with an
    interpreter path service. *)
Definition exampleSettings : PythonSettings :=
  newPythonSettings (Some {| fsPath := "/proj" |}) WorkspaceService_new None.

Definition exampleSettingsWithService : PythonSettings :=
  newPythonSettings (Some {| fsPath := "/proj" |}) WorkspaceService_new (Some 1%nat).

(** A workspace with the folders [/proj] and [/lib]; a resource belongs to
    the folder whose path is a prefix of its own. *)
Definition exampleWorkspace : WorkspaceState := {|
  workspaceFolders := Some [ {| uri := {| fsPath := "/proj" |}; name := "proj"; index := 0%nat |};
                             {| uri := {| fsPath := "/lib" |}; name := "lib"; index := 1%nat |} ];
  getWorkspaceFolder := λ r,
    if String.prefix "/proj/" (fsPath r)
    then Some {| uri := {| fsPath := "/proj" |}; name := "proj"; index := 0%nat |}
    else if String.prefix "/lib/" (fsPath r)
    then Some {| uri := {| fsPath := "/lib" |}; name := "lib"; index := 1%nat |}
    else None;
  getConfiguration := λ _ _, Some exampleConfiguration
|}.

(** The same workspace after the folder [/lib] was removed. *)
Definition exampleWorkspaceShrunk : WorkspaceState := {|
  workspaceFolders := Some [ {| uri := {| fsPath := "/proj" |}; name := "proj"; index := 0%nat |} ];
  getWorkspaceFolder := λ r,
    if String.prefix "/proj/" (fsPath r)
    then Some {| uri := {| fsPath := "/proj" |}; name := "proj"; index := 0%nat |}
    else None;
  getConfiguration := λ _ _, Some exampleConfiguration
|}.

(** A process that has not created any settings object yet. *)
Definition emptyWorld (ws : WorkspaceState) : World := {|
  pythonSettings := ∅;
  heap := λ _, exampleSettings;
  nextLoc := 0%nat;
  listeners := ∅;
  nextDisposable := 0%nat;
  workspaces := λ _, ws;
  interpreterPaths := λ _ _, Some "python"%string
|}.

(** A process whose registry holds the global scope and two folders. *)
Definition exampleWorld (ws : WorkspaceState) : World := {|
  pythonSettings := {[ ""%string := 0%nat; "/proj"%string := 1%nat; "/lib"%string := 2%nat ]};
  heap := λ l, with_disposables [(2 * l)%nat; (2 * l + 1)%nat] exampleSettings;
  nextLoc := 3%nat;
  listeners := {[ 0%nat := OnDidChangeWorkspaceFolders 0; 1%nat := OnDidChangeConfiguration 0;
                  2%nat := OnDidChangeWorkspaceFolders 1; 3%nat := OnDidChangeConfiguration 1;
                  4%nat := OnDidChangeWorkspaceFolders 2; 5%nat := OnDidChangeConfiguration 2 ]};
  nextDisposable := 6%nat;
  workspaces := λ _, ws;
  interpreterPaths := λ _ _, Some "python"%string
|}.

Definition exampleCalls : list Call :=
  [ {| call_resource := Some {| fsPath := "/proj/a.py" |}; call_workspace := None;
       call_interpreterPathService := None |};
    {| call_resource := Some {| fsPath := "/lib/b.py" |}; call_workspace := None;
       call_interpreterPathService := None |};
    {| call_resource := Some {| fsPath := "/proj/sub/c.py" |}; call_workspace := None;
       call_interpreterPathService := None |} ].

(** ** Statements of the specification, as they are worded

    These follow the text of the specification, not the code; the theorems
    below compare them with the code. *)

(** The probing order of basenames as the specification lists it: the
    unqualified name, then "3", "3.6" to "3.9", then "2" and "2.7". *)
Definition specProbeOrder : list string :=
  [ "python"; "python3"; "python3.6"; "python3.7"; "python3.8"; "python3.9";
    "python2"; "python2.7" ]%string.

(** "The candidate is treated as a directory": it is neither taken as it is
    nor a valid executable itself. *)
Definition treatedAsDirectory (h : Host) (dir : string) : Prop :=
  isBareOrRoot h dir = false ∧ isValidPythonPath h dir = Normal false.

(** "The first candidate that exists and passes the prefix check is returned",
    the basenames being taken in the order [names]. *)
Definition returnsFirstValid (h : Host) (names : list string) (candidate : string) : Prop :=
  let dir := untildify_string h candidate in
  treatedAsDirectory h dir →
  ∀ before c after,
    probedPaths h dir names = before ++ c :: after →
    (∀ x, x ∈ before → isValidPythonPath h x = Normal false) →
    isValidPythonPath h c = Normal true →
    getPythonExecutable h (Some candidate) = Normal c.

(** "No known executable basename exists at any probed layout." *)
Definition noKnownExecutable (h : Host) (dir : string) : Prop :=
  ∀ c, c ∈ probedPaths h dir KnownPythonExecutables → fs_existsSync h c = Normal false.

(** "[resolveExecutable] returns the original candidate unchanged", and so
    does a second run on that result. *)
Definition returnsCandidateUnchanged (h : Host) (candidate : string) : Prop :=
  getPythonExecutable h (Some candidate) = Normal candidate.

(** "A bare command name is returned unchanged, whatever the root directory." *)
Definition bareNameUnchanged (h : Host) (raw : string) : Prop :=
  indexOf raw (path_sep h) = -1 →
  ∀ rootDir, getAbsolutePath h (Some raw) rootDir = Normal raw.

(** ** The remaining operations of the class *)

(** [k.includes(sub)] *)
Definition includes (s sub : string) : bool := bool_decide (indexOf s sub ≠ -1).

(** [clone[k] = v] on the property list of an object whose values are of
    any kind. *)
Fixpoint assignProperty {V} (k : string) (v : V) (target : list (string * V))
    : list (string * V) :=
  match target with
  | [] => [(k, v)]
  | (k', v') :: rest =>
      if decide (k' = k) then (k, v) :: rest else (k', v') :: assignProperty k v rest
  end.

(** [obj[k]] on a property list. *)
Fixpoint getProperty {V} (k : string) (props : list (string * V)) : option V :=
  match props with
  | [] => None
  | (k', v) :: rest => if decide (k' = k) then Some v else getProperty k rest
  end.

(** The test of the [forEach] callback of [toSerializable]. *)
Definition isSerializableKey (k : string) : bool :=
  (negb (includes k "Manager") && negb (includes k "Service") && negb (includes k "onDid"))%bool.

(** [public static toSerializable(settings)], on [Object.entries(settings)]. *)
Definition toSerializable {V} (settings : list (string * V)) : list (string * V) :=
  foldl (λ clone e, if isSerializableKey e.1 then assignProperty e.1 e.2 clone else clone)
        [] settings.

(** [ConfigurationChangeEvent], as far as the file reads it. *)
Record ConfigurationChangeEvent : Type := { affectsConfiguration : string → bool }.

(** The process together with the calls made to the debounced
    [debounceChangeNotification], oldest first: the object it was called on
    and the event passed. What the decorator does with a call (it fires
    [changed] once the delay has passed) is outside the file. *)
Definition Process : Type := World * list (loc * option ConfigurationChangeEvent).

(** A computation on the process that only concerns the world. *)
Definition onWorld {A} (m : M World A) : M Process A :=
  λ p, let '(r, w) := m p.1 in (r, (w, p.2)).

(** The call [this.debounceChangeNotification(event)]. *)
Definition debounceChangeNotification (this : loc) (event : option ConfigurationChangeEvent)
    : M Process unit :=
  assign (λ p, (p.1, p.2 ++ [(this, event)])).

Section Notifications.
Context (h : Host).

(** [this.update(undefined)]: the first [pythonSettings.get] throws. With an
    interpreter path service [getPythonPath] does not read the configuration,
    so the path is recomputed before the throw. *)
Definition updateUndefined (services : handle → Resource → option string)
    : M PythonSettings unit :=
  this ⇐ getState;
  let rootPath := fsPath <$> workspaceRoot this in
  let systemVariables := resolveString h rootPath in
  match inExperimentDeprecatePythonPath, interpreterPathService this with
  | true, Some svc =>
      set_pythonPath h
        (resolveAnyString systemVariables (services svc (workspaceRoot this))) ;;
      this ⇐ getState;
      p ⇐ liftC (getAbsolutePath h (_pythonPath this) rootPath);
      set_pythonPath h (Some p) ;;
      throw (TypeError "Cannot read properties of undefined (reading 'get')")
  | _, _ => throw (TypeError "Cannot read properties of undefined (reading 'get')")
  end.

(** [private onDidChanged(event)] *)
Definition onDidChanged (this : loc) (event : option ConfigurationChangeEvent)
    : M Process unit :=
  p ⇐ getState;
  let w := p.1 in
  let currentConfig :=
    getConfiguration (workspaces w (workspace (heap w this))) "python"
      (workspaceRoot (heap w this)) in
  onWorld (onThis this
             match currentConfig with
             | Some currentConfig => update h (interpreterPaths w) currentConfig
             | None => updateUndefined (interpreterPaths w)
             end) ;;
  debounceChangeNotification this event.

(** The listener [initialize] registers with [onDidChangeConfiguration]. *)
Definition configurationListener (this : loc) (event : ConfigurationChangeEvent)
    : M Process unit :=
  if affectsConfiguration event "python" then onDidChanged this (Some event) else ret ().

(** The listener [initialize] registers with the interpreter path service. *)
Definition interpreterListener (this : loc) : M Process unit :=
  onDidChanged this None.

End Notifications.

(** ** Well-formed processes *)

(** What every process built by the operations of the class satisfies: the
    references in the map are allocated, no object sits under two keys, and
    the [Disposable]s not handed out yet name no listener. *)
Record wfWorld (w : World) : Prop := {
  wf_allocated : ∀ key l, pythonSettings w !! key = Some l → (l < nextLoc w)%nat;
  wf_unshared : ∀ key1 key2 l,
    pythonSettings w !! key1 = Some l → pythonSettings w !! key2 = Some l → key1 = key2;
  wf_fresh : ∀ d, (nextDisposable w ≤ d)%nat → listeners w !! d = None
}.

(** The [Disposable]s [initialize] pushes, given the next one to hand out. *)
Definition initialDisposables (n : nat) (withService : bool) : list nat :=
  if withService then [n; S n; S (S n)] else [n; S n].

(** The listeners [initialize] adds for the object [this]. *)
Definition initialListeners (this : loc) (n : nat) (withService : bool)
    (ls : gmap nat Listener) : gmap nat Listener :=
  let ls := <[S n := OnDidChangeConfiguration this]>
              (<[n := OnDidChangeWorkspaceFolders this]> ls) in
  if withService then <[S (S n) := OnDidChangeInterpreter this]> ls else ls.

(** ** The enumerations of [terminal/types.ts] *)

Inductive TerminalActivationProviders : Type :=
| bashCShellFish | commandPromptAndPowerShell | nushellProvider | pyenv | conda | pipenv.

(** The run-time value of a member. *)
Definition TerminalActivationProviders_value (p : TerminalActivationProviders) : string :=
  match p with
  | bashCShellFish => "bashCShellFish"
  | commandPromptAndPowerShell => "commandPromptAndPowerShell"
  | nushellProvider => "nushell"
  | pyenv => "pyenv"
  | conda => "conda"
  | pipenv => "pipenv"
  end.

Inductive TerminalShellType : Type :=
| powershell | powershellCore | commandPrompt | gitbash | bash | zsh | ksh | fish
| cshell | tcshell | nushell | wsl | xonsh | other.

(** The run-time value of a member. *)
Definition TerminalShellType_value (t : TerminalShellType) : string :=
  match t with
  | powershell => "powershell"
  | powershellCore => "powershellCore"
  | commandPrompt => "commandPrompt"
  | gitbash => "gitbash"
  | bash => "bash"
  | zsh => "zsh"
  | ksh => "ksh"
  | fish => "fish"
  | cshell => "cshell"
  | tcshell => "tshell"
  | nushell => "nushell"
  | wsl => "wsl"
  | xonsh => "xonsh"
  | other => "other"
  end.

(** How [update] leaves a tool path [field] given the resolved raw value:
    [undefined] and the empty string are kept, any other string is made
    absolute against [rootPath]. *)
Definition toolPathResolved (h : Host) (rootPath resolved field : option string) : Prop :=
  (resolved = None ∧ field = None)
  ∨ (resolved = Some ""%string ∧ field = Some ""%string)
  ∨ (∃ x r, resolved = Some x ∧ x ≠ ""%string
            ∧ getAbsolutePath h (Some x) rootPath = Normal r ∧ field = Some r).

(** The object a listener calls back. *)
Definition listenerOwner (l : Listener) : loc :=
  match l with
  | OnDidChangeWorkspaceFolders this => this
  | OnDidChangeConfiguration this => this
  | OnDidChangeInterpreter this => this
  end.

(** A process without settings objects in which no interpreter path service
    has an answer. *)
Definition unansweredWorld (ws : WorkspaceState) : World := {|
  pythonSettings := ∅;
  heap := λ _, exampleSettings;
  nextLoc := 0%nat;
  listeners := ∅;
  nextDisposable := 0%nat;
  workspaces := λ _, ws;
  interpreterPaths := λ _ _, None
|}.

(** An object that holds terminal settings already, and a configuration
    that sets one of their keys and a new one. *)
Definition exampleSettingsWithTerminal : PythonSettings :=
  with_terminal (Some [ ("activateEnvironment"%string, VBool true);
                        ("focusAfterLaunch"%string, VBool false) ]) exampleSettings.

Definition exampleConfigurationTerminal : WorkspaceConfiguration := {|
  raw_pythonPath := Some "python"%string;
  raw_defaultInterpreterPath := None;
  raw_venvPath := None;
  raw_venvFolders := VArr [];
  raw_activeStateToolPath := None;
  raw_condaPath := None;
  raw_pipenvPath := None;
  raw_poetryPath := None;
  raw_autoUpdateLanguageServer := VUndefined;
  raw_envFile := None;
  raw_devOptions := VArr [];
  raw_disableInstallationCheck := VBool false;
  raw_globalModuleInstallation := VBool false;
  raw_terminal := Some [ ("activateEnvironment"%string, VBool false);
                         ("executeInFileDir"%string, VBool true) ]
|}.

(** * Properties *)

(** ** The POSIX host on concrete paths *)

Example posix_join_bin :
  Posix.join ["/opt/env"; "bin"; "python3.8"]%string = "/opt/env/bin/python3.8"%string.
Proof. reflexivity. Qed.

Example posix_join_trailing :
  Posix.join ["/opt/env/"; "python"]%string = "/opt/env/python"%string.
Proof. reflexivity. Qed.

Example posix_join_dots :
  Posix.join ["/opt/./env/.."; "bin"]%string = "/opt/bin"%string.
Proof. reflexivity. Qed.

Example posix_basename_dirname :
  Posix.basename "/opt/env/bin/python3"%string = "python3"%string
  ∧ Posix.dirname "/opt/env/bin/python3"%string = "/opt/env/bin"%string
  ∧ Posix.dirname "/opt"%string = "/"%string
  ∧ Posix.dirname "env"%string = "."%string
  ∧ Posix.basename "/opt/env/"%string = "env"%string.
Proof. repeat split; reflexivity. Qed.

Example posix_resolve_relative :
  Posix.resolve "/" "/proj" "./venv/bin/python"%string = "/proj/venv/bin/python"%string.
Proof. reflexivity. Qed.

Example posix_untildify :
  Posix.untildify "/home/u" "~/env"%string = "/home/u/env"%string
  ∧ Posix.untildify "/home/u" "~"%string = "/home/u"%string
  ∧ Posix.untildify "/home/u" "~env"%string = "~env"%string.
Proof. repeat split; reflexivity. Qed.

(** [resolveExecutable("/opt/env")] where only [/opt/env/bin/python3.8] exists. *)
Example getPythonExecutable_bin_python38 :
  getPythonExecutable (Posix.host "/home/u" ["/opt/env"; "/opt/env/bin/python3.8"]%string [] false)
    (Some "/opt/env"%string)
  = Normal "/opt/env/bin/python3.8"%string.
Proof. reflexivity. Qed.

(** ** Path normalisation *)

Section PathFacts.
Context (h : Host).

Lemma isValidPythonPath_absent c :
  fs_existsSync h c = Normal false → isValidPythonPath h c = Normal false.
Proof. intros Hc. unfold isValidPythonPath. by rewrite Hc. Qed.

Lemma probeExecutables_cons q name rest :
  probeExecutables h q (name :: rest) =
    (v ←! isValidPythonPath h (firstLayout h q name);
     if v then Normal (firstLayout h q name)
     else
       v ←! isValidPythonPath h (secondLayout h q name);
       if v then Normal (secondLayout h q name)
       else probeExecutables h q rest).
Proof. unfold firstLayout, secondLayout. simpl. by destruct (isWindows h). Qed.

Lemma probedPaths_cons q name rest :
  probedPaths h q (name :: rest) =
    firstLayout h q name :: secondLayout h q name :: probedPaths h q rest.
Proof. reflexivity. Qed.

(** The loop returns the first probed path that is valid. *)
Lemma probeExecutables_first_valid q names before c after :
  probedPaths h q names = before ++ c :: after →
  (∀ x, x ∈ before → isValidPythonPath h x = Normal false) →
  isValidPythonPath h c = Normal true →
  probeExecutables h q names = Normal c.
Proof.
  revert before. induction names as [|name rest IH]; intros before Hsplit Hbefore Hc.
  - by destruct before.
  - rewrite probedPaths_cons in Hsplit. rewrite probeExecutables_cons.
    destruct before as [|x1 [|x2 before]]; simplify_eq/=.
    + by rewrite Hc.
    + rewrite (Hbefore (firstLayout h q name)) by constructor. simpl. by rewrite Hc.
    + rewrite (Hbefore (firstLayout h q name)) by constructor. simpl.
      rewrite (Hbefore (secondLayout h q name)) by do 2 constructor. simpl.
      apply (IH before); [done | | done].
      intros x Hx. apply Hbefore. by do 2 constructor.
Qed.

(** With no valid probed path the loop falls through to its argument. *)
Lemma probeExecutables_none_valid q names :
  (∀ c, c ∈ probedPaths h q names → isValidPythonPath h c = Normal false) →
  probeExecutables h q names = Normal q.
Proof.
  induction names as [|name rest IH]; intros Hnone; [done|].
  rewrite probeExecutables_cons.
  rewrite (Hnone (firstLayout h q name)) by (rewrite probedPaths_cons; constructor). simpl.
  rewrite (Hnone (secondLayout h q name)) by (rewrite probedPaths_cons; do 2 constructor). simpl.
  apply IH. intros c Hc. apply Hnone. rewrite probedPaths_cons. by do 2 constructor.
Qed.

(** Whatever [getPythonExecutable] returns when nothing is found is the
    tilde-expanded candidate. *)
Lemma getPythonExecutable_nothing_found p b :
  fs_existsSync h (untildify_string h p) = Normal b →
  noKnownExecutable h (untildify_string h p) →
  getPythonExecutable h (Some p) = Normal (untildify_string h p).
Proof.
  intros Hq Hnone. unfold getPythonExecutable. cbn [untildify cbind].
  destruct (isBareOrRoot h _); [done|].
  unfold isValidPythonPath at 1. rewrite Hq. cbn [cbind].
  match goal with |- (if ?v then _ else _) = _ => destruct v end; [done|].
  apply probeExecutables_none_valid. intros c Hc.
  by apply isValidPythonPath_absent, Hnone.
Qed.

End PathFacts.

(** C6, as worded, fails: a lone tilde has no separator and is expanded to
    the home directory; under a test harness the empty string has none
    either and the root directory is returned. *)
Lemma getAbsolutePath_bare_name_counterexample :
  ¬ bareNameUnchanged (Posix.host "/home/u" [] [] false) "~"
  ∧ ¬ bareNameUnchanged (Posix.host "/home/u" [] [] true) "".
Proof.
  split; intros Hclaim.
  - specialize (Hclaim eq_refl (Some "/proj"%string)). vm_compute in Hclaim. discriminate.
  - specialize (Hclaim eq_refl (Some "/proj"%string)). vm_compute in Hclaim. discriminate.
Qed.

(** C6 (amended): an input without path separator that tilde expansion leaves
    alone and that is not the empty string under a test harness is returned
    unchanged, whatever the root directory. *)
Theorem getAbsolutePath_bare_name (h : Host) (raw : string) (rootDir : option string) :
  indexOf raw (path_sep h) = -1 →
  untildify_string h raw = raw →
  (isTestExecution h = true → raw ≠ ""%string) →
  getAbsolutePath h (Some raw) rootDir = Normal raw.
Proof.
  intros Hsep Htilde Htest. unfold getAbsolutePath. simpl. rewrite Htilde.
  destruct (isTestExecution h) eqn:Ht; simpl.
  - destruct raw as [|c r]; [by destruct Htest|]. simpl.
    by destruct (decide _).
  - by destruct (decide _).
Qed.

Lemma getAbsolutePath_bare_name_witness :
  getAbsolutePath (Posix.host "/home/u" [] [] true) (Some "python3"%string) (Some "/proj"%string)
  = Normal "python3"%string.
Proof.
  apply getAbsolutePath_bare_name; [reflexivity | reflexivity | intros _; discriminate].
Defined.

(** C5, as worded, fails: the candidate is tilde-expanded before anything
    else, so a candidate under [~] does not come back unchanged. *)
Lemma getPythonExecutable_unchanged_counterexample :
  let h := Posix.host "/home/u" ["/home/u/env"%string] [] false in
  noKnownExecutable h "~/env"
  ∧ noKnownExecutable h "/home/u/env"
  ∧ getPythonExecutable h (Some "~/env"%string) = Normal "/home/u/env"%string
  ∧ ¬ returnsCandidateUnchanged h "~/env".
Proof.
  intros h.
  assert (∀ dir, dir = "~/env"%string ∨ dir = "/home/u/env"%string → noKnownExecutable h dir)
    as Hnone.
  { intros dir [-> | ->] c Hc; vm_compute in Hc;
      repeat (apply elem_of_cons in Hc as [-> | Hc]; [reflexivity|]);
      by apply elem_of_nil in Hc. }
  split; [by apply Hnone; left|]. split; [by apply Hnone; right|].
  split; [reflexivity|].
  unfold returnsCandidateUnchanged. vm_compute. discriminate.
Qed.

(** C5 (amended): when the probe of the candidate answers and no known
    executable exists at any probed layout, [getPythonExecutable] returns the
    tilde-expanded candidate (the candidate itself when tilde expansion leaves
    it alone); and running it again on that result gives the same result
    whenever tilde expansion leaves the result alone. *)
Theorem getPythonExecutable_no_executable (h : Host) (candidate : string) (b : bool) :
  let expanded := untildify_string h candidate in
  fs_existsSync h expanded = Normal b →
  noKnownExecutable h expanded →
  getPythonExecutable h (Some candidate) = Normal expanded
  ∧ (untildify_string h expanded = expanded →
     getPythonExecutable h (Some expanded) = Normal expanded).
Proof.
  intros expanded Hq Hnone. split.
  - by eapply getPythonExecutable_nothing_found.
  - intros Hidem. rewrite <-Hidem at 2.
    eapply getPythonExecutable_nothing_found; rewrite Hidem; eauto.
Qed.

Lemma getPythonExecutable_no_executable_witness :
  let h := Posix.host "/home/u" ["/home/u/env"%string] [] false in
  getPythonExecutable h (Some "~/env"%string) = Normal "/home/u/env"%string
  ∧ getPythonExecutable h (Some "/home/u/env"%string) = Normal "/home/u/env"%string.
Proof.
  intros h.
  assert (noKnownExecutable h "/home/u/env") as Hnone.
  { intros c Hc. vm_compute in Hc.
    repeat (apply elem_of_cons in Hc as [-> | Hc]; [reflexivity|]).
    by apply elem_of_nil in Hc. }
  destruct (getPythonExecutable_no_executable h "~/env" true eq_refl Hnone) as [Hrun Hagain].
  split; [exact Hrun | exact (Hagain eq_refl)].
Defined.

(** C2, as worded, fails: the specification puts "3" before "3.6", the code
    probes [python3.6] (and [python4], [python3.5]) before [python3]. *)
Lemma getPythonExecutable_spec_order_counterexample :
  ¬ returnsFirstValid
      (Posix.host "/home/u"
         ["/opt/env"; "/opt/env/bin/python3"; "/opt/env/bin/python3.6"]%string [] false)
      specProbeOrder "/opt/env".
Proof.
  intros Hclaim.
  specialize (Hclaim (conj eq_refl eq_refl)
    ["/opt/env/python"; "/opt/env/bin/python"; "/opt/env/python3"]%string
    "/opt/env/bin/python3"%string
    (drop 4 (probedPaths (Posix.host "/home/u" [] [] false) "/opt/env" specProbeOrder))
    eq_refl).
  assert (getPythonExecutable
            (Posix.host "/home/u"
               ["/opt/env"; "/opt/env/bin/python3"; "/opt/env/bin/python3.6"]%string [] false)
            (Some "/opt/env"%string) = Normal "/opt/env/bin/python3"%string) as Hrun.
  { apply Hclaim; [|reflexivity].
    intros x Hx. repeat (apply elem_of_cons in Hx as [-> | Hx]; [reflexivity|]).
    by apply elem_of_nil in Hx. }
  vm_compute in Hrun. discriminate.
Qed.

(** C2 (amended): the basenames are probed in the order of the list in the
    code, [python], [python4], [python3.6], [python3.5], [python3],
    [python2.7], [python2], [python3.7], [python3.8], [python3.9]; for each
    name first [<dir>/<name>] and then [<dir>/bin/<name>] (on the Windows
    family [<dir>/<name>.exe] and then [<dir>/Scripts/<name>.exe]); and for a
    candidate treated as a directory the first probed path that exists and
    passes the prefix check is returned. *)
Theorem getPythonExecutable_probe_order (h : Host) (candidate : string) :
  (∀ dir,
     probedPaths h dir KnownPythonExecutables =
       if isWindows h then
         [ path_join h [dir; "python.exe"]; path_join h [dir; "Scripts"; "python.exe"];
           path_join h [dir; "python4.exe"]; path_join h [dir; "Scripts"; "python4.exe"];
           path_join h [dir; "python3.6.exe"]; path_join h [dir; "Scripts"; "python3.6.exe"];
           path_join h [dir; "python3.5.exe"]; path_join h [dir; "Scripts"; "python3.5.exe"];
           path_join h [dir; "python3.exe"]; path_join h [dir; "Scripts"; "python3.exe"];
           path_join h [dir; "python2.7.exe"]; path_join h [dir; "Scripts"; "python2.7.exe"];
           path_join h [dir; "python2.exe"]; path_join h [dir; "Scripts"; "python2.exe"];
           path_join h [dir; "python3.7.exe"]; path_join h [dir; "Scripts"; "python3.7.exe"];
           path_join h [dir; "python3.8.exe"]; path_join h [dir; "Scripts"; "python3.8.exe"];
           path_join h [dir; "python3.9.exe"]; path_join h [dir; "Scripts"; "python3.9.exe"] ]%string
       else
         [ path_join h [dir; "python"]; path_join h [dir; "bin"; "python"];
           path_join h [dir; "python4"]; path_join h [dir; "bin"; "python4"];
           path_join h [dir; "python3.6"]; path_join h [dir; "bin"; "python3.6"];
           path_join h [dir; "python3.5"]; path_join h [dir; "bin"; "python3.5"];
           path_join h [dir; "python3"]; path_join h [dir; "bin"; "python3"];
           path_join h [dir; "python2.7"]; path_join h [dir; "bin"; "python2.7"];
           path_join h [dir; "python2"]; path_join h [dir; "bin"; "python2"];
           path_join h [dir; "python3.7"]; path_join h [dir; "bin"; "python3.7"];
           path_join h [dir; "python3.8"]; path_join h [dir; "bin"; "python3.8"];
           path_join h [dir; "python3.9"]; path_join h [dir; "bin"; "python3.9"] ]%string)
  ∧ returnsFirstValid h KnownPythonExecutables candidate.
Proof.
  split.
  - intros dir. unfold probedPaths, firstLayout, secondLayout. by destruct (isWindows h).
  - unfold returnsFirstValid, treatedAsDirectory.
    intros [Hbare Hself] before c after Hsplit Hbefore Hc.
    unfold getPythonExecutable. cbn [untildify cbind].
    rewrite Hbare, Hself. cbn [cbind].
    by eapply probeExecutables_first_valid.
Qed.

Lemma getPythonExecutable_probe_order_witness :
  getPythonExecutable
    (Posix.host "/home/u" ["/opt/env"; "/opt/env/bin/python3.8"; "/opt/env/bin/python3.9"]%string
       [] false)
    (Some "/opt/env"%string)
  = Normal "/opt/env/bin/python3.8"%string.
Proof.
  set (h := Posix.host "/home/u" ["/opt/env"; "/opt/env/bin/python3.8"; "/opt/env/bin/python3.9"]%string
              [] false).
  apply (proj2 (getPythonExecutable_probe_order h "/opt/env") (conj eq_refl eq_refl)
           (take 17 (probedPaths h "/opt/env" KnownPythonExecutables))
           "/opt/env/bin/python3.8"%string
           (drop 18 (probedPaths h "/opt/env" KnownPythonExecutables))).
  - reflexivity.
  - intros x Hx. vm_compute in Hx.
    repeat (apply elem_of_cons in Hx as [-> | Hx]; [reflexivity|]).
    by apply elem_of_nil in Hx.
  - reflexivity.
Defined.

(** ** The two path setters *)

Section SetterFacts.
Context (h : Host).

Lemma set_pythonPath_returns value this :
  ∃ this', set_pythonPath h value this = (Normal (), this').
Proof.
  unfold set_pythonPath, bind, getState, tryCatch, liftC, assign, ret.
  destruct (decide _); [by eauto|].
  destruct (getPythonExecutable h value); by eauto.
Qed.

Lemma set_defaultInterpreterPath_returns value this :
  ∃ this', set_defaultInterpreterPath h value this = (Normal (), this').
Proof.
  unfold set_defaultInterpreterPath, bind, getState, tryCatch, liftC, assign, ret.
  destruct (decide _); [by eauto|].
  destruct (getPythonExecutable h (Some value)); by eauto.
Qed.

End SetterFacts.

(** C8: neither setter ever ends in a throw, and when the resolution of the
    executable throws (the file-system probe, or any other step) the field
    holds the value that was passed in. *)
Theorem setters_absorb_throw (h : Host) (this : PythonSettings) :
  (∀ value, (set_pythonPath h value this).1 = Normal ())
  ∧ (∀ value, (set_defaultInterpreterPath h value this).1 = Normal ())
  ∧ (∀ value ex,
       getPythonExecutable h value = Throw ex →
       _pythonPath (set_pythonPath h value this).2 = value)
  ∧ (∀ value ex,
       getPythonExecutable h (Some value) = Throw ex →
       _defaultInterpreterPath (set_defaultInterpreterPath h value this).2 = value).
Proof.
  repeat split.
  - intros value. by destruct (set_pythonPath_returns h value this) as [? ->].
  - intros value. by destruct (set_defaultInterpreterPath_returns h value this) as [? ->].
  - intros value ex Hthrow.
    unfold set_pythonPath, bind, getState, tryCatch, liftC, assign, ret.
    destruct (decide _) as [Heq|]; [done|]. by rewrite Hthrow.
  - intros value ex Hthrow.
    unfold set_defaultInterpreterPath, bind, getState, tryCatch, liftC, assign, ret.
    destruct (decide _) as [Heq|]; [done|]. by rewrite Hthrow.
Qed.

Lemma setters_absorb_throw_witness :
  let h := Posix.host "/home/u" [] ["/locked/env"%string] false in
  let this := newPythonSettings None 0%nat None in
  getPythonExecutable h (Some "/locked/env"%string) = Throw (HostError "EACCES")
  ∧ _pythonPath (set_pythonPath h (Some "/locked/env"%string) this).2 = Some "/locked/env"%string
  ∧ _defaultInterpreterPath (set_defaultInterpreterPath h "/locked/env" this).2
    = "/locked/env"%string.
Proof.
  intros h this.
  destruct (setters_absorb_throw h this) as (_ & _ & Hpath & Hdefault).
  split; [reflexivity|]. split.
  - exact (Hpath (Some "/locked/env"%string) (HostError "EACCES") eq_refl).
  - exact (Hdefault "/locked/env"%string (HostError "EACCES") eq_refl).
Defined.

(** ** Recomputing one object *)

Section UpdateFacts.
Context (h : Host) (services : handle → Resource → option string).

Lemma getAbsolutePath_returns s rootDir :
  ∃ r, getAbsolutePath h (Some s) rootDir = Normal r.
Proof.
  unfold getAbsolutePath. cbn [untildify cbind].
  destruct (_ && _)%bool; [by eauto|]. destruct (decide _); by eauto.
Qed.

Lemma absolutizeIfSet_returns x rootDir :
  ∃ r, absolutizeIfSet h x rootDir = Normal r.
Proof.
  unfold absolutizeIfSet. destruct (_ && _)%bool eqn:Hset; [|by eauto].
  destruct x as [s|]; [|done].
  destruct (getAbsolutePath_returns s rootDir) as [r ->]. by eauto.
Qed.

(** The setter writes [_pythonPath] and nothing else. *)
Lemma set_pythonPath_frame value this :
  ∃ v, set_pythonPath h value this = (Normal (), with__pythonPath v this)
       ∧ (is_Some value → is_Some v) ∧ (value = None → v = None).
Proof.
  unfold set_pythonPath, bind, getState, tryCatch, liftC, assign, ret.
  destruct (decide _) as [Heq|_].
  - exists value. split; [|done]. destruct this; simpl in *. by subst.
  - destruct (getPythonExecutable h value) as [r|ex] eqn:Hrun.
    + exists (Some r). split; [done|]. split; [done|].
      intros ->. discriminate.
    + exists value. done.
Qed.

(** The setter writes [_defaultInterpreterPath] and nothing else. *)
Lemma set_defaultInterpreterPath_frame value this :
  ∃ v, set_defaultInterpreterPath h value this
       = (Normal (), with__defaultInterpreterPath v this).
Proof.
  unfold set_defaultInterpreterPath, bind, getState, tryCatch, liftC, assign, ret.
  destruct (decide _) as [Heq|_].
  - exists value. destruct this; simpl in *. by subst.
  - destruct (getPythonExecutable h (Some value)); by eauto.
Qed.

(** [getPythonPath] reads its source and nothing else of the configuration;
    it returns when the source is a string and throws otherwise. *)
Lemma getPythonPath_source cfg sv rootPath this :
  getPythonPath h services cfg sv rootPath this =
    bind (set_pythonPath h (resolveAnyString sv (pythonPathSource services cfg this)))
         (λ _, bind getState
                 (λ this', liftC (getAbsolutePath h (_pythonPath this') rootPath)))
         this.
Proof. reflexivity. Qed.

Lemma getPythonPath_returns cfg sv rootPath this s :
  pythonPathSource services cfg this = Some s →
  ∃ p v, getPythonPath h services cfg sv rootPath this
         = (Normal p, with__pythonPath (Some v) this).
Proof.
  intros Hsrc. rewrite getPythonPath_source, Hsrc. unfold bind at 1.
  destruct (set_pythonPath_frame (resolveAnyString sv (Some s)) this)
    as (v & -> & Hsome & _).
  destruct Hsome as [v' ->]; [by eexists|].
  unfold bind, getState, liftC. cbn [_pythonPath with__pythonPath].
  destruct (getAbsolutePath_returns v' rootPath) as [p ->]. by eauto.
Qed.

Lemma getPythonPath_throws cfg sv rootPath this :
  pythonPathSource services cfg this = None →
  getPythonPath h services cfg sv rootPath this
  = (Throw (TypeError "Expected a string, got undefined"), with__pythonPath None this).
Proof.
  intros Hsrc. rewrite getPythonPath_source, Hsrc. unfold bind at 1.
  destruct (set_pythonPath_frame (resolveAnyString sv None) this)
    as (v & -> & _ & Hnone).
  by rewrite (Hnone eq_refl).
Qed.

(** A recompute whose python path source is a string runs to its end, and
    these are the flag and list fields it leaves. *)
Lemma update_completes cfg this s :
  pythonPathSource services cfg this = Some s →
  let sv := resolveString h (fsPath <$> workspaceRoot this) in
  ∃ this',
    update h services cfg this = (Normal (), this')
    ∧ venvFolders this' = resolveAny sv (raw_venvFolders cfg)
    ∧ devOptions this' =
        (if isArray (resolveAny sv (raw_devOptions cfg))
         then resolveAny sv (raw_devOptions cfg) else VArr [])
    ∧ disableInstallationChecks this' = strictEqTrue (raw_disableInstallationCheck cfg)
    ∧ globalModuleInstallation this' = strictEqTrue (raw_globalModuleInstallation cfg)
    ∧ autoUpdateLanguageServer this' =
        resolveAny sv (getWithDefault (raw_autoUpdateLanguageServer cfg) (VBool true))
    ∧ languageServerIsDefault this' = languageServerIsDefault this.
Proof.
  intros Hsrc sv. unfold update.
  unfold bind at 1. unfold getState at 1. unfold bind at 1. fold sv.
  destruct (getPythonPath_returns cfg sv (fsPath <$> workspaceRoot this) this s Hsrc)
    as (p & v & ->).
  unfold bind at 1.
  destruct (set_pythonPath_frame (Some p) (with__pythonPath (Some v) this)) as (v2 & -> & _).
  unfold bind at 1.
  match goal with |- context [set_defaultInterpreterPath h ?x ?t] =>
    destruct (set_defaultInterpreterPath_frame x t) as (v3 & ->) end.
  repeat match goal with |- context [absolutizeIfSet h ?x ?r] =>
    let Hx := fresh "Habs" in
    destruct (absolutizeIfSet_returns x r) as [? Hx]; rewrite Hx; clear Hx end.
  unfold bind, assign, liftC, getState, ret. cbn.
  destruct (terminal this).
  - eexists. split; [reflexivity|]. done.
  - destruct (_ && _)%bool; (eexists; split; [reflexivity|]; done).
Qed.

(** A recompute whose python path source is [undefined] throws. *)
Lemma update_throws cfg this :
  pythonPathSource services cfg this = None →
  update h services cfg this
  = (Throw (TypeError "Expected a string, got undefined"), with__pythonPath None this).
Proof.
  intros Hsrc. unfold update.
  unfold bind at 1. unfold getState at 1. unfold bind at 1.
  by rewrite getPythonPath_throws.
Qed.

(** What the setter leaves in [_pythonPath]: the value itself through the
    guard or when resolving it throws, the resolved executable otherwise. *)
Lemma set_pythonPath_effect value this :
  set_pythonPath h value this
  = (Normal (),
     with__pythonPath
       (if decide (_pythonPath this = value) then value
        else match getPythonExecutable h value with
             | Normal r => Some r
             | Throw _ => value
             end) this).
Proof.
  unfold set_pythonPath, bind, getState, tryCatch, liftC, assign, ret.
  destruct (decide _) as [Heq|_].
  - destruct this; simpl in *. by subst.
  - by destruct (getPythonExecutable h value).
Qed.

(** [getPythonPath] on a source that is a string: the resolved source goes
    through the setter, and the stored value, made absolute, is returned. *)
Lemma getPythonPath_effect cfg sv rootPath this s :
  pythonPathSource services cfg this = Some s →
  let stored :=
    if decide (_pythonPath this = Some (sv s)) then sv s
    else match getPythonExecutable h (Some (sv s)) with
         | Normal r => r
         | Throw _ => sv s
         end in
  ∃ p, getAbsolutePath h (Some stored) rootPath = Normal p
       ∧ getPythonPath h services cfg sv rootPath this
         = (Normal p, with__pythonPath (Some stored) this).
Proof.
  intros Hsrc stored. rewrite getPythonPath_source, Hsrc. unfold bind at 1.
  rewrite set_pythonPath_effect. cbn [resolveAnyString].
  match goal with |- context [with__pythonPath ?x this] =>
    assert (x = Some stored) as -> end.
  { subst stored. destruct (decide _); [done|].
    by destruct (getPythonExecutable h (Some (sv s))). }
  destruct (getAbsolutePath_returns stored rootPath) as [p Hp].
  exists p. split; [done|].
  unfold bind, getState, liftC. cbn [_pythonPath with__pythonPath]. by rewrite Hp.
Qed.

(** The python path a whole recompute leaves: the value [getPythonPath]
    returned, assigned through the setter once more. *)
Lemma update_pythonPath cfg this s :
  pythonPathSource services cfg this = Some s →
  let rootPath := fsPath <$> workspaceRoot this in
  let sv := resolveString h rootPath in
  let stored :=
    if decide (_pythonPath this = Some (sv s)) then sv s
    else match getPythonExecutable h (Some (sv s)) with
         | Normal r => r
         | Throw _ => sv s
         end in
  ∃ p this',
    getAbsolutePath h (Some stored) rootPath = Normal p
    ∧ update h services cfg this = (Normal (), this')
    ∧ _pythonPath this' =
        Some (if decide (stored = p) then p
              else match getPythonExecutable h (Some p) with
                   | Normal r => r
                   | Throw _ => p
                   end).
Proof.
  intros Hsrc rootPath sv stored.
  destruct (getPythonPath_effect cfg sv rootPath this s Hsrc) as (p & Hp & Hget).
  fold stored in Hget, Hp. exists p.
  enough (∃ this',
            update h services cfg this = (Normal (), this')
            ∧ _pythonPath this' =
                Some (if decide (stored = p) then p
                      else match getPythonExecutable h (Some p) with
                           | Normal r => r
                           | Throw _ => p
                           end)) as (this' & Hrun & Hfield)
    by (by exists this').
  clear Hp. unfold update.
  unfold bind at 1. unfold getState at 1. unfold bind at 1. fold rootPath. fold sv.
  rewrite Hget. unfold bind at 1. rewrite set_pythonPath_effect.
  cbn [_pythonPath with__pythonPath].
  match goal with |- context [with__pythonPath ?x (with__pythonPath (Some stored) this)] =>
    assert (x = Some (if decide (stored = p) then p
                      else match getPythonExecutable h (Some p) with
                           | Normal r => r
                           | Throw _ => p
                           end)) as -> end.
  { destruct (decide (Some stored = Some p)) as [Heq|Hne];
      destruct (decide (stored = p)) as [Heq'|Hne']; try done.
    - by inversion Heq.
    - by subst.
    - by destruct (getPythonExecutable h (Some p)). }
  unfold bind at 1.
  match goal with |- context [set_defaultInterpreterPath h ?x ?t] =>
    destruct (set_defaultInterpreterPath_frame x t) as (v3 & ->) end.
  repeat match goal with |- context [absolutizeIfSet h ?x ?r] =>
    let Hx := fresh "Habs" in
    destruct (absolutizeIfSet_returns x r) as [? Hx]; rewrite Hx; clear Hx end.
  unfold bind, assign, liftC, getState, ret. cbn.
  destruct (terminal this).
  - eexists. split; [reflexivity|]. done.
  - destruct (isTestExecution h && _)%bool; (eexists; split; [reflexivity|]; done).
Qed.

End UpdateFacts.

(** C3: a recompute that runs to its end leaves in each flag the result of
    the exact comparison of the raw value with [true], so only the boolean
    [true] gives [true] and every other raw value, the string ["true"]
    included, gives [false]; the auto-update flag is not compared: it is
    [true] when the raw value is unset or is [true], and the resolved raw
    value otherwise. *)
Theorem update_boolean_flags (h : Host) (services : handle → Resource → option string)
    (cfg : WorkspaceConfiguration) (this : PythonSettings) (s : string) :
  pythonPathSource services cfg this = Some s →
  ∃ this',
    update h services cfg this = (Normal (), this')
    ∧ disableInstallationChecks this' =
        match raw_disableInstallationCheck cfg with VBool true => true | _ => false end
    ∧ globalModuleInstallation this' =
        match raw_globalModuleInstallation cfg with VBool true => true | _ => false end
    ∧ autoUpdateLanguageServer this' =
        match raw_autoUpdateLanguageServer cfg with
        | VUndefined | VBool true => VBool true
        | v => resolveAny (resolveString h (fsPath <$> workspaceRoot this)) v
        end.
Proof.
  intros Hsrc.
  destruct (update_completes h services cfg this s Hsrc)
    as (this' & Hrun & _ & _ & Hdisable & Hglobal & Hauto & _).
  exists this'. split; [done|]. split; [done|]. split; [done|].
  rewrite Hauto. by destruct (raw_autoUpdateLanguageServer cfg) as [| |[]| | | |].
Qed.

Lemma update_boolean_flags_witness :
  ∃ this',
    update exampleHost (λ _ _, None) exampleConfiguration exampleSettings = (Normal (), this')
    ∧ disableInstallationChecks this' = false
    ∧ globalModuleInstallation this' = true
    ∧ autoUpdateLanguageServer this' = VBool true.
Proof.
  exact (update_boolean_flags exampleHost (λ _ _, None) exampleConfiguration exampleSettings
           "python" eq_refl).
Defined.

(** C4, at a configuration whose list settings hold a string, and at one
    where they are unset: [devOptions] becomes the empty array, [venvFolders]
    keeps the raw string, and becomes [undefined] when unset. *)
Theorem update_venvFolders_not_coerced :
  (∃ this',
     update exampleHost (λ _ _, None) exampleConfiguration exampleSettings = (Normal (), this')
     ∧ devOptions this' = VArr []
     ∧ venvFolders this' = VStr "envs")
  ∧ (∃ this',
       update exampleHost (λ _ _, None) exampleConfigurationUnset exampleSettings
       = (Normal (), this')
       ∧ devOptions this' = VArr []
       ∧ venvFolders this' = VUndefined).
Proof. split; eexists; (split; [vm_compute; reflexivity|]); split; reflexivity. Qed.

(** What a recompute leaves in the two list fields, for every configuration:
    [devOptions] is an array, [venvFolders] is the resolved raw value, an
    array only if the raw value is one. *)
Lemma update_list_fields (h : Host) (services : handle → Resource → option string)
    (cfg : WorkspaceConfiguration) (this : PythonSettings) (s : string) :
  pythonPathSource services cfg this = Some s →
  ∃ this',
    update h services cfg this = (Normal (), this')
    ∧ (isArray (raw_devOptions cfg) = false → devOptions this' = VArr [])
    ∧ isArray (devOptions this') = true
    ∧ isArray (venvFolders this') = isArray (raw_venvFolders cfg).
Proof.
  intros Hsrc.
  destruct (update_completes h services cfg this s Hsrc)
    as (this' & Hrun & Hvenv & Hdev & _).
  exists this'. split; [done|]. rewrite Hdev, Hvenv. repeat split.
  - by destruct (raw_devOptions cfg).
  - by destruct (raw_devOptions cfg).
  - by destruct (raw_venvFolders cfg).
Qed.

(** C9: with an interpreter path service, the python path is derived from
    the answer of the service for the workspace root and from nothing else.
    When the service answers a string, [getPythonPath] passes the resolved
    answer to the setter, which stores it as it is or as the executable found
    for it, and returns the stored value made absolute; the whole recompute
    assigns that result once more and ends normally. The raw ['pythonPath']
    of the configuration has no influence on [getPythonPath] nor on the whole
    recompute; and when the service answers [undefined] the configured value
    is not used instead: the field is left [undefined] and both end in a
    [TypeError]. *)
Theorem getPythonPath_uses_service_only (h : Host)
    (services : handle → Resource → option string)
    (cfg : WorkspaceConfiguration) (this : PythonSettings) (svc : handle) :
  interpreterPathService this = Some svc →
  (∀ s, services svc (workspaceRoot this) = Some s →
     ∀ v sv rootPath,
       let stored :=
         if decide (_pythonPath this = Some (sv s)) then sv s
         else match getPythonExecutable h (Some (sv s)) with
              | Normal r => r
              | Throw _ => sv s
              end in
       ∃ p, getAbsolutePath h (Some stored) rootPath = Normal p
            ∧ getPythonPath h services (withRawPythonPath v cfg) sv rootPath this
              = (Normal p, with__pythonPath (Some stored) this))
  ∧ (∀ s, services svc (workspaceRoot this) = Some s →
     ∀ v,
       let rootPath := fsPath <$> workspaceRoot this in
       let sv := resolveString h rootPath in
       let stored :=
         if decide (_pythonPath this = Some (sv s)) then sv s
         else match getPythonExecutable h (Some (sv s)) with
              | Normal r => r
              | Throw _ => sv s
              end in
       ∃ p this',
         getAbsolutePath h (Some stored) rootPath = Normal p
         ∧ update h services (withRawPythonPath v cfg) this = (Normal (), this')
         ∧ _pythonPath this' =
             Some (if decide (stored = p) then p
                   else match getPythonExecutable h (Some p) with
                        | Normal r => r
                        | Throw _ => p
                        end))
  ∧ (services svc (workspaceRoot this) = None →
     ∀ v sv rootPath,
       getPythonPath h services (withRawPythonPath v cfg) sv rootPath this
       = (Throw (TypeError "Expected a string, got undefined"), with__pythonPath None this))
  ∧ pythonPathSource services cfg this = services svc (workspaceRoot this)
  ∧ (∀ v sv rootPath,
       getPythonPath h services (withRawPythonPath v cfg) sv rootPath this
       = getPythonPath h services cfg sv rootPath this)
  ∧ (∀ v, update h services (withRawPythonPath v cfg) this = update h services cfg this)
  ∧ (services svc (workspaceRoot this) = None →
     ∀ v, update h services (withRawPythonPath v cfg) this
          = (Throw (TypeError "Expected a string, got undefined"), with__pythonPath None this)).
Proof.
  intros Hsvc.
  assert (∀ v, pythonPathSource services (withRawPythonPath v cfg) this
               = services svc (workspaceRoot this)) as Hsrc
    by (intros v; unfold pythonPathSource; by rewrite Hsvc).
  assert (pythonPathSource services cfg this = services svc (workspaceRoot this)) as Hsrc0
    by (unfold pythonPathSource; by rewrite Hsvc).
  assert (∀ v sv rootPath,
            getPythonPath h services (withRawPythonPath v cfg) sv rootPath this
            = getPythonPath h services cfg sv rootPath this) as Hget
    by (intros v sv rootPath; by rewrite !getPythonPath_source, Hsrc, Hsrc0).
  split; [|split; [|split; [|split; [done|split; [done|split]]]]].
  - intros s Hs v sv rootPath.
    apply (getPythonPath_effect h services (withRawPythonPath v cfg) sv rootPath this s).
    by rewrite Hsrc.
  - intros s Hs v.
    apply (update_pythonPath h services (withRawPythonPath v cfg) this s).
    by rewrite Hsrc.
  - intros Hnone v sv rootPath. apply getPythonPath_throws. by rewrite Hsrc.
  - intros v. unfold update.
    unfold bind at 1. unfold getState at 1. unfold bind at 1.
    rewrite Hget. reflexivity.
  - intros Hnone v. apply update_throws. by rewrite Hsrc.
Qed.

Lemma getPythonPath_uses_service_only_witness :
  (∃ this',
     update exampleHost (λ _ _, Some "./venv/bin/python"%string)
       (withRawPythonPath (Some "/usr/bin/python3"%string) exampleConfiguration)
       exampleSettingsWithService
     = (Normal (), this')
     ∧ _pythonPath this' = Some "/proj/venv/bin/python"%string)
  ∧ update exampleHost (λ _ _, None) (withRawPythonPath (Some "/usr/bin/python3"%string)
                                        exampleConfiguration) exampleSettingsWithService
    = (Throw (TypeError "Expected a string, got undefined"),
       with__pythonPath None exampleSettingsWithService).
Proof.
  split.
  - destruct (proj1 (proj2
      (getPythonPath_uses_service_only exampleHost (λ _ _, Some "./venv/bin/python"%string)
         exampleConfiguration exampleSettingsWithService 1%nat eq_refl))
      "./venv/bin/python"%string eq_refl (Some "/usr/bin/python3"%string))
      as (p & this' & Hp & Hrun & Hfield).
    exists this'. split; [exact Hrun|].
    vm_compute in Hp. injection Hp as <-.
    rewrite Hfield. vm_compute. reflexivity.
  - exact (proj2 (proj2 (proj2 (proj2 (proj2 (proj2
      (getPythonPath_uses_service_only exampleHost (λ _ _, None) exampleConfiguration
         exampleSettingsWithService 1%nat eq_refl)))))) eq_refl
      (Some "/usr/bin/python3"%string)).
Defined.

(** ** The registry *)

Section RegistryFacts.
Context (h : Host).

Lemma keepsRegistry_ret {A} (a : A) : keepsRegistry (ret a).
Proof. by intros w. Qed.

Lemma keepsRegistry_getState : keepsRegistry getState.
Proof. by intros w. Qed.

Lemma keepsRegistry_bind {A B} (m : M World A) (k : A → M World B) :
  keepsRegistry m → (∀ a, keepsRegistry (k a)) → keepsRegistry (bind m k).
Proof.
  intros Hm Hk w. unfold bind. specialize (Hm w).
  destruct (m w) as [[a|e] w1]; simpl in *; [|done].
  destruct (Hk a w1) as [-> ->]. done.
Qed.

Lemma keepsRegistry_onThis {A} this (m : M PythonSettings A) :
  keepsRegistry (onThis this m).
Proof. intros w. unfold onThis. by destruct (m (heap w this)). Qed.

Lemma keepsRegistry_subscribe l : keepsRegistry (subscribe l).
Proof. by intros w. Qed.

Lemma keepsRegistry_initialize this : keepsRegistry (initialize h this).
Proof.
  unfold initialize, pushDisposable.
  repeat first
    [ apply keepsRegistry_bind; [|intros ?]
    | apply keepsRegistry_subscribe
    | apply keepsRegistry_onThis
    | apply keepsRegistry_getState
    | apply keepsRegistry_ret
    | match goal with |- keepsRegistry (match ?x with _ => _ end) => destruct x end ].
Qed.

Lemma keepsRegistry_PythonSettings_new workspaceFolder workspace svc :
  keepsRegistry (PythonSettings_new h workspaceFolder workspace svc).
Proof.
  unfold PythonSettings_new.
  apply keepsRegistry_bind; [apply keepsRegistry_getState | intros w0].
  apply keepsRegistry_bind; [by intros w | intros _].
  apply keepsRegistry_bind; [apply keepsRegistry_initialize | intros _].
  apply keepsRegistry_ret.
Qed.

(** One call: an entry that exists is returned and nothing changes; else the
    call either throws and leaves the map as it was, or returns the object
    it has just entered under the key. *)
Lemma runCall_step (c : Call) (w : World) :
  match pythonSettings w !! callKey w c with
  | Some l => runCall h c w = (Normal (Some l), w)
  | None =>
      (∃ e w', runCall h c w = (Throw e, w')
               ∧ pythonSettings w' = pythonSettings w ∧ workspaces w' = workspaces w)
      ∨ (∃ l w', runCall h c w = (Normal (Some l), w')
                 ∧ pythonSettings w' = <[callKey w c := l]> (pythonSettings w)
                 ∧ workspaces w' = workspaces w)
  end.
Proof.
  remember (runCall h c w) as res eqn:Hres.
  unfold runCall, getInstance in Hres. unfold callKey.
  set (key := workspaceFolderKey _ _) in *.
  unfold bind at 1 in Hres. unfold getState at 1 in Hres. cbv beta iota in Hres.
  change (workspaceFolderKey (call_resource c)
            (workspaces w (default WorkspaceService_new (call_workspace c))))
    with key in Hres.
  destruct (pythonSettings w !! key) as [l|] eqn:Hkey.
  - cbn [bool_decide decide_rel is_Some_dec] in Hres.
    unfold bind, getState, ret in Hres. by rewrite Hkey in Hres.
  - cbn [bool_decide decide_rel is_Some_dec] in Hres.
    unfold bind at 1 in Hres. unfold bind at 1 in Hres.
    match type of Hres with context [PythonSettings_new h ?a ?b ?d w] =>
      pose proof (keepsRegistry_PythonSettings_new a b d w) as [Hreg Hws];
      destruct (PythonSettings_new h a b d w) as [[l|e] w1] end; simpl in Hreg, Hws.
    + right. exists l, (with_pythonSettings (<[key := l]> (pythonSettings w1)) w1).
      unfold assign, bind, getState, ret in Hres.
      cbn [pythonSettings with_pythonSettings] in Hres.
      rewrite lookup_insert_eq in Hres.
      split; [done|]. cbn [pythonSettings workspaces with_pythonSettings].
      by rewrite Hreg.
    + left. by exists e, w1.
Qed.

Lemma runCall_keeps_workspaces c w : workspaces (runCall h c w).2 = workspaces w.
Proof.
  pose proof (runCall_step c w) as Hstep.
  destruct (pythonSettings w !! callKey w c).
  - by rewrite Hstep.
  - destruct Hstep as [(e & w' & -> & _ & ?) | (l & w' & -> & _ & ?)]; done.
Qed.

(** No call replaces or removes an entry. *)
Lemma runCall_keeps_entries c w :
  pythonSettings w ⊆ pythonSettings (runCall h c w).2.
Proof.
  pose proof (runCall_step c w) as Hstep.
  destruct (pythonSettings w !! callKey w c) eqn:Hkey.
  - by rewrite Hstep.
  - destruct Hstep as [(e & w' & -> & Hreg & _) | (l & w' & -> & Hreg & _)];
      simpl; rewrite Hreg; [done|].
    by apply insert_subseteq.
Qed.

Lemma afterCalls_keeps_entries calls w :
  pythonSettings w ⊆ pythonSettings (afterCalls h calls w).
Proof.
  revert w. induction calls as [|c rest IH]; intros w; simpl; [done|].
  etrans; [apply runCall_keeps_entries | apply IH].
Qed.

(** A call that returns hands out the entry of its key, and that entry is
    still the one in the map after all the calls. *)
Lemma getInstanceTrace_entry calls w i key r :
  getInstanceTrace h calls w !! i = Some (key, Normal r) →
  is_Some r ∧ pythonSettings (afterCalls h calls w) !! key = r.
Proof.
  revert w i. induction calls as [|c rest IH]; intros w i Hi; [done|].
  destruct i as [|i]; simpl in Hi; [|by apply (IH _ i)].
  injection Hi as <- Hres. simpl.
  pose proof (runCall_step c w) as Hstep.
  assert (∃ l, r = Some l ∧ pythonSettings (runCall h c w).2 !! callKey w c = Some l)
    as (l & -> & Hl).
  { destruct (pythonSettings w !! callKey w c) as [l|] eqn:Hkey.
    - rewrite Hstep in Hres |- *. simpl in *. exists l. by simplify_eq.
    - destruct Hstep as [(e & w' & Hrun & _) | (l & w' & Hrun & Hreg & _)];
        rewrite Hrun in Hres |- *; simpl in *; [done|].
      exists l. rewrite Hreg, lookup_insert_eq. by simplify_eq. }
  split; [by eauto|].
  eapply lookup_weaken; [exact Hl | apply afterCalls_keeps_entries].
Qed.

End RegistryFacts.

(** C1: in any sequence of [getInstance] calls, two calls that map to the
    same scope key (a folder path, or the empty key of the global scope) and
    return are handed the same object; and every entry that is in the map
    before a call is in it, unchanged, after the call and after the whole
    sequence. *)
Theorem getInstance_one_per_key (h : Host) (calls : list Call) (w : World) :
  (∀ i j key ri rj,
     getInstanceTrace h calls w !! i = Some (key, Normal ri) →
     getInstanceTrace h calls w !! j = Some (key, Normal rj) →
     ri = rj ∧ is_Some ri)
  ∧ (∀ c, pythonSettings w ⊆ pythonSettings (runCall h c w).2)
  ∧ pythonSettings w ⊆ pythonSettings (afterCalls h calls w).
Proof.
  split; [|split].
  - intros i j key ri rj Hi Hj.
    destruct (getInstanceTrace_entry h calls w i key ri Hi) as [Hsome <-].
    destruct (getInstanceTrace_entry h calls w j key rj Hj) as [_ <-].
    done.
  - intros c. apply runCall_keeps_entries.
  - apply afterCalls_keeps_entries.
Qed.

Lemma getInstance_one_per_key_witness :
  getInstanceTrace exampleHost exampleCalls (emptyWorld exampleWorkspace) !! 0%nat
    = Some ("/proj"%string, Normal (Some 0%nat))
  ∧ getInstanceTrace exampleHost exampleCalls (emptyWorld exampleWorkspace) !! 2%nat
    = Some ("/proj"%string, Normal (Some 0%nat))
  ∧ Some 0%nat = Some 0%nat ∧ is_Some (Some 0%nat).
Proof.
  assert (getInstanceTrace exampleHost exampleCalls (emptyWorld exampleWorkspace) !! 0%nat
          = Some ("/proj"%string, Normal (Some 0%nat))) as H0 by (vm_compute; reflexivity).
  assert (getInstanceTrace exampleHost exampleCalls (emptyWorld exampleWorkspace) !! 2%nat
          = Some ("/proj"%string, Normal (Some 0%nat))) as H2 by (vm_compute; reflexivity).
  split; [exact H0|]. split; [exact H2|].
  exact (proj1 (getInstance_one_per_key exampleHost exampleCalls (emptyWorld exampleWorkspace))
           0%nat 2%nat "/proj"%string (Some 0%nat) (Some 0%nat) H0 H2).
Defined.

(** ** Disposal and eviction *)

Section DisposeFacts.

Lemma lookup_foldl_delete `{Countable K} {A} (ks : list K) (m : gmap K A) (d : K) :
  foldl (λ m k, delete k m) m ks !! d = if decide (d ∈ ks) then None else m !! d.
Proof.
  revert m. induction ks as [|k ks IH]; intros m; simpl; [done|].
  rewrite IH. destruct (decide (d = k)) as [->|Hne].
  - rewrite lookup_delete_eq. rewrite (decide_True (P := k ∈ k :: ks)) by constructor.
    by destruct (decide _).
  - rewrite lookup_delete_ne by done.
    destruct (decide (d ∈ ks)) as [Hin|Hnin].
    + by rewrite decide_True by by constructor.
    + rewrite decide_False; [done|]. by intros [?|?]%elem_of_cons.
Qed.

(** Disposing a list of listeners removes exactly those from the live ones. *)
Lemma forEach_disposeListener ds w :
  forEach ds disposeListener w
  = (Normal (), with_listeners (foldl (λ m d, delete d m) (listeners w) ds) w).
Proof.
  revert w. induction ds as [|d ds IH]; intros w; simpl.
  - by destruct w.
  - unfold bind, disposeListener at 1, assign. by rewrite IH.
Qed.

(** [dispose()] of one object: its listeners are removed, its list of
    disposables is emptied, nothing else changes. *)
Lemma dispose_run this w :
  ∃ w',
    dispose this w = (Normal (), w')
    ∧ pythonSettings w' = pythonSettings w
    ∧ disposables (heap w' this) = []
    ∧ (∀ l, l ≠ this → heap w' l = heap w l)
    ∧ (∀ d, d ∈ disposables (heap w this) → listeners w' !! d = None)
    ∧ (∀ d, listeners w !! d = None → listeners w' !! d = None).
Proof.
  unfold dispose, bind at 1, getState at 1, bind at 1.
  rewrite forEach_disposeListener. unfold onThis, assign.
  eexists. split; [reflexivity|]. cbn. repeat split.
  - by rewrite fn_lookup_insert.
  - intros l Hl. by rewrite fn_lookup_insert_ne.
  - intros d Hd. rewrite lookup_foldl_delete. by rewrite decide_True.
  - intros d Hd. rewrite lookup_foldl_delete. by destruct (decide _).
Qed.

(** Disposing every object of a list. *)
Lemma forEach_dispose ls w :
  ∃ w',
    forEach ls dispose w = (Normal (), w')
    ∧ pythonSettings w' = pythonSettings w
    ∧ (∀ l, l ∈ ls → disposables (heap w' l) = [])
    ∧ (∀ l, disposables (heap w' l) = [] ∨ heap w' l = heap w l)
    ∧ (∀ l d, l ∈ ls → d ∈ disposables (heap w l) → listeners w' !! d = None)
    ∧ (∀ d, listeners w !! d = None → listeners w' !! d = None).
Proof.
  revert w. induction ls as [|this ls IH]; intros w; simpl.
  - exists w. split; [done|]. split; [done|]. repeat split; try by eauto.
    + by intros l ?%elem_of_nil.
    + by intros l d ?%elem_of_nil.
  - destruct (dispose_run this w) as (w1 & Hrun & Hreg1 & Hthis & Hframe & Hgone1 & Hmono1).
    destruct (IH w1) as (w' & Hrest & Hreg & Hempty & Hkeep & Hgone & Hmono).
    exists w'. unfold bind. rewrite Hrun, Hrest.
    split; [done|]. split; [congruence|]. repeat split.
    + intros l [->|Hl]%elem_of_cons; [|by apply Hempty].
      destruct (Hkeep this) as [?|Heq]; [done|]. by rewrite Heq.
    + intros l. destruct (Hkeep l) as [?|Heq]; [by left|].
      destruct (decide (l = this)) as [->|Hne].
      * left. by rewrite Heq.
      * right. rewrite Heq. by apply Hframe.
    + intros l d Hl Hd. destruct (decide (l = this)) as [->|Hne].
      * by apply Hmono, Hgone1.
      * apply elem_of_cons in Hl as [?|Hl]; [done|].
        apply (Hgone l); [done|]. by rewrite Hframe.
    + intros d Hd. by apply Hmono, Hmono1.
Qed.

Lemma arrayIndexOf_range l x : arrayIndexOf l x = -1 ∨ 0 ≤ arrayIndexOf l x.
Proof.
  induction l as [|y l IH]; simpl; [by left|].
  destruct (decide (y = x)); [by right|].
  destruct (decide (arrayIndexOf l x = -1)); [by left|]. right. lia.
Qed.

(** [l.indexOf(x) < 0] says that [x] is not in [l]. *)
Lemma arrayIndexOf_negative l x : arrayIndexOf l x < 0 ↔ x ∉ l.
Proof.
  induction l as [|y l IH]; simpl.
  - split; [intros _; apply not_elem_of_nil | lia].
  - destruct (decide (y = x)) as [->|Hne].
    + split; [lia|]. intros Hnin. destruct Hnin. constructor.
    + rewrite not_elem_of_cons.
      destruct (decide (arrayIndexOf l x = -1)) as [Heq|Hneq].
      * split; [|lia]. intros _. split; [done|]. apply IH. lia.
      * pose proof (arrayIndexOf_range l x). split; [lia|].
        intros [_ Hnin]. apply IH in Hnin. lia.
Qed.

(** Deleting a list of keys one after the other. *)
Lemma forEach_delete ks w :
  forEach ks (λ folder, assign (λ w, with_pythonSettings (delete folder (pythonSettings w)) w)) w
  = (Normal (), with_pythonSettings (foldl (λ m k, delete k m) (pythonSettings w) ks) w).
Proof.
  revert w. induction ks as [|k ks IH]; intros w; simpl.
  - by destruct w.
  - unfold bind, assign at 1. by rewrite IH.
Qed.

End DisposeFacts.

(** C7: outside a test run the static [dispose] throws and the process, its
    registry map included, is as before; in a test run it returns, the map is
    empty, and every object that was in the map has an empty list of
    disposables, each of its listeners being removed. *)
Theorem PythonSettings_dispose_guarded (h : Host) (w : World) :
  (isTestExecution h = false →
   PythonSettings_dispose h w
   = (Throw (Error "Dispose can only be called from unit tests"), w))
  ∧ (isTestExecution h = true →
     ∃ w',
       PythonSettings_dispose h w = (Normal (), w')
       ∧ pythonSettings w' = ∅
       ∧ ∀ key this,
           pythonSettings w !! key = Some this →
           disposables (heap w' this) = []
           ∧ ∀ d, d ∈ disposables (heap w this) → listeners w' !! d = None).
Proof.
  unfold PythonSettings_dispose. split; intros ->; simpl; [done|].
  unfold bind at 1, getState at 1.
  destruct (forEach_dispose (map_to_list (pythonSettings w)).*2 w)
    as (w1 & Hrun & _ & Hempty & _ & Hgone & _).
  unfold bind. rewrite Hrun. unfold assign.
  eexists. split; [reflexivity|]. split; [done|].
  intros key this Hkey.
  assert (this ∈ (map_to_list (pythonSettings w)).*2) as Hin.
  { apply list_elem_of_fmap. exists (key, this). split; [done|].
    by apply elem_of_map_to_list. }
  cbn. split; [by apply Hempty|]. intros d Hd. by apply (Hgone this).
Qed.

Lemma PythonSettings_dispose_guarded_witness :
  PythonSettings_dispose exampleHost (exampleWorld exampleWorkspace)
  = (Throw (Error "Dispose can only be called from unit tests"), exampleWorld exampleWorkspace)
  ∧ ∃ w',
      PythonSettings_dispose (Posix.host "/home/u" [] [] true) (exampleWorld exampleWorkspace)
      = (Normal (), w')
      ∧ pythonSettings w' = ∅
      ∧ disposables (heap w' 1%nat) = []
      ∧ listeners w' !! 3%nat = None.
Proof.
  split.
  - exact (proj1 (PythonSettings_dispose_guarded exampleHost (exampleWorld exampleWorkspace))
             eq_refl).
  - destruct (proj2 (PythonSettings_dispose_guarded (Posix.host "/home/u" [] [] true)
                       (exampleWorld exampleWorkspace)) eq_refl)
      as (w' & Hrun & Hmap & Hobjects).
    exists w'. split; [exact Hrun|]. split; [exact Hmap|].
    assert (pythonSettings (exampleWorld exampleWorkspace) !! "/proj"%string = Some 1%nat)
      as Hkey by (vm_compute; reflexivity).
    destruct (Hobjects "/proj"%string 1%nat Hkey) as [Hempty Hgone].
    split; [exact Hempty|]. apply Hgone. vm_compute. by do 2 constructor.
Defined.

(** C10: when the workspace has a list of folders, the folders-changed
    handler returns and leaves in the map exactly the entries whose key is the
    path of a current folder; so every remaining key is such a path, and the
    entry of the global scope under the empty key, which is no folder path,
    is removed. The objects themselves and their listeners are untouched. *)
Theorem onWorkspaceFoldersChanged_evicts (this : loc) (w : World)
    (folders : list WorkspaceFolder) :
  workspaceFolders (workspaces w (workspace (heap w this))) = Some folders →
  let paths := map (λ workspaceFolder, fsPath (uri workspaceFolder)) folders in
  ∃ w',
    onWorkspaceFoldersChanged this w = (Normal (), w')
    ∧ (∀ key, pythonSettings w' !! key
              = if decide (key ∈ paths) then pythonSettings w !! key else None)
    ∧ (∀ key, is_Some (pythonSettings w' !! key) → key ∈ paths)
    ∧ (""%string ∉ paths → pythonSettings w' !! ""%string = None)
    ∧ heap w' = heap w ∧ listeners w' = listeners w.
Proof.
  intros Hfolders paths.
  set (removed := filter (λ item, arrayIndexOf paths item < 0)
                    (map_to_list (pythonSettings w)).*1).
  assert (∀ key, key ∈ removed ↔ is_Some (pythonSettings w !! key) ∧ key ∉ paths) as Hremoved.
  { intros key. unfold removed. rewrite list_elem_of_filter, arrayIndexOf_negative.
    rewrite list_elem_of_fmap. split.
    - intros [Hnot ([k l] & -> & Hin%elem_of_map_to_list)]. by eauto.
    - intros [[l Hl] Hnot]. split; [done|]. exists (key, l). split; [done|].
      by apply elem_of_map_to_list. }
  assert (onWorkspaceFoldersChanged this w
          = (Normal (),
             with_pythonSettings (foldl (λ m k, delete k m) (pythonSettings w) removed) w))
    as Hrun.
  { unfold onWorkspaceFoldersChanged, bind at 1, getState at 1. rewrite Hfolders.
    fold paths. fold removed.
    destruct (bool_decide (0 < length removed)%nat) eqn:Hlen.
    - apply forEach_delete.
    - apply bool_decide_eq_false_1 in Hlen.
      assert (removed = []) as -> by (destruct removed; [done | simpl in Hlen; lia]).
      by destruct w. }
  assert (∀ key,
            foldl (λ m k, delete k m) (pythonSettings w) removed !! key
            = if decide (key ∈ paths) then pythonSettings w !! key else None) as Hlookup.
  { intros key. rewrite lookup_foldl_delete.
    destruct (decide (key ∈ removed)) as [Hin|Hnin]; destruct (decide (key ∈ paths)) as [Hp|Hp];
      try done.
    - apply Hremoved in Hin as [_ ?]. done.
    - destruct (pythonSettings w !! key) eqn:Hkey; [|done].
      destruct Hnin. apply Hremoved. by eauto. }
  eexists. split; [exact Hrun|]. cbn [pythonSettings heap listeners with_pythonSettings].
  split; [exact Hlookup|]. split; [|split; [|done]].
  - intros key. rewrite Hlookup. destruct (decide _); [done|]. by intros [? ?].
  - intros Hnot. rewrite Hlookup. by rewrite decide_False.
Qed.

(** Without a list of folders the handler dereferences [undefined]: it
    throws and nothing is evicted. *)
Lemma onWorkspaceFoldersChanged_no_folders (this : loc) (w : World) :
  workspaceFolders (workspaces w (workspace (heap w this))) = None →
  onWorkspaceFoldersChanged this w
  = (Throw (TypeError "Cannot read properties of undefined (reading 'map')"), w).
Proof.
  intros Hnone. unfold onWorkspaceFoldersChanged, bind, getState. by rewrite Hnone.
Qed.

Lemma onWorkspaceFoldersChanged_evicts_witness :
  ∃ w',
    onWorkspaceFoldersChanged 1%nat (exampleWorld exampleWorkspaceShrunk) = (Normal (), w')
    ∧ pythonSettings w' !! "/proj"%string = Some 1%nat
    ∧ pythonSettings w' !! "/lib"%string = None
    ∧ pythonSettings w' !! ""%string = None.
Proof.
  destruct (onWorkspaceFoldersChanged_evicts 1%nat (exampleWorld exampleWorkspaceShrunk)
              [ {| uri := {| fsPath := "/proj" |}; name := "proj"; index := 0%nat |} ] eq_refl)
    as (w' & Hrun & Hlookup & _ & Hglobal & _).
  exists w'. split; [exact Hrun|]. split; [|split].
  - rewrite Hlookup. vm_compute. reflexivity.
  - rewrite Hlookup. vm_compute. reflexivity.
  - apply Hglobal. vm_compute. intros Hin.
    apply elem_of_cons in Hin as [Heq|Hin]; [discriminate|]. by apply elem_of_nil in Hin.
Defined.

(** * Further properties of the code *)

(** ** Executable resolution *)

Section ResolutionFacts.
Context (h : Host).

(** Whatever the loop returns is its argument or a probed path that passed
    the validity check. *)
Lemma probeExecutables_sound q names r :
  probeExecutables h q names = Normal r →
  r = q ∨ (r ∈ probedPaths h q names ∧ isValidPythonPath h r = Normal true).
Proof.
  induction names as [|name rest IH].
  - simpl. intros [= <-]. by left.
  - rewrite probeExecutables_cons, probedPaths_cons.
    destruct (isValidPythonPath h (firstLayout h q name)) as [[|]|e] eqn:H1; simpl; [| |done].
    { intros [= <-]. right. split; [constructor | done]. }
    destruct (isValidPythonPath h (secondLayout h q name)) as [[|]|e] eqn:H2; simpl; [| |done].
    { intros [= <-]. right. split; [by do 2 constructor | done]. }
    intros [-> | [Hin Hvalid]]%IH; [by left|].
    right. split; [by do 2 constructor | done].
Qed.

(** The loop throws only what a probe of the file system throws. *)
Lemma probeExecutables_throw q names e :
  probeExecutables h q names = Throw e → ∃ x, fs_existsSync h x = Throw e.
Proof.
  induction names as [|name rest IH]; [done|].
  rewrite probeExecutables_cons. unfold isValidPythonPath at 1.
  destruct (fs_existsSync h (firstLayout h q name)) as [b1|e1] eqn:H1; cbn [cbind];
    [|intros [= <-]; by eauto].
  match goal with |- (if ?v then _ else _) = _ → _ => destruct v end; [done|].
  unfold isValidPythonPath at 1.
  destruct (fs_existsSync h (secondLayout h q name)) as [b2|e2] eqn:H2; cbn [cbind];
    [|intros [= <-]; by eauto].
  match goal with |- (if ?v then _ else _) = _ → _ => destruct v end; [done|].
  apply IH.
Qed.

(** The four ways [getAbsolutePath] ends on a string. *)
Lemma getAbsolutePath_cases raw rootDir :
  let expanded := untildify_string h raw in
  let root := if optFalsy rootDir then __dirname h else default ""%string rootDir in
  (isTestExecution h = true ∧ expanded = ""%string
   ∧ getAbsolutePath h (Some raw) rootDir = Normal root)
  ∨ ((isTestExecution h = false ∨ expanded ≠ ""%string)
     ∧ ((indexOf expanded (path_sep h) = -1
         ∧ getAbsolutePath h (Some raw) rootDir = Normal expanded)
        ∨ (indexOf expanded (path_sep h) ≠ -1 ∧ path_isAbsolute h expanded = true
           ∧ getAbsolutePath h (Some raw) rootDir = Normal expanded)
        ∨ (indexOf expanded (path_sep h) ≠ -1 ∧ path_isAbsolute h expanded = false
           ∧ getAbsolutePath h (Some raw) rootDir
             = Normal (path_resolve h root expanded)))).
Proof.
  intros expanded root. unfold getAbsolutePath. cbn [untildify cbind].
  fold expanded. fold root.
  destruct (isTestExecution h) eqn:Htest; simpl.
  - destruct expanded as [|c rest] eqn:Hexp; simpl; [by left|].
    right. split; [by right|].
    destruct (decide _) as [Hsep|Hsep]; [by left|]. right.
    destruct (path_isAbsolute h _) eqn:Habs; [by left | by right].
  - right. split; [by left|].
    destruct (decide _) as [Hsep|Hsep]; [by left|]. right.
    destruct (path_isAbsolute h _) eqn:Habs; [by left | by right].
Qed.

End ResolutionFacts.

(** X1: whatever [getPythonExecutable] returns is the tilde-expanded candidate
    or one of the probed paths, and in the second case the path exists and
    its basename has the prefix: a path that was not validated is never
    handed out in place of the candidate. *)
Theorem getPythonExecutable_sound (h : Host) (candidate r : string) :
  getPythonExecutable h (Some candidate) = Normal r →
  let expanded := untildify_string h candidate in
  r = expanded
  ∨ (r ∈ probedPaths h expanded KnownPythonExecutables
     ∧ fs_existsSync h r = Normal true
     ∧ startsWith (path_basename h (if decide (getOSType h = Windows)
                                    then toLowerCase r else r)) "python" = true).
Proof.
  intros Hrun expanded. unfold getPythonExecutable in Hrun. cbn [untildify cbind] in Hrun.
  fold expanded in Hrun.
  destruct (isBareOrRoot h expanded); [left; congruence|].
  destruct (isValidPythonPath h expanded) as [[|]|e]; cbn [cbind] in Hrun;
    [left; congruence| |done].
  apply probeExecutables_sound in Hrun as [-> | [Hin Hvalid]]; [by left|].
  right. split; [done|]. unfold isValidPythonPath in Hvalid.
  destruct (fs_existsSync h r) as [[|]|e]; simpl in Hvalid; [|done|done].
  split; [done|]. congruence.
Qed.

Lemma getPythonExecutable_sound_witness :
  let h := Posix.host "/home/u" ["/opt/env"; "/opt/env/bin/python3.8"]%string [] false in
  "/opt/env/bin/python3.8"%string = "/opt/env"%string
  ∨ ("/opt/env/bin/python3.8"%string ∈ probedPaths h "/opt/env" KnownPythonExecutables
     ∧ fs_existsSync h "/opt/env/bin/python3.8" = Normal true
     ∧ startsWith (path_basename h "/opt/env/bin/python3.8") "python" = true).
Proof.
  intros h.
  exact (getPythonExecutable_sound h "/opt/env" "/opt/env/bin/python3.8" eq_refl).
Defined.

(** X2: [getPythonExecutable] on a string throws only what a probe of the file
    system throws: with a file system that answers it always returns. *)
Theorem getPythonExecutable_throws_only_probe (h : Host) (candidate : string) (e : JsError) :
  getPythonExecutable h (Some candidate) = Throw e →
  ∃ probed, fs_existsSync h probed = Throw e.
Proof.
  unfold getPythonExecutable. cbn [untildify cbind].
  destruct (isBareOrRoot h _); [done|].
  unfold isValidPythonPath at 1.
  destruct (fs_existsSync h (untildify_string h candidate)) as [b|e'] eqn:Hself; cbn [cbind];
    [|intros [= <-]; by eauto].
  match goal with |- (if ?v then _ else _) = _ → _ => destruct v end; [done|].
  apply probeExecutables_throw.
Qed.

Lemma getPythonExecutable_throws_only_probe_witness :
  ∃ probed,
    fs_existsSync (Posix.host "/home/u" ["/opt/env"%string] ["/opt/env/bin/python"%string] false)
      probed = Throw (HostError "EACCES").
Proof.
  exact (getPythonExecutable_throws_only_probe
           (Posix.host "/home/u" ["/opt/env"%string] ["/opt/env/bin/python"%string] false)
           "/opt/env" (HostError "EACCES") eq_refl).
Defined.

(** X3: outside the empty-string case of a test run, and with a [path.resolve]
    that returns absolute paths, what [getAbsolutePath] returns for a string
    is free of separators (a bare command name) or absolute. *)
Theorem getAbsolutePath_bare_or_absolute (h : Host) (raw : string) (rootDir : option string) :
  (isTestExecution h = false ∨ untildify_string h raw ≠ ""%string) →
  (∀ root p, path_isAbsolute h (path_resolve h root p) = true) →
  ∃ r, getAbsolutePath h (Some raw) rootDir = Normal r
       ∧ (indexOf r (path_sep h) = -1 ∨ path_isAbsolute h r = true).
Proof.
  intros Hmode Hresolve.
  destruct (getAbsolutePath_cases h raw rootDir)
    as [(Htest & Hempty & _) | (_ & [[Hsep ->] | [(_ & Habs & ->) | (_ & _ & ->)]])].
  - destruct Hmode as [Hmode|Hmode]; congruence.
  - eexists. split; [done|]. by left.
  - eexists. split; [done|]. by right.
  - eexists. split; [done|]. right. apply Hresolve.
Qed.

Lemma getAbsolutePath_bare_or_absolute_witness :
  ∃ r, getAbsolutePath exampleHost (Some "./venv/bin/python"%string) (Some "/proj"%string)
       = Normal r
       ∧ (indexOf r (path_sep exampleHost) = -1 ∨ path_isAbsolute exampleHost r = true).
Proof.
  apply getAbsolutePath_bare_or_absolute; [by left | reflexivity].
Defined.

(** X4: under the same conditions [getAbsolutePath] is idempotent: applied to its
    own result, which tilde expansion leaves alone, it returns that result,
    whatever the root directory of the second call. *)
Theorem getAbsolutePath_idempotent (h : Host) (raw r : string) (rootDir rootDir' : option string) :
  (isTestExecution h = false ∨ untildify_string h raw ≠ ""%string) →
  (∀ root p, path_isAbsolute h (path_resolve h root p) = true) →
  getAbsolutePath h (Some raw) rootDir = Normal r →
  untildify_string h r = r →
  (isTestExecution h = true → r ≠ ""%string) →
  getAbsolutePath h (Some r) rootDir' = Normal r.
Proof.
  intros Hmode Hresolve Hrun Htilde Hnonempty.
  assert (indexOf r (path_sep h) = -1 ∨ path_isAbsolute h r = true) as Hshape.
  { destruct (getAbsolutePath_cases h raw rootDir)
      as [(Htest & Hempty & _) | (_ & [[Hsep Hr] | [(_ & Habs & Hr) | (_ & _ & Hr)]])].
    - destruct Hmode as [Hmode|Hmode]; congruence.
    - left. congruence.
    - right. congruence.
    - right. rewrite Hr in Hrun. injection Hrun as <-. apply Hresolve. }
  destruct (getAbsolutePath_cases h r rootDir')
    as [(Htest & Hempty & _) | (_ & [[Hsep Hr] | [(_ & Habs & Hr) | (Hsep & Habs & Hr)]])];
    rewrite ?Htilde in *.
  - by destruct (Hnonempty Htest).
  - done.
  - done.
  - destruct Hshape; congruence.
Qed.

Lemma getAbsolutePath_idempotent_witness :
  getAbsolutePath exampleHost (Some "/proj/venv/bin/python"%string) (Some "/elsewhere"%string)
  = Normal "/proj/venv/bin/python"%string.
Proof.
  apply (getAbsolutePath_idempotent exampleHost "./venv/bin/python" "/proj/venv/bin/python"
           (Some "/proj"%string) (Some "/elsewhere"%string)).
  - by left.
  - reflexivity.
  - reflexivity.
  - reflexivity.
  - discriminate.
Defined.

(** X5: assigning the same value twice through a path setter leaves the object
    as one assignment does: the second one is skipped or resolves to the same
    executable. *)
Theorem setters_idempotent (h : Host) (this : PythonSettings) :
  (∀ value, bind (set_pythonPath h value) (λ _, set_pythonPath h value) this
            = set_pythonPath h value this)
  ∧ (∀ value, bind (set_defaultInterpreterPath h value)
                (λ _, set_defaultInterpreterPath h value) this
              = set_defaultInterpreterPath h value this).
Proof.
  split; intros value.
  - unfold bind at 1.
    unfold set_pythonPath at 1 3, bind, getState, tryCatch, liftC, assign, ret.
    destruct (decide (_pythonPath this = value)) as [Heq|Hne].
    + unfold set_pythonPath, bind, getState, ret. by rewrite decide_True.
    + destruct (getPythonExecutable h value) as [r|ex] eqn:Hrun.
      * unfold set_pythonPath, bind, getState, tryCatch, liftC, assign, ret.
        cbn [_pythonPath with__pythonPath]. rewrite Hrun.
        by destruct (decide _).
      * unfold set_pythonPath, bind, getState, ret.
        cbn [_pythonPath with__pythonPath]. by rewrite decide_True.
  - unfold bind at 1.
    unfold set_defaultInterpreterPath at 1 3, bind, getState, tryCatch, liftC, assign, ret.
    destruct (decide (_defaultInterpreterPath this = value)) as [Heq|Hne].
    + unfold set_defaultInterpreterPath, bind, getState, ret. by rewrite decide_True.
    + destruct (getPythonExecutable h (Some value)) as [r|ex] eqn:Hrun.
      * unfold set_defaultInterpreterPath, bind, getState, tryCatch, liftC, assign, ret.
        cbn [_defaultInterpreterPath with__defaultInterpreterPath]. rewrite Hrun.
        by destruct (decide _).
      * unfold set_defaultInterpreterPath, bind, getState, ret.
        cbn [_defaultInterpreterPath with__defaultInterpreterPath]. by rewrite decide_True.
Qed.

(** ** More on the recompute *)

Section RecomputeFacts.
Context (h : Host) (services : handle → Resource → option string).

Lemma absolutizeIfSet_spec x rootPath r :
  absolutizeIfSet h x rootPath = Normal r → toolPathResolved h rootPath x r.
Proof.
  unfold absolutizeIfSet, toolPathResolved. destruct x as [[|c rest]|]; simpl.
  - intros [= <-]. right. by left.
  - destruct (getAbsolutePath h (Some (String c rest)) rootPath) as [a|e] eqn:Habs; simpl;
      [|done].
    intros [= <-]. right. right. by exists (String c rest), a.
  - intros [= <-]. by left.
Qed.

Lemma set_defaultInterpreterPath_field value this :
  _defaultInterpreterPath (set_defaultInterpreterPath h value this).2 =
    if decide (_defaultInterpreterPath this = value) then value
    else match getPythonExecutable h (Some value) with
         | Normal r => r
         | Throw _ => value
         end.
Proof.
  unfold set_defaultInterpreterPath, bind, getState, tryCatch, liftC, assign, ret.
  destruct (decide _) as [Heq|_]; [done|].
  by destruct (getPythonExecutable h (Some value)).
Qed.

(** Everything a recompute that runs to its end leaves in the object. *)
Lemma update_fields cfg this s :
  pythonPathSource services cfg this = Some s →
  let rootPath := fsPath <$> workspaceRoot this in
  let sv := resolveString h rootPath in
  let resolvedDefault := resolveAnyString sv (raw_defaultInterpreterPath cfg) in
  let default' := if optFalsy resolvedDefault then DEFAULT_INTERPRETER_SETTING h
                  else default ""%string resolvedDefault in
  let newTerminal := resolveAnyObject sv (raw_terminal cfg) in
  ∃ this',
    update h services cfg this = (Normal (), this')
    ∧ is_Some (_pythonPath this')
    ∧ _defaultInterpreterPath this' =
        (if decide (_defaultInterpreterPath this = default') then default'
         else match getPythonExecutable h (Some default') with
              | Normal r => r
              | Throw _ => default'
              end)
    ∧ venvPath this' = resolveAnyString sv (raw_venvPath cfg)
    ∧ envFile this' = resolveAnyString sv (raw_envFile cfg)
    ∧ toolPathResolved h rootPath (resolveAnyString sv (raw_activeStateToolPath cfg))
        (activeStateToolPath this')
    ∧ toolPathResolved h rootPath (resolveAnyString sv (raw_condaPath cfg)) (condaPath this')
    ∧ toolPathResolved h rootPath (resolveAnyString sv (raw_pipenvPath cfg)) (pipenvPath this')
    ∧ toolPathResolved h rootPath (resolveAnyString sv (raw_poetryPath cfg)) (poetryPath this')
    ∧ terminal this' =
        match terminal this with
        | Some target => Some (objectAssign target newTerminal)
        | None => if (isTestExecution h && negb (bool_decide (is_Some newTerminal)))%bool
                  then Some [] else newTerminal
        end
    ∧ workspaceRoot this' = workspaceRoot this
    ∧ disposables this' = disposables this
    ∧ workspace this' = workspace this
    ∧ interpreterPathService this' = interpreterPathService this
    ∧ languageServerIsDefault this' = languageServerIsDefault this.
Proof.
  intros Hsrc rootPath sv resolvedDefault default' newTerminal. unfold update.
  unfold bind at 1. unfold getState at 1. unfold bind at 1. fold rootPath. fold sv.
  destruct (getPythonPath_returns h services cfg sv rootPath this s Hsrc) as (p & v & ->).
  unfold bind at 1.
  destruct (set_pythonPath_frame h (Some p) (with__pythonPath (Some v) this))
    as (v2 & -> & Hsome & _).
  unfold bind at 1. fold resolvedDefault. fold default'.
  pose proof (set_defaultInterpreterPath_field default'
                (with__pythonPath v2 (with__pythonPath (Some v) this))) as Hdefault.
  destruct (set_defaultInterpreterPath_frame h default'
              (with__pythonPath v2 (with__pythonPath (Some v) this))) as (v3 & Hset).
  rewrite Hset in Hdefault |- *. cbn in Hdefault.
  repeat match goal with |- context [absolutizeIfSet h ?x ?r] =>
    let Hx := fresh "Habs" in
    let a := fresh "a" in
    destruct (absolutizeIfSet_returns h x r) as [a Hx]; rewrite Hx;
    apply absolutizeIfSet_spec in Hx end.
  unfold bind, assign, liftC, getState, ret. cbn. fold newTerminal.
  destruct (terminal this).
  - eexists. split; [reflexivity|]. cbn.
    split; [by apply Hsome|]. by repeat (split; [done|]).
  - destruct (_ && _)%bool; (eexists; split; [reflexivity|]; cbn;
      split; [by apply Hsome|]; by repeat (split; [done|])).
Qed.

End RecomputeFacts.

(** X6: a recompute throws exactly when the value its python path is derived
    from is [undefined]; it then leaves [undefined] in [_pythonPath] and every
    other field as it was. *)
Theorem update_throws_iff (h : Host) (services : handle → Resource → option string)
    (cfg : WorkspaceConfiguration) (this : PythonSettings) :
  ((update h services cfg this).1 = Normal () ↔ is_Some (pythonPathSource services cfg this))
  ∧ (pythonPathSource services cfg this = None →
     update h services cfg this
     = (Throw (TypeError "Expected a string, got undefined"), with__pythonPath None this)).
Proof.
  split; [|apply update_throws].
  destruct (pythonPathSource services cfg this) as [s|] eqn:Hsrc.
  - destruct (update_completes h services cfg this s Hsrc) as (this' & -> & _). by split; eauto.
  - rewrite (update_throws h services cfg this Hsrc). simpl. split; [done|]. by intros [? ?].
Qed.

Lemma update_throws_iff_witness :
  update exampleHost (λ _ _, None) exampleConfiguration exampleSettingsWithService
  = (Throw (TypeError "Expected a string, got undefined"),
     with__pythonPath None exampleSettingsWithService).
Proof.
  exact (proj2 (update_throws_iff exampleHost (λ _ _, None) exampleConfiguration
                  exampleSettingsWithService) eq_refl).
Defined.

(** X7: however a recompute ends, it leaves the workspace root, the list of
    disposables, the two service references and [languageServerIsDefault] as
    they were. *)
Theorem update_keeps_identity (h : Host) (services : handle → Resource → option string)
    (cfg : WorkspaceConfiguration) (this : PythonSettings) :
  let this' := (update h services cfg this).2 in
  workspaceRoot this' = workspaceRoot this
  ∧ disposables this' = disposables this
  ∧ workspace this' = workspace this
  ∧ interpreterPathService this' = interpreterPathService this
  ∧ languageServerIsDefault this' = languageServerIsDefault this.
Proof.
  destruct (pythonPathSource services cfg this) as [s|] eqn:Hsrc.
  - destruct (update_fields h services cfg this s Hsrc)
      as (this' & -> & _ & _ & _ & _ & _ & _ & _ & _ & _ & Hrest). exact Hrest.
  - by rewrite (update_throws h services cfg this Hsrc).
Qed.

(** X8: a recompute that runs to its end keeps an unset or empty tool path
    (ActiveState, conda, pipenv, poetry) as it is and makes any other one
    absolute against the workspace root; [venvPath] and [envFile] are the
    resolved raw values, not made absolute. *)
Theorem update_tool_paths (h : Host) (services : handle → Resource → option string)
    (cfg : WorkspaceConfiguration) (this : PythonSettings) (s : string) :
  pythonPathSource services cfg this = Some s →
  let rootPath := fsPath <$> workspaceRoot this in
  let sv := resolveString h rootPath in
  ∃ this',
    update h services cfg this = (Normal (), this')
    ∧ toolPathResolved h rootPath (resolveAnyString sv (raw_activeStateToolPath cfg))
        (activeStateToolPath this')
    ∧ toolPathResolved h rootPath (resolveAnyString sv (raw_condaPath cfg)) (condaPath this')
    ∧ toolPathResolved h rootPath (resolveAnyString sv (raw_pipenvPath cfg)) (pipenvPath this')
    ∧ toolPathResolved h rootPath (resolveAnyString sv (raw_poetryPath cfg)) (poetryPath this')
    ∧ venvPath this' = resolveAnyString sv (raw_venvPath cfg)
    ∧ envFile this' = resolveAnyString sv (raw_envFile cfg).
Proof.
  intros Hsrc rootPath sv.
  destruct (update_fields h services cfg this s Hsrc)
    as (this' & Hrun & _ & _ & Hvenv & Henv & Hactive & Hconda & Hpipenv & Hpoetry & _).
  exists this'. by repeat (split; [done|]).
Qed.

Lemma update_tool_paths_witness :
  ∃ this',
    update exampleHost (λ _ _, None) exampleConfiguration exampleSettings = (Normal (), this')
    ∧ condaPath this' = Some "/proj/conda"%string
    ∧ activeStateToolPath this' = Some "state"%string
    ∧ poetryPath this' = Some ""%string
    ∧ pipenvPath this' = None.
Proof.
  destruct (update_tool_paths exampleHost (λ _ _, None) exampleConfiguration exampleSettings
              "python" eq_refl) as (this' & Hrun & _).
  exists this'. split; [exact Hrun|].
  vm_compute in Hrun. injection Hrun as <-. by repeat split.
Defined.

(** X9: a recompute that runs to its end derives the default interpreter path
    from the resolved raw value, or from [DEFAULT_INTERPRETER_SETTING] when
    that value is unset or empty: the field keeps a value equal to it, and
    otherwise holds the executable it resolves to (the value itself when the
    resolution throws). *)
Theorem update_defaultInterpreterPath (h : Host) (services : handle → Resource → option string)
    (cfg : WorkspaceConfiguration) (this : PythonSettings) (s : string) :
  pythonPathSource services cfg this = Some s →
  let resolved := resolveAnyString (resolveString h (fsPath <$> workspaceRoot this))
                    (raw_defaultInterpreterPath cfg) in
  let value := match resolved with
               | None | Some ""%string => DEFAULT_INTERPRETER_SETTING h
               | Some x => x
               end in
  ∃ this',
    update h services cfg this = (Normal (), this')
    ∧ _defaultInterpreterPath this' =
        (if decide (_defaultInterpreterPath this = value) then value
         else match getPythonExecutable h (Some value) with
              | Normal r => r
              | Throw _ => value
              end).
Proof.
  intros Hsrc resolved value.
  destruct (update_fields h services cfg this s Hsrc) as (this' & Hrun & _ & Hdefault & _).
  exists this'. split; [done|]. rewrite Hdefault. fold resolved.
  replace (if optFalsy resolved then DEFAULT_INTERPRETER_SETTING h
           else default ""%string resolved) with value; [done|].
  unfold value. by destruct resolved as [[|c rest]|].
Qed.

Lemma update_defaultInterpreterPath_witness :
  ∃ this',
    update exampleHost (λ _ _, None) exampleConfiguration exampleSettings = (Normal (), this')
    ∧ _defaultInterpreterPath this' = "python"%string.
Proof.
  exact (update_defaultInterpreterPath exampleHost (λ _ _, None) exampleConfiguration
           exampleSettings "python" eq_refl).
Defined.

(** The properties of an object after [Object.assign]: the source wins. *)
Lemma getProperty_setProperty (k k' : string) (v : Value) (target : list (string * Value)) :
  getProperty k (setProperty k' v target)
  = if decide (k' = k) then Some v else getProperty k target.
Proof.
  induction target as [|[k0 v0] rest IH]; simpl.
  - done.
  - destruct (decide (k0 = k')) as [->|Hne]; simpl.
    + by destruct (decide (k' = k)).
    + rewrite IH. destruct (decide (k0 = k)) as [->|?]; [|done].
      by rewrite decide_False by congruence.
Qed.

Lemma getProperty_None {V} (k : string) (props : list (string * V)) :
  k ∉ props.*1 → getProperty k props = None.
Proof.
  induction props as [|[k0 v0] rest IH]; simpl; [done|].
  intros [Hne Hrest]%not_elem_of_cons. rewrite decide_False by done. by apply IH.
Qed.

Lemma getProperty_objectAssign (k : string) (target source : list (string * Value)) :
  NoDup source.*1 →
  getProperty k (objectAssign target (Some source))
  = match getProperty k source with
    | Some v => Some v
    | None => getProperty k target
    end.
Proof.
  unfold objectAssign. revert target.
  induction source as [|[k0 v0] rest IH]; intros target Hnodup; simpl; [done|].
  apply NoDup_cons in Hnodup as [Hfresh Hnodup].
  rewrite IH by done. rewrite getProperty_setProperty.
  destruct (decide (k0 = k)) as [->|Hne]; [|done].
  by rewrite getProperty_None.
Qed.

(** X10: a recompute that runs to its end merges the terminal settings into the
    object the instance already holds: a key of the new settings takes its new
    value, every other key keeps the value it had. Without such an object the
    new settings are taken as they are, and under a test run an unset value
    becomes the empty object. *)
Theorem update_terminal_merge (h : Host) (services : handle → Resource → option string)
    (cfg : WorkspaceConfiguration) (this : PythonSettings) (s : string) :
  pythonPathSource services cfg this = Some s →
  let new := resolveAnyObject (resolveString h (fsPath <$> workspaceRoot this))
               (raw_terminal cfg) in
  (∀ props, new = Some props → NoDup props.*1) →
  ∃ this',
    update h services cfg this = (Normal (), this')
    ∧ match terminal this with
      | Some old =>
          ∃ merged, terminal this' = Some merged
            ∧ ∀ k, getProperty k merged
                   = match new ≫= getProperty k with
                     | Some v => Some v
                     | None => getProperty k old
                     end
      | None =>
          terminal this' = match new with
                           | Some props => Some props
                           | None => if isTestExecution h then Some [] else None
                           end
      end.
Proof.
  intros Hsrc new Hnodup.
  destruct (update_fields h services cfg this s Hsrc)
    as (this' & Hrun & _ & _ & _ & _ & _ & _ & _ & _ & Hterminal & _).
  exists this'. split; [done|]. fold new in Hterminal. rewrite Hterminal.
  destruct (terminal this) as [old|].
  - eexists. split; [done|]. intros k. destruct new as [props|]; simpl.
    + by apply getProperty_objectAssign, Hnodup.
    + done.
  - destruct new as [props|]; simpl.
    + by rewrite andb_false_r.
    + by rewrite andb_true_r.
Qed.

Lemma update_terminal_merge_witness :
  ∃ this' merged,
    update exampleHost (λ _ _, None) exampleConfigurationTerminal exampleSettingsWithTerminal
    = (Normal (), this')
    ∧ terminal this' = Some merged
    ∧ getProperty "activateEnvironment" merged = Some (VBool false)
    ∧ getProperty "focusAfterLaunch" merged = Some (VBool false)
    ∧ getProperty "executeInFileDir" merged = Some (VBool true).
Proof.
  destruct (update_terminal_merge exampleHost (λ _ _, None) exampleConfigurationTerminal
              exampleSettingsWithTerminal "python" eq_refl) as (this' & Hrun & Hmerge).
  { intros props [= <-]. vm_compute. repeat constructor; intros Hin;
      repeat (apply elem_of_cons in Hin as [Heq|Hin]; [discriminate|]);
      by apply elem_of_nil in Hin. }
  destruct Hmerge as (merged & Hterminal & Hkeys).
  exists this', merged. split; [exact Hrun|]. split; [exact Hterminal|].
  split; [|split]; refine (eq_trans (Hkeys _) _); reflexivity.
Defined.

(** ** Construction and the listeners of an object *)

Section ConstructionFacts.
Context (h : Host).

(** What [initialize()] does to the process: it registers two listeners,
    three with an interpreter path service, pushes their disposables on the
    object, and recomputes the object from the configuration there is. *)
Lemma initialize_effect this w :
  let o := heap w this in
  let n := nextDisposable w in
  let withService := bool_decide (is_Some (interpreterPathService o)) in
  let o1 := with_disposables (disposables o ++ initialDisposables n withService) o in
  let outcome :=
    match getConfiguration (workspaces w (workspace o)) "python" (workspaceRoot o) with
    | Some cfg => update h (interpreterPaths w) cfg o1
    | None => (Normal (), o1)
    end in
  let w' := (initialize h this w).2 in
  (initialize h this w).1 = outcome.1
  ∧ heap w' this = outcome.2
  ∧ (∀ l, l ≠ this → heap w' l = heap w l)
  ∧ listeners w' = initialListeners this n withService (listeners w)
  ∧ nextDisposable w' = (n + length (initialDisposables n withService))%nat
  ∧ pythonSettings w' = pythonSettings w
  ∧ nextLoc w' = nextLoc w
  ∧ workspaces w' = workspaces w
  ∧ interpreterPaths w' = interpreterPaths w.
Proof.
  intros o n withService o1 outcome w'.
  assert (∀ ds1 ds2 (x : PythonSettings),
            with_disposables ds1 (with_disposables ds2 x) = with_disposables ds1 x) as Hwith
    by done.
  subst w' outcome o1 withService.
  unfold initialize, pushDisposable, subscribe, onThis.
  unfold bind, getState, assign, ret.
  cbn [heap listeners nextDisposable pythonSettings nextLoc workspaces interpreterPaths
       with_heap with_listeners with_nextDisposable fst snd].
  rewrite !fn_lookup_insert.
  cbn [heap listeners nextDisposable pythonSettings nextLoc workspaces interpreterPaths
       with_heap with_listeners with_nextDisposable fst snd
       interpreterPathService workspace workspaceRoot disposables with_disposables].
  fold o. fold n.
  destruct (interpreterPathService o) as [svc|] eqn:Hsvc;
    cbn [heap listeners nextDisposable pythonSettings nextLoc workspaces interpreterPaths
         with_heap with_listeners with_nextDisposable fst snd bool_decide decide_rel
         is_Some_dec initialDisposables initialListeners length];
    rewrite ?fn_lookup_insert;
    cbn [interpreterPathService workspace workspaceRoot disposables with_disposables];
    rewrite ?Hwith, <-?app_assoc; cbn [app];
    (destruct (getConfiguration _ _ _) as [cfg|];
     [ destruct (update h (interpreterPaths w) cfg _) as [r o2] eqn:Hupd | ];
     cbn [heap listeners nextDisposable pythonSettings nextLoc workspaces interpreterPaths
          with_heap with_listeners with_nextDisposable fst snd];
     rewrite ?fn_lookup_insert;
     (repeat split; try done; try lia;
      try (intros l Hl; by rewrite !fn_lookup_insert_ne by done);
      try (cbn [heap with_heap] in Hupd; rewrite fn_lookup_insert in Hupd;
           by rewrite Hupd))).
Qed.

(** What [new PythonSettings(...)] does to the process. *)
Lemma PythonSettings_new_effect folder wsHandle svc w :
  let this := nextLoc w in
  let n := nextDisposable w in
  let withService := bool_decide (is_Some svc) in
  let o1 := with_disposables (initialDisposables n withService)
              (newPythonSettings folder (default WorkspaceService_new wsHandle) svc) in
  let outcome :=
    match getConfiguration (workspaces w (default WorkspaceService_new wsHandle)) "python"
            folder with
    | Some cfg => update h (interpreterPaths w) cfg o1
    | None => (Normal (), o1)
    end in
  let res := PythonSettings_new h folder wsHandle svc w in
  res.1 = match outcome.1 with
          | Normal _ => Normal this
          | Throw e => Throw e
          end
  ∧ heap res.2 this = outcome.2
  ∧ (∀ l, l ≠ this → heap res.2 l = heap w l)
  ∧ listeners res.2 = initialListeners this n withService (listeners w)
  ∧ nextDisposable res.2 = (n + length (initialDisposables n withService))%nat
  ∧ pythonSettings res.2 = pythonSettings w
  ∧ nextLoc res.2 = S this
  ∧ workspaces res.2 = workspaces w
  ∧ interpreterPaths res.2 = interpreterPaths w.
Proof.
  intros this n withService o1 outcome res.
  pose proof (initialize_effect this
                (with_nextLoc (S this)
                   (with_heap (<[this := newPythonSettings folder
                                           (default WorkspaceService_new wsHandle) svc]>
                                 (heap w)) w))) as Hinit.
  cbn [heap with_heap with_nextLoc nextDisposable workspaces interpreterPaths listeners
       pythonSettings nextLoc] in Hinit.
  rewrite fn_lookup_insert in Hinit.
  cbn [interpreterPathService workspace workspaceRoot disposables newPythonSettings app]
    in Hinit.
  destruct Hinit as (Hres & Hthis & Hothers & Hls & Hnd & Hps & Hnl & Hws & Hip).
  assert (res = match initialize h this
                        (with_nextLoc (S this)
                           (with_heap (<[this := newPythonSettings folder
                                                   (default WorkspaceService_new wsHandle) svc]>
                                         (heap w)) w)) with
                | (Normal _, w2) => (Normal this, w2)
                | (Throw e, w2) => (Throw e, w2)
                end) as Hrun by reflexivity.
  destruct (initialize h this _) as [[[]|e] w2]; rewrite Hrun; cbn [fst snd] in *.
  - subst outcome o1 withService n. rewrite <-Hres.
    repeat (split; [done|]). split; [|done].
    intros l Hl. rewrite Hothers by done. by rewrite fn_lookup_insert_ne.
  - subst outcome o1 withService n. rewrite <-Hres.
    repeat (split; [done|]). split; [|done].
    intros l Hl. rewrite Hothers by done. by rewrite fn_lookup_insert_ne.
Qed.

(** The fields a recompute leaves alone, however it ends. *)
Lemma update_frame services cfg this :
  let this' := (update h services cfg this).2 in
  workspaceRoot this' = workspaceRoot this
  ∧ disposables this' = disposables this
  ∧ workspace this' = workspace this
  ∧ interpreterPathService this' = interpreterPathService this
  ∧ languageServerIsDefault this' = languageServerIsDefault this.
Proof.
  destruct (pythonPathSource services cfg this) as [s|] eqn:Hsrc.
  - destruct (update_fields h services cfg this s Hsrc)
      as (this' & -> & _ & _ & _ & _ & _ & _ & _ & _ & _ & Hrest). exact Hrest.
  - by rewrite (update_throws h services cfg this Hsrc).
Qed.

(** The listeners left after [dispose()] of one object. *)
Lemma dispose_listeners this w :
  listeners (dispose this w).2
  = foldl (λ m d, delete d m) (listeners w) (disposables (heap w this)).
Proof.
  unfold dispose, bind at 1, getState at 1, bind at 1.
  by rewrite forEach_disposeListener.
Qed.

Lemma initialListeners_lookup this n withService ls d :
  initialListeners this n withService ls !! d =
    if decide (d = n) then Some (OnDidChangeWorkspaceFolders this)
    else if decide (d = S n) then Some (OnDidChangeConfiguration this)
    else if (withService && bool_decide (d = S (S n)))%bool
         then Some (OnDidChangeInterpreter this)
    else ls !! d.
Proof.
  unfold initialListeners.
  destruct withService; cbn [andb]; rewrite !lookup_insert;
    repeat case_decide; try case_bool_decide; try done; lia.
Qed.

End ConstructionFacts.

Section LifecycleFacts.
Context (h : Host).

(** One call written out: a hit returns the entry, a miss constructs an
    object and enters it under the key unless the construction throws. *)
Lemma runCall_effect (c : Call) (w : World) :
  let ws := default WorkspaceService_new (call_workspace c) in
  let res := PythonSettings_new h (getSettingsUriAndTarget (call_resource c) (workspaces w ws)).1
               (Some ws) (call_interpreterPathService c) w in
  runCall h c w =
    match pythonSettings w !! callKey w c with
    | Some l => (Normal (Some l), w)
    | None =>
        match res.1 with
        | Normal l =>
            (Normal (Some l),
             with_pythonSettings (<[callKey w c := l]> (pythonSettings res.2)) res.2)
        | Throw e => (Throw e, res.2)
        end
    end.
Proof.
  intros ws res.
  pose proof (runCall_step h c w) as Hstep.
  destruct (pythonSettings w !! callKey w c) as [l|] eqn:Hkey; [done|].
  clear Hstep. subst res. unfold runCall, getInstance.
  unfold bind at 1. unfold getState at 1. cbv beta iota.
  change (workspaceFolderKey (call_resource c)
            (workspaces w (default WorkspaceService_new (call_workspace c))))
    with (callKey w c).
  rewrite Hkey. cbn [bool_decide decide_rel is_Some_dec].
  unfold bind at 1. unfold bind at 1. fold ws.
  destruct (PythonSettings_new h _ (Some ws) (call_interpreterPathService c) w)
    as [[l|e] w1]; cbn [fst snd]; [|done].
  unfold assign, bind, getState, ret. cbn [pythonSettings with_pythonSettings].
  by rewrite lookup_insert_eq.
Qed.

(** The folders-changed handler written out. *)
Lemma onWorkspaceFoldersChanged_effect (this : loc) (w : World) :
  onWorkspaceFoldersChanged this w =
    match workspaceFolders (workspaces w (workspace (heap w this))) with
    | None => (Throw (TypeError "Cannot read properties of undefined (reading 'map')"), w)
    | Some folders =>
        (Normal (),
         with_pythonSettings
           (foldl (λ m k, delete k m) (pythonSettings w)
              (filter (λ item, arrayIndexOf
                                 (map (λ workspaceFolder, fsPath (uri workspaceFolder)) folders)
                                 item < 0)
                 (map_to_list (pythonSettings w)).*1)) w)
    end.
Proof.
  unfold onWorkspaceFoldersChanged, bind at 1, getState at 1.
  destruct (workspaceFolders _) as [folders|]; [|done].
  set (removed := filter _ _).
  destruct (bool_decide (0 < length removed)%nat) eqn:Hlen.
  - apply forEach_delete.
  - apply bool_decide_eq_false_1 in Hlen.
    assert (removed = []) as -> by (destruct removed; [done | simpl in Hlen; lia]).
    by destruct w.
Qed.

(** Disposing objects leaves the two allocation counters as they are. *)
Lemma dispose_effect this w :
  dispose this w =
    (Normal (),
     with_heap (<[this := with_disposables [] (heap w this)]> (heap w))
       (with_listeners
          (foldl (λ m d, delete d m) (listeners w) (disposables (heap w this))) w)).
Proof.
  unfold dispose, bind, getState. by rewrite forEach_disposeListener.
Qed.

Lemma dispose_counters this w :
  nextLoc (dispose this w).2 = nextLoc w
  ∧ nextDisposable (dispose this w).2 = nextDisposable w.
Proof. by rewrite dispose_effect. Qed.

Lemma forEach_dispose_counters ls w :
  nextLoc (forEach ls dispose w).2 = nextLoc w
  ∧ nextDisposable (forEach ls dispose w).2 = nextDisposable w.
Proof.
  revert w. induction ls as [|this ls IH]; intros w; simpl; [done|].
  unfold bind. destruct (dispose_run this w) as (w1 & Hrun & _).
  pose proof (dispose_counters this w) as Hcount.
  rewrite Hrun in Hcount |- *. simpl in Hcount.
  destruct (IH w1) as [-> ->]. done.
Qed.

End LifecycleFacts.

(** X11: however the construction of an object ends, the object holds the
    disposables of the listeners [initialize] registered for it, two without
    and three with an interpreter path service; each of them names a live
    listener that calls the new object back, and no other listener is added,
    changed or removed. *)
Theorem PythonSettings_new_subscribes (h : Host) (folder : Resource)
    (wsHandle svc : option handle) (w : World) :
  let this := nextLoc w in
  let w' := (PythonSettings_new h folder wsHandle svc w).2 in
  disposables (heap w' this)
  = initialDisposables (nextDisposable w) (bool_decide (is_Some svc))
  ∧ Forall (λ d, ∃ l, listeners w' !! d = Some l ∧ listenerOwner l = this)
      (disposables (heap w' this))
  ∧ (∀ d, d ∉ disposables (heap w' this) → listeners w' !! d = listeners w !! d).
Proof.
  intros this w'.
  destruct (PythonSettings_new_effect h folder wsHandle svc w)
    as (_ & Hthis & _ & Hls & _).
  fold this in Hthis, Hls. fold w' in Hthis, Hls.
  assert (disposables (heap w' this)
          = initialDisposables (nextDisposable w) (bool_decide (is_Some svc))) as Hds.
  { rewrite Hthis. destruct (getConfiguration _ _ _) as [cfg|]; [|done].
    by destruct (update_frame h (interpreterPaths w) cfg
                   (with_disposables
                      (initialDisposables (nextDisposable w) (bool_decide (is_Some svc)))
                      (newPythonSettings folder (default WorkspaceService_new wsHandle) svc)))
      as (_ & -> & _). }
  split; [done|]. rewrite Hds, Hls. split.
  - apply Forall_forall. intros d Hd. rewrite initialListeners_lookup.
    unfold initialDisposables in Hd.
    destruct (bool_decide (is_Some svc)); cbn [andb];
      repeat (apply elem_of_cons in Hd as [->|Hd]);
      try (by apply elem_of_nil in Hd);
      repeat case_decide; try case_bool_decide; try lia;
      (eexists; split; reflexivity).
  - intros d Hd. rewrite initialListeners_lookup. unfold initialDisposables in Hd.
    destruct (bool_decide (is_Some svc)); cbn [andb];
      repeat case_decide; try case_bool_decide; try done;
      subst; destruct Hd; by repeat constructor.
Qed.

Lemma PythonSettings_new_subscribes_witness :
  let w' := (PythonSettings_new exampleHost (Some {| fsPath := "/proj" |}) None (Some 1%nat)
               (emptyWorld exampleWorkspace)).2 in
  disposables (heap w' 0%nat) = [0; 1; 2]%nat
  ∧ listeners w' !! 7%nat = None.
Proof.
  intros w'.
  destruct (PythonSettings_new_subscribes exampleHost (Some {| fsPath := "/proj" |}) None
              (Some 1%nat) (emptyWorld exampleWorkspace)) as (Hds & _ & Hother).
  assert (disposables (heap w' 0%nat) = [0; 1; 2]%nat) as Hexplicit by exact Hds.
  split; [exact Hexplicit|].
  refine (eq_trans (Hother 7%nat _) _); [|reflexivity].
  change (7%nat ∉ disposables (heap w' 0%nat)). rewrite Hexplicit. intros Hin.
  repeat (apply elem_of_cons in Hin as [Heq|Hin]; [discriminate|]).
  by apply elem_of_nil in Hin.
Defined.

(** X12: constructing an object and disposing it leaves the listeners of the
    process exactly as they were before the construction, when the
    disposables not handed out yet name no listener. *)
Theorem construct_then_dispose (h : Host) (folder : Resource)
    (wsHandle svc : option handle) (w : World) :
  (∀ d, (nextDisposable w ≤ d)%nat → listeners w !! d = None) →
  let this := nextLoc w in
  let w' := (dispose this (PythonSettings_new h folder wsHandle svc w).2).2 in
  listeners w' = listeners w ∧ disposables (heap w' this) = [].
Proof.
  intros Hfresh this w'. subst w'. rewrite dispose_effect.
  cbn [snd listeners heap with_heap with_listeners]. rewrite fn_lookup_insert.
  split; [|done].
  destruct (PythonSettings_new_effect h folder wsHandle svc w)
    as (_ & Hthis & _ & Hls & _).
  fold this in Hthis, Hls. rewrite Hls.
  assert (disposables (heap (PythonSettings_new h folder wsHandle svc w).2 this)
          = initialDisposables (nextDisposable w) (bool_decide (is_Some svc))) as ->.
  { rewrite Hthis. destruct (getConfiguration _ _ _) as [cfg|]; [|done].
    by destruct (update_frame h (interpreterPaths w) cfg
                   (with_disposables
                      (initialDisposables (nextDisposable w) (bool_decide (is_Some svc)))
                      (newPythonSettings folder (default WorkspaceService_new wsHandle) svc)))
      as (_ & -> & _). }
  apply map_eq. intros d. rewrite lookup_foldl_delete, initialListeners_lookup.
  unfold initialDisposables.
  destruct (bool_decide (is_Some svc)); cbn [andb];
    repeat case_decide; try case_bool_decide; try done;
    try (symmetry; apply Hfresh; lia);
    match goal with
    | Hin : _ ∈ _ |- None = _ =>
        symmetry; apply Hfresh;
        repeat (apply elem_of_cons in Hin as [->|Hin]; [lia|]);
        by apply elem_of_nil in Hin
    | Hn : _ ∉ _ |- _ => subst; destruct Hn; by repeat constructor
    end.
Qed.

Lemma construct_then_dispose_witness :
  listeners (dispose 0%nat (PythonSettings_new exampleHost (Some {| fsPath := "/proj" |}) None
                              (Some 1%nat) (emptyWorld exampleWorkspace)).2).2
  = listeners (emptyWorld exampleWorkspace).
Proof.
  refine (proj1 (construct_then_dispose exampleHost (Some {| fsPath := "/proj" |}) None
                   (Some 1%nat) (emptyWorld exampleWorkspace) _)).
  intros d _. reflexivity.
Defined.

(** X13: a call of [getInstance] never modifies an object that exists already:
    every object but the one allocated by the call is as before, and a call
    that misses and returns hands out exactly that new object. *)
Theorem getInstance_keeps_objects (h : Host) (c : Call) (w : World) :
  (∀ l, l ≠ nextLoc w → heap (runCall h c w).2 l = heap w l)
  ∧ (pythonSettings w !! callKey w c = None →
     ∀ r, (runCall h c w).1 = Normal r → r = Some (nextLoc w)).
Proof.
  rewrite runCall_effect.
  destruct (PythonSettings_new_effect h
              (getSettingsUriAndTarget (call_resource c)
                 (workspaces w (default WorkspaceService_new (call_workspace c)))).1
              (Some (default WorkspaceService_new (call_workspace c)))
              (call_interpreterPathService c) w) as (Hres & _ & Hothers & _).
  destruct (pythonSettings w !! callKey w c) as [l0|]; [by split|].
  destruct (PythonSettings_new h _ _ _ w) as [[l|e] w1]; cbn [fst snd] in *.
  - split; [done|]. intros _ r [= <-].
    destruct (match getConfiguration _ _ _ with Some _ => _ | None => _ end).1;
      congruence.
  - split; [done|]. by intros _ r.
Qed.

Lemma getInstance_keeps_objects_witness :
  heap (runCall exampleHost
          {| call_resource := Some {| fsPath := "/proj/a.py" |}; call_workspace := None;
             call_interpreterPathService := None |}
          (exampleWorld exampleWorkspace)).2 1%nat
  = heap (exampleWorld exampleWorkspace) 1%nat.
Proof.
  apply (proj1 (getInstance_keeps_objects exampleHost _ (exampleWorld exampleWorkspace))).
  discriminate.
Defined.

(** X14: when the first recompute of a new object throws, [getInstance] throws,
    nothing is entered in the map, and the listeners registered for the
    object stay registered; the same call made again constructs another
    object and throws again. *)
Theorem getInstance_failure_not_cached (h : Host) (c : Call) (w : World)
    (cfg : WorkspaceConfiguration) :
  let ws := default WorkspaceService_new (call_workspace c) in
  let folder := (getSettingsUriAndTarget (call_resource c) (workspaces w ws)).1 in
  pythonSettings w !! callKey w c = None →
  getConfiguration (workspaces w ws) "python" folder = Some cfg →
  pythonPathSource (interpreterPaths w) cfg
    (newPythonSettings folder ws (call_interpreterPathService c)) = None →
  let w' := (runCall h c w).2 in
  (runCall h c w).1 = Throw (TypeError "Expected a string, got undefined")
  ∧ pythonSettings w' = pythonSettings w
  ∧ nextLoc w' = S (nextLoc w)
  ∧ listeners w' = initialListeners (nextLoc w) (nextDisposable w)
                     (bool_decide (is_Some (call_interpreterPathService c))) (listeners w)
  ∧ (runCall h c w').1 = Throw (TypeError "Expected a string, got undefined").
Proof.
  intros ws folder Hkey Hcfg Hsrc w'.
  assert (∀ w0, pythonSettings w0 !! callKey w0 c = None →
                workspaces w0 = workspaces w → interpreterPaths w0 = interpreterPaths w →
                (runCall h c w0).1 = Throw (TypeError "Expected a string, got undefined")
                ∧ pythonSettings (runCall h c w0).2 = pythonSettings w0
                ∧ nextLoc (runCall h c w0).2 = S (nextLoc w0)
                ∧ listeners (runCall h c w0).2
                  = initialListeners (nextLoc w0) (nextDisposable w0)
                      (bool_decide (is_Some (call_interpreterPathService c))) (listeners w0)
                ∧ workspaces (runCall h c w0).2 = workspaces w0
                ∧ interpreterPaths (runCall h c w0).2 = interpreterPaths w0) as Hfail.
  { intros w0 Hkey0 Hws Hip. rewrite runCall_effect, Hkey0.
    destruct (PythonSettings_new_effect h
                (getSettingsUriAndTarget (call_resource c)
                   (workspaces w0 (default WorkspaceService_new (call_workspace c)))).1
                (Some (default WorkspaceService_new (call_workspace c)))
                (call_interpreterPathService c) w0)
      as (Hres & _ & _ & Hls & _ & Hps & Hnl & Hws' & Hip').
    rewrite Hws, Hip in Hres. rewrite Hws in Hls, Hps, Hnl, Hws', Hip' |- *.
    destruct (getConfiguration _ _ _) as [cfg0|] eqn:Hcfg0 in Hres;
      pose proof (eq_trans (eq_sym Hcfg0) Hcfg) as Hsame; [|discriminate].
    injection Hsame as ->.
    rewrite update_throws in Hres by exact Hsrc. cbn [fst] in Hres.
    destruct (PythonSettings_new h _ _ _ w0) as [[l|e] w1]; cbn [fst snd] in *; [done|].
    by injection Hres as ->. }
  destruct (Hfail w Hkey eq_refl eq_refl) as (Hrun & Hps & Hnl & Hls & Hws & Hip).
  fold w' in Hps, Hnl, Hls, Hws, Hip.
  repeat (split; [done|]).
  apply Hfail; [|done|done].
  unfold callKey. rewrite Hws, Hps. exact Hkey.
Qed.

Lemma getInstance_failure_not_cached_witness :
  (runCall exampleHost
     {| call_resource := None; call_workspace := None;
        call_interpreterPathService := Some 1%nat |}
     (unansweredWorld exampleWorkspace)).1
  = Throw (TypeError "Expected a string, got undefined").
Proof.
  refine (proj1 (getInstance_failure_not_cached exampleHost _ _ exampleConfiguration _ _ _));
    reflexivity.
Defined.

(** ** Well-formed processes *)

Section WellFormedFacts.
Context (h : Host).

Lemma wfWorld_runCall c w : wfWorld w → wfWorld (runCall h c w).2.
Proof.
  intros [Halloc Hunshared Hfresh]. rewrite runCall_effect.
  destruct (PythonSettings_new_effect h
              (getSettingsUriAndTarget (call_resource c)
                 (workspaces w (default WorkspaceService_new (call_workspace c)))).1
              (Some (default WorkspaceService_new (call_workspace c)))
              (call_interpreterPathService c) w)
    as (Hres & _ & _ & Hls & Hnd & Hps & Hnl & _).
  destruct (pythonSettings w !! callKey w c) as [l0|] eqn:Hkey; [done|].
  assert (∀ d, (nextDisposable (PythonSettings_new h
                  (getSettingsUriAndTarget (call_resource c)
                     (workspaces w (default WorkspaceService_new (call_workspace c)))).1
                  (Some (default WorkspaceService_new (call_workspace c)))
                  (call_interpreterPathService c) w).2 ≤ d)%nat →
               listeners (PythonSettings_new h
                  (getSettingsUriAndTarget (call_resource c)
                     (workspaces w (default WorkspaceService_new (call_workspace c)))).1
                  (Some (default WorkspaceService_new (call_workspace c)))
                  (call_interpreterPathService c) w).2 !! d = None) as Hfresh'.
  { intros d. rewrite Hnd, Hls, initialListeners_lookup. intros Hd.
    assert (nextDisposable w + 2 ≤ d)%nat as Hd2
      by (unfold initialDisposables in Hd; destruct (bool_decide _); simpl in Hd; lia).
    rewrite !decide_False by lia.
    destruct (bool_decide (is_Some _)) eqn:Hsvc; cbn [andb].
    - unfold initialDisposables in Hd. simpl in Hd.
      rewrite bool_decide_eq_false_2 by lia. apply Hfresh. lia.
    - apply Hfresh. lia. }
  destruct (PythonSettings_new h _ _ _ w) as [[l|e] w1]; cbn [fst snd] in *.
  - assert (l = nextLoc w) as ->.
    { destruct (match getConfiguration _ _ _ with Some _ => _ | None => _ end).1;
        congruence. }
    split; cbn [pythonSettings nextLoc listeners nextDisposable with_pythonSettings].
    + intros key l. rewrite Hps, Hnl, lookup_insert. case_decide.
      * intros [= <-]. lia.
      * intros Hl%Halloc. lia.
    + intros key1 key2 l. rewrite Hps, !lookup_insert.
      repeat case_decide; try congruence.
      * intros [= <-] Hl%Halloc. lia.
      * intros Hl%Halloc [= <-]. lia.
      * apply Hunshared.
    + done.
  - split.
    + intros key l. rewrite Hps, Hnl. intros Hl%Halloc. lia.
    + intros key1 key2 l. rewrite Hps. apply Hunshared.
    + done.
Qed.

Lemma wfWorld_onWorkspaceFoldersChanged this w :
  wfWorld w → wfWorld (onWorkspaceFoldersChanged this w).2.
Proof.
  intros [Halloc Hunshared Hfresh]. rewrite onWorkspaceFoldersChanged_effect.
  destruct (workspaceFolders _) as [folders|]; [|done].
  assert (∀ ks key l,
            foldl (λ m k, delete k m) (pythonSettings w) ks !! key = Some l →
            pythonSettings w !! key = Some l) as Hsub.
  { intros ks key l. rewrite lookup_foldl_delete. by destruct (decide _). }
  split; cbn [snd pythonSettings nextLoc listeners nextDisposable with_pythonSettings].
  - intros key l Hl%Hsub. by eapply Halloc.
  - intros key1 key2 l H1%Hsub H2%Hsub. by eapply Hunshared.
  - done.
Qed.

Lemma wfWorld_dispose w : wfWorld w → wfWorld (PythonSettings_dispose h w).2.
Proof.
  intros [Halloc Hunshared Hfresh]. unfold PythonSettings_dispose.
  destruct (isTestExecution h); simpl; [|done].
  unfold bind at 1, getState at 1.
  destruct (forEach_dispose (map_to_list (pythonSettings w)).*2 w)
    as (w1 & Hrun & _ & _ & _ & _ & Hmono).
  pose proof (forEach_dispose_counters (map_to_list (pythonSettings w)).*2 w) as [_ Hnd].
  unfold bind. rewrite Hrun in Hnd |- *. simpl in Hnd. unfold assign. cbn [snd].
  split; cbn [pythonSettings nextLoc listeners nextDisposable with_pythonSettings].
  - intros key l. by rewrite lookup_empty.
  - intros key1 key2 l. by rewrite lookup_empty.
  - intros d Hd. apply Hmono, Hfresh. lia.
Qed.

Lemma wfWorld_register this w : wfWorld w → wfWorld (register h this w).2.
Proof.
  intros [Halloc Hunshared Hfresh]. unfold register, bind, assign.
  destruct (initialize_effect h this (with_pythonSettings ∅ w))
    as (_ & _ & _ & Hls & Hnd & Hps & _).
  cbn [pythonSettings listeners nextDisposable heap with_pythonSettings] in *.
  assert (wfWorld (initialize h this (with_pythonSettings ∅ w)).2) as Hwf.
  { split.
    - intros key l. by rewrite Hps, lookup_empty.
    - intros key1 key2 l. by rewrite Hps, lookup_empty.
    - intros d. rewrite Hnd, Hls, initialListeners_lookup. intros Hd.
      assert (nextDisposable w + 2 ≤ d)%nat as Hd2
        by (unfold initialDisposables in Hd; destruct (bool_decide _); simpl in Hd; lia).
      rewrite !decide_False by lia.
      destruct (bool_decide (is_Some _)) eqn:Hsvc; cbn [andb].
      + unfold initialDisposables in Hd. simpl in Hd.
        rewrite bool_decide_eq_false_2 by lia. apply Hfresh. lia.
      + apply Hfresh. lia. }
  by destruct (initialize h this _) as [[[]|e] w1].
Qed.

End WellFormedFacts.

(** X15: every operation of the class keeps the process well formed: the
    references in the map are allocated, no object sits under two scope keys,
    and the disposables not handed out yet name no listener. *)
Theorem wfWorld_preserved (h : Host) (w : World) :
  wfWorld w →
  (∀ c, wfWorld (runCall h c w).2)
  ∧ (∀ this, wfWorld (onWorkspaceFoldersChanged this w).2)
  ∧ wfWorld (PythonSettings_dispose h w).2
  ∧ (∀ this, wfWorld (register h this w).2).
Proof.
  intros Hwf. split; [|split; [|split]].
  - intros c. by apply wfWorld_runCall.
  - intros this. by apply wfWorld_onWorkspaceFoldersChanged.
  - by apply wfWorld_dispose.
  - intros this. by apply wfWorld_register.
Qed.

Lemma wfWorld_preserved_witness :
  wfWorld (afterCalls exampleHost exampleCalls (emptyWorld exampleWorkspace)).
Proof.
  assert (wfWorld (emptyWorld exampleWorkspace)) as Hwf0 by (split; done).
  unfold exampleCalls. cbn [afterCalls].
  apply (proj1 (wfWorld_preserved exampleHost _
                  (proj1 (wfWorld_preserved exampleHost _
                            (proj1 (wfWorld_preserved exampleHost _ Hwf0) _)) _))).
Defined.

(** X16: after the static [dispose] of a test run, the first [getInstance] for a
    scope returns a newly allocated object, different from every object the
    map held before. *)
Theorem dispose_then_getInstance_new (h : Host) (c : Call) (w : World) (r : option loc) :
  wfWorld w →
  isTestExecution h = true →
  (runCall h c (PythonSettings_dispose h w).2).1 = Normal r →
  r = Some (nextLoc w) ∧ ∀ key old, pythonSettings w !! key = Some old → r ≠ Some old.
Proof.
  intros [Halloc _ _] Htest Hrun.
  assert (pythonSettings (PythonSettings_dispose h w).2 = ∅
          ∧ nextLoc (PythonSettings_dispose h w).2 = nextLoc w) as [Hps Hnl].
  { unfold PythonSettings_dispose. rewrite Htest. simpl.
    unfold bind at 1, getState at 1.
    destruct (forEach_dispose (map_to_list (pythonSettings w)).*2 w) as (w1 & Hw1 & _).
    pose proof (forEach_dispose_counters (map_to_list (pythonSettings w)).*2 w) as [Hnl _].
    unfold bind. rewrite Hw1 in Hnl |- *. simpl in Hnl. unfold assign. simpl.
    by rewrite Hw1. }
  rewrite runCall_effect, Hps, lookup_empty in Hrun.
  destruct (PythonSettings_new_effect h
              (getSettingsUriAndTarget (call_resource c)
                 (workspaces (PythonSettings_dispose h w).2
                    (default WorkspaceService_new (call_workspace c)))).1
              (Some (default WorkspaceService_new (call_workspace c)))
              (call_interpreterPathService c) (PythonSettings_dispose h w).2)
    as (Hres & _).
  destruct (PythonSettings_new h _ _ _ (PythonSettings_dispose h w).2) as [[l|e] w1];
    cbn [fst snd] in *; [|done].
  assert (l = nextLoc w) as ->.
  { rewrite <-Hnl.
    destruct (match getConfiguration _ _ _ with Some _ => _ | None => _ end).1; congruence. }
  injection Hrun as <-. split; [done|].
  intros key old Hold%Halloc [= Heq]. lia.
Qed.

Lemma wfWorld_exampleWorld ws : wfWorld (exampleWorld ws).
Proof.
  split; cbn [exampleWorld pythonSettings nextLoc listeners nextDisposable].
  - intros key l. rewrite !lookup_insert, lookup_singleton.
    repeat case_decide; intros [= <-]; lia.
  - intros key1 key2 l. rewrite !lookup_insert, !lookup_singleton.
    repeat case_decide; intros [= <-]; try congruence; intros [=].
  - intros d Hd. rewrite !lookup_insert, lookup_singleton. repeat case_decide; try done; lia.
Qed.

Lemma dispose_then_getInstance_new_witness :
  Some 3%nat = Some (nextLoc (exampleWorld exampleWorkspace))
  ∧ ∀ key old, pythonSettings (exampleWorld exampleWorkspace) !! key = Some old →
               Some 3%nat ≠ Some old.
Proof.
  apply (dispose_then_getInstance_new (Posix.host "/home/u" [] [] true)
           {| call_resource := None; call_workspace := None;
              call_interpreterPathService := None |}
           (exampleWorld exampleWorkspace) (Some 3%nat)).
  - apply wfWorld_exampleWorld.
  - reflexivity.
  - vm_compute. reflexivity.
Defined.

(** X17: running the folders-changed handler a second time changes nothing: what
    it leaves in the map are paths of current folders only. *)
Theorem onWorkspaceFoldersChanged_idempotent (this : loc) (w : World) :
  bind (onWorkspaceFoldersChanged this) (λ _, onWorkspaceFoldersChanged this) w
  = onWorkspaceFoldersChanged this w.
Proof.
  unfold bind. rewrite (onWorkspaceFoldersChanged_effect this w).
  destruct (workspaceFolders (workspaces w (workspace (heap w this)))) as [folders|] eqn:Hf;
    [|done].
  rewrite onWorkspaceFoldersChanged_effect.
  cbn [workspaces heap pythonSettings with_pythonSettings]. rewrite Hf.
  set (paths := map (λ workspaceFolder, fsPath (uri workspaceFolder)) folders).
  set (kept := foldl (λ m k, delete k m) (pythonSettings w) _).
  assert (filter (λ item, arrayIndexOf paths item < 0) (map_to_list kept).*1 = []) as ->.
  { apply elem_of_nil_inv. intros key [Hneg Hkey]%list_elem_of_filter.
    apply list_elem_of_fmap in Hkey as ([k l] & -> & Hl%elem_of_map_to_list).
    unfold kept in Hl. rewrite lookup_foldl_delete in Hl.
    destruct (decide _) as [|Hnot]; [done|]. apply Hnot.
    apply list_elem_of_filter. split; [done|].
    apply list_elem_of_fmap. exists (k, l). split; [done|]. by apply elem_of_map_to_list. }
  done.
Qed.

(** X18: [register()] empties the map, whatever the map held and however the
    recompute ends, and subscribes the object once more without disposing the
    subscriptions it has: the disposables of the new listeners are appended to
    the ones the object holds, and no listener is removed. *)
Theorem register_resubscribes (h : Host) (this : loc) (w : World) :
  (∀ d, (nextDisposable w ≤ d)%nat → listeners w !! d = None) →
  let w' := (register h this w).2 in
  let withService := bool_decide (is_Some (interpreterPathService (heap w this))) in
  pythonSettings w' = ∅
  ∧ disposables (heap w' this)
    = disposables (heap w this) ++ initialDisposables (nextDisposable w) withService
  ∧ listeners w ⊆ listeners w'.
Proof.
  intros Hfresh w' withService. subst w'. unfold register, bind, assign.
  destruct (initialize_effect h this (with_pythonSettings ∅ w))
    as (_ & Hthis & _ & Hls & _ & Hps & _).
  cbn [pythonSettings listeners nextDisposable heap workspaces interpreterPaths
       with_pythonSettings] in *.
  fold withService in Hthis, Hls.
  assert (pythonSettings (initialize h this (with_pythonSettings ∅ w)).2 = ∅
          ∧ disposables (heap (initialize h this (with_pythonSettings ∅ w)).2 this)
            = disposables (heap w this) ++ initialDisposables (nextDisposable w) withService
          ∧ listeners w ⊆ listeners (initialize h this (with_pythonSettings ∅ w)).2) as Hall.
  { split; [done|]. split.
    - rewrite Hthis. destruct (getConfiguration _ _ _) as [cfg|]; [|done].
      match goal with |- context [update h ?sv cfg ?o] =>
        by destruct (update_frame h sv cfg o) as (_ & -> & _) end.
    - rewrite Hls. apply map_subseteq_spec. intros d l Hd.
      rewrite initialListeners_lookup.
      assert (d < nextDisposable w)%nat as Hlt.
      { destruct (decide (d < nextDisposable w)%nat); [done|].
        rewrite Hfresh in Hd by lia. done. }
      rewrite !decide_False by lia.
      destruct withService; cbn [andb]; [|done].
      by rewrite bool_decide_eq_false_2 by lia. }
  by destruct (initialize h this _) as [[[]|e] w1].
Qed.

Lemma register_resubscribes_witness :
  let w' := (register exampleHost 1%nat (exampleWorld exampleWorkspace)).2 in
  pythonSettings w' = ∅
  ∧ disposables (heap w' 1%nat) = [2; 3; 6; 7]%nat
  ∧ listeners (exampleWorld exampleWorkspace) ⊆ listeners w'.
Proof.
  apply (register_resubscribes exampleHost 1%nat (exampleWorld exampleWorkspace)).
  apply wfWorld_exampleWorld.
Defined.

(** ** The scope of a resource *)

Lemma getSettingsUriAndTarget_scope_aux (resource : Resource) (ws : WorkspaceState) :
  let containing := resource ≫= getWorkspaceFolder ws in
  let answer := getSettingsUriAndTarget resource ws in
  answer.1 = match containing, workspaceFolders ws with
             | Some workspaceFolder, _ => Some (uri workspaceFolder)
             | None, Some (first :: _) => Some (uri first)
             | None, _ => None
             end
  ∧ (answer.2 = Global ↔ answer.1 = None)
  ∧ (answer.1 = None ↔
     containing = None ∧ (workspaceFolders ws = None ∨ workspaceFolders ws = Some [])).
Proof.
  unfold getSettingsUriAndTarget.
  destruct resource as [r|]; simpl;
    [destruct (getWorkspaceFolder ws r) as [f|]|];
    destruct (workspaceFolders ws) as [[|first rest]|]; simpl;
    (split; [done|]); split; split; try done; try (intros [? [?|?]]; done);
    intros _; split; try done; by eauto.
Qed.

(** X19: [getSettingsUriAndTarget] answers the folder that contains the resource,
    else the first folder of the workspace, else nothing; the target is
    [Global] exactly when it answers nothing, which happens exactly when no
    folder contains the resource and the workspace has no folder. *)
Theorem getSettingsUriAndTarget_scope (resource : Resource) (ws : WorkspaceState) :
  let containing := resource ≫= getWorkspaceFolder ws in
  let answer := getSettingsUriAndTarget resource ws in
  answer.1 = match containing, workspaceFolders ws with
             | Some workspaceFolder, _ => Some (uri workspaceFolder)
             | None, Some (first :: _) => Some (uri first)
             | None, _ => None
             end
  ∧ (answer.2 = Global ↔ answer.1 = None)
  ∧ (answer.1 = None ↔
     containing = None ∧ (workspaceFolders ws = None ∨ workspaceFolders ws = Some [])).
Proof. apply getSettingsUriAndTarget_scope_aux. Qed.

Lemma getSettingsUriAndTarget_scope_witness :
  (getSettingsUriAndTarget None exampleWorkspace).1 = Some {| fsPath := "/proj" |}
  ∧ (getSettingsUriAndTarget None exampleWorkspace).2 = WorkspaceFolderTarget.
Proof.
  destruct (getSettingsUriAndTarget_scope None exampleWorkspace) as (Huri & _ & _).
  split; [exact Huri | reflexivity].
Defined.

(** X20: a resource that no folder contains, and no resource at all, get the
    settings of the first workspace folder: in a workspace with folders, a
    call for such a resource and a call for a resource of the first folder
    are handed the same object. *)
Theorem getInstance_falls_back_to_first_folder (h : Host) (w : World)
    (outside inside : Resource) (svc1 svc2 : option handle)
    (first : WorkspaceFolder) (rest : list WorkspaceFolder) (r1 r2 : option loc) :
  let ws := workspaces w WorkspaceService_new in
  workspaceFolders ws = Some (first :: rest) →
  outside ≫= getWorkspaceFolder ws = None →
  inside ≫= getWorkspaceFolder ws = Some first →
  let calls := [ {| call_resource := outside; call_workspace := None;
                    call_interpreterPathService := svc1 |};
                 {| call_resource := inside; call_workspace := None;
                    call_interpreterPathService := svc2 |} ] in
  (getInstanceTrace h calls w).*2 = [Normal r1; Normal r2] →
  r1 = r2 ∧ (getInstanceTrace h calls w).*1 = [fsPath (uri first); fsPath (uri first)].
Proof.
  intros ws Hfolders Houtside Hinside calls Htrace.
  set (c1 := {| call_resource := outside; call_workspace := None;
                call_interpreterPathService := svc1 |}) in *.
  set (c2 := {| call_resource := inside; call_workspace := None;
                call_interpreterPathService := svc2 |}) in *.
  assert (callKey w c1 = fsPath (uri first)) as Hk1.
  { unfold callKey, workspaceFolderKey. cbn [c1 call_resource call_workspace default].
    fold ws.
    destruct (getSettingsUriAndTarget_scope_aux outside ws) as [-> _].
    by rewrite Houtside, Hfolders. }
  assert (callKey (runCall h c1 w).2 c2 = fsPath (uri first)) as Hk2.
  { unfold callKey, workspaceFolderKey. cbn [c2 call_resource call_workspace default].
    rewrite runCall_keeps_workspaces. fold ws.
    destruct (getSettingsUriAndTarget_scope_aux inside ws) as [-> _].
    by rewrite Hinside. }
  subst calls. cbn [getInstanceTrace fmap list_fmap snd fst] in *.
  rewrite Hk1, Hk2. injection Htrace as H1 H2. split; [|done].
  destruct (getInstanceTrace_entry h [c1; c2] w 0 (fsPath (uri first)) r1) as [_ <-].
  { cbn [getInstanceTrace lookup list_lookup]. by rewrite Hk1, H1. }
  destruct (getInstanceTrace_entry h [c1; c2] w 1 (fsPath (uri first)) r2) as [_ <-].
  { cbn [getInstanceTrace lookup list_lookup]. by rewrite Hk2, H2. }
  done.
Qed.

Lemma getInstance_falls_back_to_first_folder_witness :
  Some 0%nat = Some 0%nat
  ∧ (getInstanceTrace exampleHost
       [ {| call_resource := None; call_workspace := None;
            call_interpreterPathService := None |};
         {| call_resource := Some {| fsPath := "/proj/a.py" |}; call_workspace := None;
            call_interpreterPathService := None |} ]
       (emptyWorld exampleWorkspace)).*1 = ["/proj"; "/proj"]%string.
Proof.
  apply (getInstance_falls_back_to_first_folder exampleHost (emptyWorld exampleWorkspace)
           None (Some {| fsPath := "/proj/a.py" |}) None None
           {| uri := {| fsPath := "/proj" |}; name := "proj"; index := 0%nat |}
           [ {| uri := {| fsPath := "/lib" |}; name := "lib"; index := 1%nat |} ]
           (Some 0%nat) (Some 0%nat)).
  - reflexivity.
  - reflexivity.
  - reflexivity.
  - vm_compute. reflexivity.
Defined.

(** ** The serialisable copy *)

Section SerializableFacts.
Context {V : Type}.

Lemma assignProperty_fresh (k : string) (v : V) (target : list (string * V)) :
  k ∉ target.*1 → assignProperty k v target = target ++ [(k, v)].
Proof.
  induction target as [|[k0 v0] rest IH]; simpl; [done|].
  intros [Hne Hrest]%not_elem_of_cons. rewrite decide_False by done. by rewrite IH.
Qed.

(** The loop of [toSerializable] from a clone built so far. *)
Lemma toSerializable_loop (clone settings : list (string * V)) :
  NoDup (clone.*1 ++ settings.*1) →
  foldl (λ clone e, if isSerializableKey e.1 then assignProperty e.1 e.2 clone else clone)
        clone settings
  = clone ++ filter (λ e, isSerializableKey e.1 = true) settings.
Proof.
  revert clone. induction settings as [|[k v] rest IH]; intros clone Hnodup; simpl.
  - by rewrite app_nil_r.
  - apply NoDup_app in Hnodup as (Hclone & Hdisjoint & Hsettings).
    apply NoDup_cons in Hsettings as [Hk Hrest]. simpl in *.
    destruct (isSerializableKey k) eqn:Hkey.
    + rewrite filter_cons_True by done.
      rewrite assignProperty_fresh by (intros Hin; by apply (Hdisjoint k Hin); left).
      rewrite IH; [by rewrite <-app_assoc|].
      rewrite fmap_app. simpl. rewrite <-app_assoc. simpl.
      apply NoDup_app. split; [done|]. split; [|by apply NoDup_cons].
      intros x Hx. by apply Hdisjoint.
    + rewrite filter_cons_False by (simpl; congruence).
      apply IH. apply NoDup_app. split; [done|]. split; [|done].
      intros x Hx Hin. apply (Hdisjoint x Hx). by right.
Qed.

End SerializableFacts.

(** X21: the serialisable copy of an object holds exactly the entries whose key
    contains none of ['Manager'], ['Service'] and ['onDid'], in the order of
    the object and with the values of the object; so no such key is in the
    copy, and the copy of a copy is that copy. *)
Theorem toSerializable_filters {V : Type} (settings : list (string * V)) :
  NoDup settings.*1 →
  toSerializable settings = filter (λ e, isSerializableKey e.1 = true) settings
  ∧ Forall (λ e, includes e.1 "Manager" = false ∧ includes e.1 "Service" = false
                 ∧ includes e.1 "onDid" = false) (toSerializable settings)
  ∧ toSerializable (toSerializable settings) = toSerializable settings.
Proof.
  intros Hnodup.
  assert (∀ l : list (string * V), NoDup l.*1 →
            toSerializable l = filter (λ e, isSerializableKey e.1 = true) l) as Hspec.
  { intros l Hl. unfold toSerializable. by rewrite toSerializable_loop. }
  assert (NoDup (filter (λ e : string * V, isSerializableKey e.1 = true) settings).*1)
    as Hnodup'.
  { clear Hspec. induction settings as [|[k v] rest IH]; simpl; [constructor|].
    apply NoDup_cons in Hnodup as [Hk Hrest].
    rewrite filter_cons. simpl. destruct (decide _); [|by apply IH].
    simpl. apply NoDup_cons. split; [|by apply IH].
    intros ([k' v'] & -> & Hin%list_elem_of_filter)%list_elem_of_fmap.
    destruct Hin as [_ Hin]. apply Hk. apply list_elem_of_fmap. by exists (k', v'). }
  rewrite !Hspec by (rewrite ?Hspec; done).
  split; [done|]. split.
  - apply Forall_forall. intros [k v] [Hkey _]%list_elem_of_filter.
    unfold isSerializableKey in Hkey. simpl in *.
    by destruct (includes k "Manager"), (includes k "Service"), (includes k "onDid").
  - apply list_filter_filter_l. by intros x Hx.
Qed.

Lemma toSerializable_filters_witness :
  toSerializable [ ("pythonPath", 1); ("interpreterPathService", 2); ("envFile", 3);
                   ("onDidChange", 4); ("experimentsManager", 5); ("workspace", 6) ]%string
  = [ ("pythonPath", 1); ("envFile", 3); ("workspace", 6) ]%string.
Proof.
  refine (eq_trans (proj1 (toSerializable_filters _ _)) _); [|reflexivity].
  vm_compute. repeat constructor; intros Hin;
    repeat (apply elem_of_cons in Hin as [Heq|Hin]; [discriminate|]);
    by apply elem_of_nil in Hin.
Defined.

(** ** Change events *)

Section NotificationFacts.
Context (h : Host).

(** A recompute without configuration always throws. *)
Lemma updateUndefined_throws services this :
  ∃ e this', updateUndefined h services this = (Throw e, this').
Proof.
  unfold updateUndefined. unfold bind at 1, getState at 1.
  cbn [inExperimentDeprecatePythonPath].
  destruct (interpreterPathService this) as [svc|]; [|by eexists _, _].
  unfold bind at 1.
  match goal with |- context [set_pythonPath h ?v this] =>
    destruct (set_pythonPath_frame h v this) as (v1 & -> & _) end.
  unfold bind at 1, getState at 1, bind at 1, liftC at 1.
  destruct (getAbsolutePath h _ _) as [p|e]; [|by eexists _, _].
  unfold bind at 1.
  match goal with |- context [set_pythonPath h ?v ?t] =>
    destruct (set_pythonPath_frame h v t) as (v2 & -> & _) end.
  by eexists _, _.
Qed.

(** [onDidChanged] written out: the object is recomputed, and the call to
    the debounced notification is made only when the recompute returned. *)
Lemma onDidChanged_effect this event w log :
  let o := heap w this in
  let recompute :=
    match getConfiguration (workspaces w (workspace o)) "python" (workspaceRoot o) with
    | Some cfg => update h (interpreterPaths w) cfg o
    | None => updateUndefined h (interpreterPaths w) o
    end in
  onDidChanged h this event (w, log) =
    match recompute.1 with
    | Normal _ =>
        (Normal (), (with_heap (<[this := recompute.2]> (heap w)) w, log ++ [(this, event)]))
    | Throw e => (Throw e, (with_heap (<[this := recompute.2]> (heap w)) w, log))
    end.
Proof.
  intros o recompute. subst recompute o.
  unfold onDidChanged, onWorld, onThis, debounceChangeNotification.
  unfold bind, getState, assign. cbn [fst snd].
  destruct (getConfiguration _ _ _) as [cfg|].
  - by destruct (update h (interpreterPaths w) cfg (heap w this)) as [[[]|e] o'].
  - by destruct (updateUndefined h (interpreterPaths w) (heap w this)) as [[[]|e] o'].
Qed.

End NotificationFacts.

(** X22: the configuration listener ignores an event that does not affect the
    ['python'] section: nothing is recomputed and no notification is asked
    for. For an event that does, the object is recomputed from the current
    configuration, and the debounced notification is asked for, once and with
    that event, exactly when the recompute returned; a recompute that throws
    asks for none. The map, the listeners and the other objects are left
    alone in every case. *)
Theorem configurationListener_notifies (h : Host) (this : loc)
    (event : ConfigurationChangeEvent) (w : World)
    (log : list (loc * option ConfigurationChangeEvent)) :
  let o := heap w this in
  let currentConfig :=
    getConfiguration (workspaces w (workspace o)) "python" (workspaceRoot o) in
  let res := configurationListener h this event (w, log) in
  (affectsConfiguration event "python" = false → res = (Normal (), (w, log)))
  ∧ (affectsConfiguration event "python" = true →
     (res.1 = Normal () ↔
      ∃ cfg, currentConfig = Some cfg
             ∧ is_Some (pythonPathSource (interpreterPaths w) cfg o))
     ∧ res.2.2 = match res.1 with
                 | Normal _ => log ++ [(this, Some event)]
                 | Throw _ => log
                 end
     ∧ (∀ cfg, currentConfig = Some cfg →
               heap res.2.1 this = (update h (interpreterPaths w) cfg o).2))
  ∧ pythonSettings res.2.1 = pythonSettings w
  ∧ listeners res.2.1 = listeners w
  ∧ (∀ l, l ≠ this → heap res.2.1 l = heap w l).
Proof.
  intros o currentConfig res. subst res. unfold configurationListener.
  destruct (affectsConfiguration event "python").
  - split; [done|]. rewrite onDidChanged_effect. fold o. fold currentConfig.
    set (recompute := match currentConfig with Some _ => _ | None => _ end).
    assert (recompute.1 = Normal () ↔
            ∃ cfg, currentConfig = Some cfg
                   ∧ is_Some (pythonPathSource (interpreterPaths w) cfg o)) as Hiff.
    { unfold recompute. destruct currentConfig as [cfg|].
      - destruct (pythonPathSource (interpreterPaths w) cfg o) as [s|] eqn:Hsrc.
        + destruct (update_completes h (interpreterPaths w) cfg o s Hsrc) as (o' & -> & _).
          split; [|done]. intros _. exists cfg. by rewrite Hsrc.
        + rewrite (update_throws h (interpreterPaths w) cfg o Hsrc).
          split; [done|]. intros (cfg' & [= <-] & Hsome). rewrite Hsrc in Hsome.
          by destruct Hsome.
      - destruct (updateUndefined_throws h (interpreterPaths w) o) as (e & o' & ->).
        split; [done|]. by intros (cfg & ? & _). }
    assert (∀ cfg, currentConfig = Some cfg →
                   recompute.2 = (update h (interpreterPaths w) cfg o).2) as Hobj.
    { intros cfg Hcfg. unfold recompute. by rewrite Hcfg. }
    destruct recompute.1 as [[]|e] eqn:Hres; cbn [fst snd heap with_heap pythonSettings
                                                 listeners].
    + split; [|split; [done|split; [done|]]].
      * intros _. split; [by rewrite <-Hiff|]. split; [done|].
        intros cfg Hcfg. rewrite fn_lookup_insert. by apply Hobj.
      * intros l Hl. by rewrite fn_lookup_insert_ne.
    + split; [|split; [done|split; [done|]]].
      * intros _. split.
        { rewrite <-Hiff. by split. }
        split; [done|]. intros cfg Hcfg. rewrite fn_lookup_insert. by apply Hobj.
      * intros l Hl. by rewrite fn_lookup_insert_ne.
  - split; [done|]. split; [done|]. done.
Qed.

Lemma configurationListener_notifies_witness :
  let event := {| affectsConfiguration := λ section, bool_decide (section = "python"%string) |} in
  let res := configurationListener exampleHost 1%nat event
               (exampleWorld exampleWorkspace, []) in
  res.1 = Normal () ∧ res.2.2 = [(1%nat, Some event)].
Proof.
  intros event res.
  destruct (configurationListener_notifies exampleHost 1%nat event
              (exampleWorld exampleWorkspace) []) as (_ & Haffects & _).
  destruct (Haffects eq_refl) as (Hiff & Hlog & _).
  assert (res.1 = Normal ()) as Hres.
  { apply Hiff. exists exampleConfiguration. split; [reflexivity|]. by eexists. }
  split; [exact Hres|]. fold res in Hlog. by rewrite Hres in Hlog.
Defined.

(** ** The enumerations *)

(** X23: the members of each enumeration have pairwise different run-time values,
    so a value identifies its member. *)
Theorem enum_values_injective :
  (∀ s t, TerminalShellType_value s = TerminalShellType_value t → s = t)
  ∧ (∀ p q, TerminalActivationProviders_value p = TerminalActivationProviders_value q → p = q).
Proof.
  split.
  - intros [] [] Heq; try reflexivity; discriminate Heq.
  - intros [] [] Heq; try reflexivity; discriminate Heq.
Qed.

Lemma enum_values_injective_witness :
  tcshell = tcshell ∧ conda = conda.
Proof.
  split.
  - exact (proj1 enum_values_injective tcshell tcshell eq_refl).
  - exact (proj2 enum_values_injective conda conda eq_refl).
Defined.
